(** * Remote destroy: a shallow embedding of [cmd/destroy/remote.go]

    The development follows the Go source function by function.  Go strings
    are Rocq strings (sequences of bytes), Go slices are lists, Go maps and
    the filesystem are finite maps, and every function that touches the
    process state (working directory, filesystem, environment, random
    source, log) passes a [World] explicitly. *)

From Stdlib Require Import ZArith Ascii.
From stdpp Require Import base decidable option list strings gmap pretty sorting.

(** String concatenation computes on the constructors of its first operand. *)
#[local] Arguments String.append !_ _ / : simpl nomatch.

(** ** Strings and [fmt.Sprintf] *)

(** The double-quote byte (ASCII 34), which the Go source writes escaped. *)
Definition dquote : string := String "034"%char EmptyString.

(** The line-feed byte. *)
Definition LF : string := String "010"%char EmptyString.

(** Tests on the bytes of a string. *)
Definition is_char (a c : ascii) : bool := bool_decide (a = c).

Fixpoint string_forallb (p : ascii → bool) (s : string) : bool :=
  match s with
  | EmptyString => true
  | String c rest => p c && string_forallb p rest
  end.

(** A string without a line feed, without a space, without a double quote. *)
Definition single_line (s : string) : bool :=
  string_forallb (λ c, negb (is_char "010" c)) s.

Definition no_space (s : string) : bool :=
  string_forallb (λ c, negb (is_char " " c)) s.

Definition quote_free (s : string) : bool :=
  string_forallb (λ c, negb (is_char "034" c)) s.

(** [strings.Contains s sub]. *)
Fixpoint strings_Contains (s sub : string) : bool :=
  if String.prefix sub s then true
  else match s with
       | EmptyString => false
       | String _ rest => strings_Contains rest sub
       end.

(** [strings.Join elems sep]. *)
Fixpoint strings_Join (elems : list string) (sep : string) : string :=
  match elems with
  | [] => ""
  | [e] => e
  | e :: rest => e +:+ sep +:+ strings_Join rest sep
  end.

(** [fmt.Sprintf] restricted to the verbs the program uses on strings:
    [%s] takes the next operand, [%%] is a literal percent sign, and a
    missing operand prints as Go prints it. *)
Fixpoint Sprintf (format : string) (args : list string) : string :=
  match format with
  | EmptyString => EmptyString
  | String "%"%char (String "s"%char rest) =>
      match args with
      | a :: args' => a +:+ Sprintf rest args'
      | [] => "%!s(MISSING)" +:+ Sprintf rest []
      end
  | String "%"%char (String "%"%char rest) => String "%"%char (Sprintf rest args)
  | String c rest => String c (Sprintf rest args)
  end.

(** ** Errors

    A Go [error] value is a chain: a node and, when the node's type has an
    [Unwrap] method, the error below it.  The constructors are the error
    types the program creates or inspects. *)

Inductive error : Type :=
| errors_New (text : string)
    (* an opaque error of some other type, identified by its text *)
| ErrNotExist
    (* the sentinel os.ErrNotExist *)
| PathError (Op Path : string) (Err : error)
    (* fs.PathError, what the filesystem returns; it unwraps to Err *)
| fmt_Errorf (format : string) (a : error)
    (* fmt.Errorf(format, a) with one error operand *)
| OktetoCommandErr (Stage : string) (Err : error)
    (* build.OktetoCommandErr{Stage, Err} *)
| UserError (E : error) (Hint : string).
    (* oktetoErrors.UserError{E, Hint} *)

(** The declarations of [build.OktetoCommandErr] and [oktetoErrors.UserError]
    are outside the sources at hand, so whether each of them has an [Unwrap]
    method is a parameter of the development. *)
Record ErrorDecls : Type := {
  OktetoCommandErr_has_Unwrap : bool;
  UserError_has_Unwrap : bool
}.

(** Does a format have the verb [%w]?  A percent sign takes the byte after
    it as its verb, so the escaped percent sign is skipped as a pair. *)
Fixpoint format_wraps (format : string) : bool :=
  match format with
  | EmptyString => false
  | String "%"%char (String verb rest) =>
      if is_char "w" verb then true else format_wraps rest
  | String _ rest => format_wraps rest
  end.

Section Errors.
Variable decls : ErrorDecls.

(** [errors.Unwrap]: [fmt.Errorf] wraps its operand exactly when the
    format has the verb [%w]. *)
Definition errors_Unwrap (err : error) : option error :=
  match err with
  | errors_New _ | ErrNotExist => None
  | PathError _ _ e => Some e
  | fmt_Errorf format a => if format_wraps format then Some a else None
  | OktetoCommandErr _ e => if OktetoCommandErr_has_Unwrap decls then Some e else None
  | UserError e _ => if UserError_has_Unwrap decls then Some e else None
  end.

(** [errors.As(err, &cmdErr)] for a target of type [build.OktetoCommandErr]:
    the first node of that type along the chain, as (Stage, Err). *)
Fixpoint errors_As_OktetoCommandErr (err : error) : option (string * error) :=
  match err with
  | OktetoCommandErr stage e => Some (stage, e)
  | errors_New _ | ErrNotExist => None
  | PathError _ _ e => errors_As_OktetoCommandErr e
  | fmt_Errorf format a =>
      if format_wraps format then errors_As_OktetoCommandErr a else None
  | UserError e _ =>
      if UserError_has_Unwrap decls then errors_As_OktetoCommandErr e else None
  end.

(** [errors.As(err, &userErr)] for a target of type [oktetoErrors.UserError]:
    the first node of that type along the chain, as (E, Hint). *)
Fixpoint errors_As_UserError (err : error) : option (error * string) :=
  match err with
  | UserError e hint => Some (e, hint)
  | errors_New _ | ErrNotExist => None
  | PathError _ _ e => errors_As_UserError e
  | fmt_Errorf format a =>
      if format_wraps format then errors_As_UserError a else None
  | OktetoCommandErr _ e =>
      if OktetoCommandErr_has_Unwrap decls then errors_As_UserError e else None
  end.

(** [errors.Is(err, os.ErrNotExist)]. *)
Fixpoint errors_Is_ErrNotExist (err : error) : bool :=
  match err with
  | ErrNotExist => true
  | errors_New _ => false
  | PathError _ _ e => errors_Is_ErrNotExist e
  | fmt_Errorf format a =>
      if format_wraps format then errors_Is_ErrNotExist a else false
  | OktetoCommandErr _ e =>
      if OktetoCommandErr_has_Unwrap decls then errors_Is_ErrNotExist e else false
  | UserError e _ =>
      if UserError_has_Unwrap decls then errors_Is_ErrNotExist e else false
  end.
End Errors.

(** ** The destroy options and the derived flags *)

(** The fields of [Options] that [getDestroyFlags] reads. *)
Record Options : Type := {
  Name : string;
  Namespace : string;
  ManifestPathFlag : string;
  DestroyVolumes : bool;
  ForceDestroy : bool
}.

(** [getDestroyFlags]: [deployFlags] starts as the nil slice and grows by
    [append], one conditional after the other. *)
Definition getDestroyFlags (opts : Options) : list string :=
  let deployFlags : list string := [] in
  let deployFlags :=
    if bool_decide (Name opts ≠ "")
    then deployFlags ++ [Sprintf ("--name " +:+ dquote +:+ "%s" +:+ dquote) [Name opts]]
    else deployFlags in
  let deployFlags :=
    if bool_decide (Namespace opts ≠ "")
    then deployFlags ++ [Sprintf "--namespace %s" [Namespace opts]]
    else deployFlags in
  let deployFlags :=
    if bool_decide (ManifestPathFlag opts ≠ "")
    then deployFlags ++ [Sprintf "--file %s" [ManifestPathFlag opts]]
    else deployFlags in
  let deployFlags :=
    if DestroyVolumes opts then deployFlags ++ ["--volumes"] else deployFlags in
  let deployFlags :=
    if ForceDestroy opts then deployFlags ++ ["--force-destroy"] else deployFlags in
  deployFlags.

(** The five flags in the order of the source, each as it is printed when
    its field is set. *)
Definition name_flag (opts : Options) : string :=
  "--name " +:+ dquote +:+ Name opts +:+ dquote.
Definition namespace_flag (opts : Options) : string :=
  "--namespace " +:+ Namespace opts.
Definition file_flag (opts : Options) : string :=
  "--file " +:+ ManifestPathFlag opts.
Definition candidate_flags (opts : Options) : list string :=
  [name_flag opts; namespace_flag opts; file_flag opts; "--volumes"; "--force-destroy"].

Definition example_options : Options :=
  {| Name := "myenv"; Namespace := "ns1"; ManifestPathFlag := "";
     DestroyVolumes := true; ForceDestroy := false |}.

(** ** How a shell reads the flags

    The manifest runs the destroy command through [/bin/sh], and the flags
    are arguments of that command.  What a POSIX shell does with the
    arguments of a command is modelled for command lines made of three
    kinds of bytes: bytes that the shell takes literally wherever they
    stand (letters, digits, and the five bytes - _ . / :), blanks, and
    double quotes.  Blanks separate words unless they stand between double
    quotes; the quotes are removed, and what they enclose belongs to the
    word around it.  Every other byte (single quote, backslash, dollar,
    backquote, tab, line feed, the pattern and operator characters) has a
    meaning of its own to the shell: a command line with such a byte, or
    with a double quote that is not closed, is outside the model, and the
    result is [None]. *)

Definition word_so_far (cur : option string) : string :=
  match cur with
  | Some w => w
  | None => ""
  end.

Definition push (cur : option string) (c : ascii) : option string :=
  Some (word_so_far cur +:+ String c "").

Definition finish (cur : option string) : list string :=
  match cur with
  | Some w => [w]
  | None => []
  end.

(** A byte that the shell takes literally wherever it stands. *)
Definition is_literal (c : ascii) : bool :=
  let n := N_of_ascii c in
  ((48 <=? n) && (n <=? 57) || (65 <=? n) && (n <=? 90) || (97 <=? n) && (n <=? 122))%N
  || is_char "-" c || is_char "_" c || is_char "." c || is_char "/" c || is_char ":" c.

Fixpoint sh_words_go (in_quote : bool) (cur : option string) (s : string)
    : option (list string) :=
  match s with
  | EmptyString => if in_quote then None else Some (finish cur)
  | String c rest =>
      if is_char "034" c
      then sh_words_go (negb in_quote) (Some (word_so_far cur)) rest
      else if is_char " " c
      then if in_quote then sh_words_go true (push cur c) rest
           else (finish cur ++.) <$> sh_words_go false None rest
      else if is_literal c then sh_words_go in_quote (push cur c) rest
      else None
  end.

(** The words that the shell reads from the arguments [s]. *)
Definition sh_words (s : string) : option (list string) := sh_words_go false None s.

(** A text of literal bytes, and a text of literal bytes and blanks. *)
Definition literal_text (s : string) : bool := string_forallb is_literal s.

Definition literal_or_blank (s : string) : bool :=
  string_forallb (λ c, is_literal c || is_char " " c) s.

(** The parts of a text that blanks separate, as [strings.Fields] gives
    them for a text whose only white space is the blank. *)
Fixpoint fields_go (cur : option string) (s : string) : list string :=
  match s with
  | EmptyString => finish cur
  | String c rest =>
      if is_char " " c then finish cur ++ fields_go None rest
      else fields_go (push cur c) rest
  end.

Definition blank_fields (s : string) : list string := fields_go None s.

(** The words that the flags of [getDestroyFlags] are read as when the
    values are texts of literal bytes and blanks: the name is one word, the
    namespace and the manifest path are as many words as they have
    parts. *)
Definition destroy_words (opts : Options) : list string :=
  (if bool_decide (Name opts ≠ "") then ["--name"; Name opts] else []) ++
  (if bool_decide (Namespace opts ≠ "")
   then "--namespace" :: blank_fields (Namespace opts) else []) ++
  (if bool_decide (ManifestPathFlag opts ≠ "")
   then "--file" :: blank_fields (ManifestPathFlag opts) else []) ++
  (if DestroyVolumes opts then ["--volumes"] else []) ++
  (if ForceDestroy opts then ["--force-destroy"] else []).

(** The shell reads [flag] as the words [words], at the end of the
    arguments and before a blank. *)
Definition reads_as (flag : string) (words : list string) : Prop :=
  sh_words_go false None flag = Some words ∧
  ∀ rest, sh_words_go false None (flag +:+ " " +:+ rest) =
          (words ++.) <$> sh_words_go false None rest.

(** What [strings.Join] with a blank puts after an element that is followed
    by the elements [l]. *)
Definition join_tail (l : list string) : string :=
  match l with
  | [] => ""
  | _ => " " +:+ strings_Join l " "
  end.

(** The flag string that [createDockerfile] hands to the template. *)
Definition joined_flags (opts : Options) : string :=
  strings_Join (getDestroyFlags opts) " ".

(** The arguments that the flags of [getDestroyFlags] stand for, each flag
    and each value a word of its own. *)
Definition destroy_arguments (opts : Options) : list string :=
  (if bool_decide (Name opts ≠ "") then ["--name"; Name opts] else []) ++
  (if bool_decide (Namespace opts ≠ "") then ["--namespace"; Namespace opts] else []) ++
  (if bool_decide (ManifestPathFlag opts ≠ "") then ["--file"; ManifestPathFlag opts] else []) ++
  (if DestroyVolumes opts then ["--volumes"] else []) ++
  (if ForceDestroy opts then ["--force-destroy"] else []).

(** Options whose namespace and manifest path have a blank that splits
    nothing. *)
Definition edge_blank_options : Options :=
  {| Name := "myenv"; Namespace := " x"; ManifestPathFlag := "f.yml ";
     DestroyVolumes := false; ForceDestroy := false |}.

(** ** Regular expressions: [regexp.MatchString]

    The pattern of [getOktetoCLIVersion] is kept as a syntax tree and matched
    with derivatives.  [\d] is the class of the ten ASCII digits (the only
    digits RE2 puts in it), so matching byte by byte agrees with matching
    rune by rune: no byte of a multi-byte rune is a digit or a dot. *)

Inductive regexp : Type :=
| re_none                              (* matches nothing *)
| re_eps                               (* the empty string *)
| re_class (p : ascii → bool)          (* one byte of a class *)
| re_cat (r1 r2 : regexp)
| re_alt (r1 r2 : regexp)
| re_star (r : regexp).

Definition re_plus (r : regexp) : regexp := re_cat r (re_star r).

Definition is_digit (c : ascii) : bool :=
  match Ascii.is_nat c with Some _ => true | None => false end.

(** The pattern [\d+\.\d+\.\d+]. *)
Definition version_pattern : regexp :=
  re_cat (re_plus (re_class is_digit))
    (re_cat (re_class (is_char "."))
       (re_cat (re_plus (re_class is_digit))
          (re_cat (re_class (is_char "."))
             (re_plus (re_class is_digit))))).

Fixpoint nullable (r : regexp) : bool :=
  match r with
  | re_none => false
  | re_eps => true
  | re_class _ => false
  | re_cat r1 r2 => nullable r1 && nullable r2
  | re_alt r1 r2 => nullable r1 || nullable r2
  | re_star _ => true
  end.

Fixpoint deriv (c : ascii) (r : regexp) : regexp :=
  match r with
  | re_none | re_eps => re_none
  | re_class p => if p c then re_eps else re_none
  | re_cat r1 r2 =>
      if nullable r1
      then re_alt (re_cat (deriv c r1) r2) (deriv c r2)
      else re_cat (deriv c r1) r2
  | re_alt r1 r2 => re_alt (deriv c r1) (deriv c r2)
  | re_star r1 => re_cat (deriv c r1) (re_star r1)
  end.

(** Does some prefix of [s] match [r]? *)
Fixpoint match_prefix (r : regexp) (s : string) : bool :=
  nullable r ||
  match s with
  | EmptyString => false
  | String c rest => match_prefix (deriv c r) rest
  end.

(** [regexp.MatchString]: the pattern is not anchored, so the text matches
    when a match starts at some position of it. *)
Fixpoint regexp_MatchString (r : regexp) (s : string) : bool :=
  match_prefix r s ||
  match s with
  | EmptyString => false
  | String _ rest => regexp_MatchString r rest
  end.

(** ** The world outside the program *)

(** [okteto.Context()]: the active context of the process. *)
Record OktetoContext : Type := {
  ctx_Name : string;
  ctx_Namespace : string;
  ctx_Token : string
}.

(** [types.ClusterMetadata]; a nil [Certificate] is [None]. *)
Record ClusterMetadata : Type := {
  Certificate : option (list Byte.byte);
  ServerName : string;
  PipelineRunnerImage : string;
  PipelineInstallerImage : string
}.

(** A Go pair (value, error) whose value is only read when the error is
    nil. *)
Inductive result (A : Type) : Type :=
| Ok (a : A)
| Err (e : error).
Arguments Ok {A} a.
Arguments Err {A} e.

(** The operations of the operating system that the program reaches through
    [afero.NewOsFs], [os.Getwd], [os.Chdir] and [crypto/rand]; each may fail
    for a reason of its own. *)
Inductive Syscall : Type :=
| sys_Stat (path : string)
| sys_Create (path : string)
| sys_Remove (path : string)
| sys_ReadFile (path : string)
| sys_WriteFile (path : string)
| sys_Write (path : string)
| sys_Getwd
| sys_Chdir (dir : string).

(** The Okteto API as the user client sees it.  [api_Provide] is the outcome
    of building the client; the two calls return a Go pair. *)
Record OktetoAPI : Type := {
  api_Provide : option error;
  api_GetClusterMetadata : string → ClusterMetadata * option error;
  api_GetClusterCertificate : string → string → option (list Byte.byte) * option error
}.

Record World : Type := {
  w_cwd : string;                       (* the working directory of the process *)
  w_files : gmap string string;         (* regular files: path to content *)
  w_env : gmap string string;           (* the environment of the process *)
  w_rand : list Byte.byte;              (* the bytes crypto/rand.Reader delivers next *)
  w_context : OktetoContext;
  w_api : OktetoAPI;
  w_fault : Syscall → option error      (* injected failures of system calls *)
}.

(** [os.Getenv]: the empty string for an unset variable. *)
Definition os_Getenv (key : string) (w : World) : string :=
  default "" (w_env w !! key).

(** Constants and package variables that the program imports from packages
    outside the sources at hand ([constants], [model], [config]). *)
Record Constants : Type := {
  OktetoCLIImageForRemoteTemplate : string;
  OKtetoDeployRemoteImage : string;
  OKtetoDeployRemote : string;
  OktetoGitCommitEnvVar : string;
  OktetoContextEnvVar : string;
  OktetoNamespaceEnvVar : string;
  OktetoTokenEnvVar : string;
  OktetoActionNameEnvVar : string;
  config_VersionString : string
}.

(** [getOktetoCLIVersion]. *)
Definition getOktetoCLIVersion (k : Constants) (versionString : string) (w : World) : string :=
  if regexp_MatchString version_pattern versionString
  then Sprintf (OktetoCLIImageForRemoteTemplate k) [versionString]
  else
    let remoteOktetoImage := os_Getenv (OKtetoDeployRemoteImage k) w in
    if bool_decide (remoteOktetoImage ≠ "")
    then remoteOktetoImage
    else Sprintf (OktetoCLIImageForRemoteTemplate k) ["latest"].

(** What it means for a whole string to match a pattern. *)
Inductive re_matches : regexp → string → Prop :=
| re_matches_eps : re_matches re_eps ""
| re_matches_class p c : p c = true → re_matches (re_class p) (String c "")
| re_matches_cat r1 r2 s1 s2 :
    re_matches r1 s1 → re_matches r2 s2 → re_matches (re_cat r1 r2) (s1 +:+ s2)
| re_matches_alt_l r1 r2 s : re_matches r1 s → re_matches (re_alt r1 r2) s
| re_matches_alt_r r1 r2 s : re_matches r2 s → re_matches (re_alt r1 r2) s
| re_matches_star_nil r : re_matches (re_star r) ""
| re_matches_star_app r s1 s2 :
    re_matches r s1 → re_matches (re_star r) s2 → re_matches (re_star r) (s1 +:+ s2).

(** A non-empty run of decimal digits. *)
Definition digit_run (d : string) : Prop :=
  d ≠ "" ∧ string_forallb is_digit d = true.

(** A three-component numeric version: three digit runs separated by dots. *)
Definition three_component_version (p : string) : Prop :=
  ∃ d1 d2 d3, digit_run d1 ∧ digit_run d2 ∧ digit_run d3 ∧
    p = d1 +:+ "." +:+ d2 +:+ "." +:+ d3.

(** The text has a three-component numeric version somewhere in it. *)
Definition contains_version (s : string) : Prop :=
  ∃ before p after, three_component_version p ∧ s = before +:+ p +:+ after.

(** ** Library functions the program calls *)

(** [big.Int.SetBytes]: the big-endian value of a byte slice. *)
Definition SetBytes (bs : list Byte.byte) : N :=
  fold_left (λ acc b, acc * 256 + Byte.to_N b)%N bs 0%N.

(** The loop of [crypto/rand.Int]: read [k] bytes, clear the bits of the
    first byte above the [b] lowest, and accept the candidate when it is
    below [max].  The list is what the reader still has to deliver; the
    fuel is a bound on the number of rounds. *)
Fixpoint rand_Int_loop (fuel : nat) (max : N) (k : nat) (b : N) (reader : list Byte.byte)
    : result N * list Byte.byte :=
  match fuel with
  | O => (Err (errors_New "EOF"), reader)
  | S fuel' =>
      if bool_decide (length reader = 0)
      then (Err (errors_New "EOF"), reader)
      else if bool_decide (length reader < k)
      then (Err (errors_New "unexpected EOF"), [])
      else
        match take k reader with
        | [] => (Err (errors_New "EOF"), reader)
        | b0 :: bytes =>
            let n := (N.land (Byte.to_N b0) (2 ^ b - 1) * 256 ^ N.of_nat (length bytes)
                      + SetBytes bytes)%N in
            if (n <? max)%N then (Ok n, drop k reader)
            else rand_Int_loop fuel' max k b (drop k reader)
        end
  end.

(** [rand.Int(rand.Reader, max)] for a positive [max]: a value below [max],
    by rejection sampling on the bytes of the reader. *)
Definition rand_Int (max : N) (reader : list Byte.byte) : result N * list Byte.byte :=
  let bitLen := N.size (max - 1) in
  if (bitLen =? 0)%N then (Ok 0%N, reader)
  else
    let k := N.to_nat ((bitLen + 7) / 8) in
    let b := (if (bitLen mod 8 =? 0)%N then 8 else bitLen mod 8)%N in
    rand_Int_loop (length reader) max k b reader.

(** [base64.StdEncoding.EncodeToString]. *)
Definition base64_alphabet : string :=
  "ABCDEFGHIJKLMNOPQRSTUVWXYZabcdefghijklmnopqrstuvwxyz0123456789+/".

Definition base64_digit (i : N) : string :=
  match String.get (N.to_nat i) base64_alphabet with
  | Some c => String c ""
  | None => "="
  end.

Fixpoint base64_EncodeToString (src : list Byte.byte) : string :=
  match src with
  | [] => ""
  | [x] =>
      let n := Byte.to_N x in
      base64_digit (n / 4) +:+ base64_digit (n mod 4 * 16) +:+ "=="
  | [x; y] =>
      let n := (Byte.to_N x * 256 + Byte.to_N y)%N in
      base64_digit (n / 1024) +:+ base64_digit (n / 16 mod 64) +:+
      base64_digit (n mod 16 * 4) +:+ "="
  | x :: y :: z :: rest =>
      let n := (Byte.to_N x * 65536 + Byte.to_N y * 256 + Byte.to_N z)%N in
      base64_digit (n / 262144) +:+ base64_digit (n / 4096 mod 64) +:+
      base64_digit (n / 64 mod 64) +:+ base64_digit (n mod 64) +:+
      base64_EncodeToString rest
  end.

(** [strings.Split] on a separator of one byte. *)
Fixpoint split_on (sep : ascii) (s : string) : list string :=
  match s with
  | EmptyString => [""]
  | String c rest =>
      if bool_decide (c = sep) then "" :: split_on sep rest
      else match split_on sep rest with
           | [] => [String c ""]
           | first :: others => String c first :: others
           end
  end.

(** The elements of a cleaned path: empty and dot elements go, a dot-dot
    element removes the element before it, or stays when there is none to
    remove and the path is not rooted.  [kept] is in reverse order. *)
Fixpoint clean_elements (rooted : bool) (elems kept : list string) : list string :=
  match elems with
  | [] => rev kept
  | e :: rest =>
      if bool_decide (e = "" ∨ e = ".") then clean_elements rooted rest kept
      else if bool_decide (e = "..") then
        match kept with
        | top :: kept' =>
            if bool_decide (top = "..") then clean_elements rooted rest (e :: kept)
            else clean_elements rooted rest kept'
        | [] => if rooted then clean_elements rooted rest []
                else clean_elements rooted rest [e]
        end
      else clean_elements rooted rest (e :: kept)
  end.

(** [filepath.Clean] on a slash-separated path. *)
Definition filepath_Clean (path : string) : string :=
  if bool_decide (path = "") then "."
  else
    let rooted := String.prefix "/" path in
    let out := strings_Join (clean_elements rooted (split_on "/" path) []) "/" in
    if rooted then "/" +:+ out
    else if bool_decide (out = "") then "." else out.

(** [filepath.Join]: the non-empty elements joined by a slash and cleaned;
    the empty string when there is none. *)
Definition filepath_Join (elems : list string) : string :=
  match filter (λ e, e ≠ "") elems with
  | [] => ""
  | nonempty => filepath_Clean (strings_Join nonempty "/")
  end.

(** [strconv.Itoa], the decimal text the template prints for an [int]. *)
Definition Itoa (n : Z) : string := pretty n.

(** ** Build requests *)

(** [model.Manifest], with the field the program reads. *)
Record Manifest : Type := {
  manifest_Destroy_Image : string
}.

(** [model.BuildInfo], with the field the program sets. *)
Record BuildInfo : Type := {
  Dockerfile : string
}.

(** [types.BuildOptions], with the fields the program sets. *)
Record BuildOptions : Type := {
  Path : string;
  OutputMode : string;
  File : string;
  BuildArgs : list string;
  BuildManifest : option Manifest
}.

(** Modelled from the spec: [build.OptsFromBuildInfoForRemoteDeploy] belongs
    to package [pkg/cmd/build], which is not among the sources.  The spec
    has the build request carry the manifest path, the build context and
    the output mode: the file is taken from the build info, the context
    path and the output mode from the options passed in. *)
Definition OptsFromBuildInfoForRemoteDeploy (b : BuildInfo) (o : BuildOptions) : BuildOptions :=
  {| Path := Path o; OutputMode := OutputMode o; File := Dockerfile b;
     BuildArgs := []; BuildManifest := None |}.

(** ** Collaborators

    The fields of [remoteDestroyCommand] are Go interfaces; an
    implementation is a record of functions on the world. *)

(** [afero.Fs] with the helpers [afero.ReadFile] and [afero.WriteFile], and
    [Write] on the file that [Create] returned (named by its path). *)
Record Fs : Type := {
  Fs_Stat : string → World → option error * World;
  Fs_Create : string → World → result string * World;
  Fs_Remove : string → World → option error * World;
  Fs_ReadFile : string → World → result string * World;
  Fs_WriteFile : string → string → N → World → option error * World;
  Fs_Write : string → string → World → option error * World
}.

(** [filesystem.WorkingDirectoryInterface]. *)
Record WorkingDirectoryInterface : Type := {
  wd_Get : World → result string * World;
  wd_Change : string → World → option error * World
}.

(** [filesystem.TemporalDirectoryInterface]. *)
Record TemporalDirectoryInterface : Type := {
  tmp_Create : World → result string * World
}.

(** [builder.Builder]. *)
Record Builder : Type := {
  Build : BuildOptions → World → option error * World
}.

(** [remoteDestroyCommand].  The metadata provider returns metadata or an
    error; a provider that returns neither (on which the Go code would
    dereference nil) is outside the model. *)
Record remoteDestroyCommand : Type := {
  builder : Builder;
  destroyImage : string;
  fs : Fs;
  workingDirectoryCtrl : WorkingDirectoryInterface;
  temporalCtrl : TemporalDirectoryInterface;
  manifest : Manifest;
  clusterMetadata : World → result ClusterMetadata * World
}.

(** ** Running the program: world and trace

    What the program does to its collaborators and to the log is recorded,
    in order, in a trace that the collaborators cannot touch. *)

Inductive Event : Type :=
| ev_clusterMetadata
| ev_Provide
| ev_GetClusterMetadata (ns : string)
| ev_GetClusterCertificate (name ns : string)
| ev_Get
| ev_Change (dir : string)
| ev_TempCreate
| ev_rand_Int
| ev_Create (path : string)
| ev_Stat (path : string)
| ev_ReadFile (path : string)
| ev_WriteFile (path data : string) (perm : N)
| ev_Write (name data : string)
| ev_Remove (path : string)
| ev_Build (cwd : string) (opts : BuildOptions)
    (* the builder is invoked; cwd is the working directory of the process
       at that moment *)
| ev_SetStage (stage : string)
| ev_Infof (format : string) (err : error)
| ev_AddToBuffer (level msg : string).

Record St : Type := {
  st_world : World;
  st_trace : list Event
}.

(** A computation that may fail with a Go error. *)
Definition M (A : Type) : Type := St → result A * St.

Definition M_ret {A} (a : A) : M A := λ st, (Ok a, st).

Definition M_bind {A B} (c : M A) (f : A → M B) : M B :=
  λ st, match c st with
        | (Ok a, st') => f a st'
        | (Err e, st') => (Err e, st')
        end.

Definition M_fail {A} (e : error) : M A := λ st, (Err e, st).

#[local] Instance M_mret : MRet M := @M_ret.
#[local] Instance M_mbind : MBind M := λ A B f c, M_bind c f.

(** Record an event. *)
Definition emit (ev : Event) : M unit :=
  λ st, (Ok tt, {| st_world := st_world st; st_trace := st_trace st ++ [ev] |}).

(** Read the world. *)
Definition gets {A} (f : World → A) : M A := λ st, (Ok (f (st_world st)), st).

(** Call a collaborator that returns (value, error). *)
Definition call {A} (f : World → result A * World) : M A :=
  λ st, let '(r, w) := f (st_world st) in
        (r, {| st_world := w; st_trace := st_trace st |}).

(** Call a collaborator that returns an error only; the outcome is handed
    to the caller as a value. *)
Definition call_err (f : World → option error * World) : M (option error) :=
  λ st, let '(r, w) := f (st_world st) in
        (Ok r, {| st_world := w; st_trace := st_trace st |}).

(** [if err != nil { return err }]. *)
Definition check (err : option error) : M unit :=
  match err with
  | Some e => M_fail e
  | None => M_ret tt
  end.

(** [defer d] followed by [body]: [d] runs when [body] has returned,
    whatever it returned, and what [d] returns is dropped. *)
Definition defer {A B} (d : M B) (body : M A) : M A :=
  λ st, let '(r, st') := body st in (r, snd (d st')).

(** ** The operating system behind the collaborators *)

Definition set_files (files : gmap string string) (w : World) : World :=
  {| w_cwd := w_cwd w; w_files := files; w_env := w_env w; w_rand := w_rand w;
     w_context := w_context w; w_api := w_api w; w_fault := w_fault w |}.

Definition set_cwd (dir : string) (w : World) : World :=
  {| w_cwd := dir; w_files := w_files w; w_env := w_env w; w_rand := w_rand w;
     w_context := w_context w; w_api := w_api w; w_fault := w_fault w |}.

Definition set_rand (reader : list Byte.byte) (w : World) : World :=
  {| w_cwd := w_cwd w; w_files := w_files w; w_env := w_env w; w_rand := reader;
     w_context := w_context w; w_api := w_api w; w_fault := w_fault w |}.

(** [afero.NewOsFs()]: files by path; a missing file is reported with an
    error that is [os.ErrNotExist] underneath. *)
Definition OsFs : Fs := {|
  Fs_Stat path w :=
    match w_fault w (sys_Stat path) with
    | Some e => (Some e, w)
    | None =>
        match w_files w !! path with
        | Some _ => (None, w)
        | None => (Some (PathError "stat" path ErrNotExist), w)
        end
    end;
  Fs_Create path w :=
    match w_fault w (sys_Create path) with
    | Some e => (Err e, w)
    | None => (Ok path, set_files (<[path := ""]> (w_files w)) w)
    end;
  Fs_Remove path w :=
    match w_fault w (sys_Remove path) with
    | Some e => (Some e, w)
    | None =>
        match w_files w !! path with
        | Some _ => (None, set_files (delete path (w_files w)) w)
        | None => (Some (PathError "remove" path ErrNotExist), w)
        end
    end;
  Fs_ReadFile path w :=
    match w_fault w (sys_ReadFile path) with
    | Some e => (Err e, w)
    | None =>
        match w_files w !! path with
        | Some content => (Ok content, w)
        | None => (Err (PathError "open" path ErrNotExist), w)
        end
    end;
  Fs_WriteFile path data perm w :=
    match w_fault w (sys_WriteFile path) with
    | Some e => (Some e, w)
    | None => (None, set_files (<[path := data]> (w_files w)) w)
    end;
  Fs_Write name data w :=
    match w_fault w (sys_Write name) with
    | Some e => (Some e, w)
    | None =>
        match w_files w !! name with
        | Some content => (None, set_files (<[name := content +:+ data]> (w_files w)) w)
        | None => (Some (PathError "write" name ErrNotExist), w)
        end
    end
|}.

(** Modelled from the spec: the working-directory controller that
    [filesystem.NewOsWorkingDirectoryCtrl] builds is not among the sources.
    The spec's steps 3 and 5 have it capture and restore the working
    directory of the process, which is what [os.Getwd] and [os.Chdir] do. *)
Definition NewOsWorkingDirectoryCtrl : WorkingDirectoryInterface := {|
  wd_Get w :=
    match w_fault w sys_Getwd with
    | Some e => (Err e, w)
    | None => (Ok (w_cwd w), w)
    end;
  wd_Change dir w :=
    match w_fault w (sys_Chdir dir) with
    | Some e => (Some e, w)
    | None => (None, set_cwd dir w)
    end
|}.

(** [rand.Int(rand.Reader, max)] on the reader of the world. *)
Definition rand_Reader_Int (max : N) (w : World) : result N * World :=
  let '(r, rest) := rand_Int max (w_rand w) in (r, set_rand rest w).

(** ** The manifest template *)

Record dockerfileTemplateProperties : Type := {
  OktetoCLIImage : string;
  UserDestroyImage : string;
  InstallerImage : string;
  OktetoBuildEnvVars : gmap string string;
  ContextEnvVar : string;
  ContextValue : string;
  NamespaceEnvVar : string;
  NamespaceValue : string;
  TokenEnvVar : string;
  TokenValue : string;
  ActionNameEnvVar : string;
  ActionNameValue : string;
  GitCommitEnvVar : string;
  GitCommitValue : string;
  RemoteDeployEnvVar : string;
  DeployFlags : string;
  RandomInt : Z;
  DestroyFlags : string
}.

(** A parsed [text/template]: literal text, the actions that print a field
    or a range variable, and the two control structures of the template.
    [text/template] prints values as they are, without escaping. *)
Inductive piece : Type :=
| Text (s : string)
| Field (f : dockerfileTemplateProperties → string)
| FieldInt (f : dockerfileTemplateProperties → Z)
| VarKey
| VarVal.

Inductive node : Type :=
| Piece (p : piece)
| IfNe (f : dockerfileTemplateProperties → string) (arg : string) (body : list piece)
| RangeMap (m : dockerfileTemplateProperties → gmap string string) (body : list piece).

Definition exec_piece (data : dockerfileTemplateProperties) (key val : string) (p : piece) : string :=
  match p with
  | Text s => s
  | Field f => f data
  | FieldInt f => Itoa (f data)
  | VarKey => key
  | VarVal => val
  end.

Fixpoint exec_pieces (data : dockerfileTemplateProperties) (key val : string)
    (ps : list piece) : string :=
  match ps with
  | [] => ""
  | p :: rest => exec_piece data key val p +:+ exec_pieces data key val rest
  end.

Definition entry_le (a b : string * string) : Prop := String.le a.1 b.1.

#[local] Instance entry_le_dec : RelDecision entry_le.
Proof. intros a b. unfold entry_le. apply _. Defined.

(** [range] over a map visits the keys in increasing order. *)
Definition sorted_entries (m : gmap string string) : list (string * string) :=
  merge_sort entry_le (map_to_list m).

Fixpoint exec_range (data : dockerfileTemplateProperties) (body : list piece)
    (entries : list (string * string)) : string :=
  match entries with
  | [] => ""
  | (key, val) :: rest => exec_pieces data key val body +:+ exec_range data body rest
  end.

Definition exec_node (data : dockerfileTemplateProperties) (n : node) : string :=
  match n with
  | Piece p => exec_piece data "" "" p
  | IfNe f arg body =>
      if bool_decide (f data ≠ arg) then exec_pieces data "" "" body else ""
  | RangeMap m body => exec_range data body (sorted_entries (m data))
  end.

(** [tmpl.Execute]: the text that the template writes for [data]. *)
Fixpoint Execute (tmpl : list node) (data : dockerfileTemplateProperties) : string :=
  match tmpl with
  | [] => ""
  | n :: rest => exec_node data n +:+ Execute rest data
  end.

(** [dockerfileTemplate], parsed. *)
Definition dockerfileTemplate : list node := [
  Piece (Text (LF +:+ "FROM "));
  Piece (Field OktetoCLIImage);
  Piece (Text (" as okteto-cli" +:+ LF +:+ LF +:+ "FROM "));
  Piece (Field InstallerImage);
  Piece (Text (" as installer" +:+ LF +:+ LF +:+
               "FROM alpine as certs" +:+ LF +:+
               "RUN apk update && apk add ca-certificates" +:+ LF +:+ LF +:+
               "FROM "));
  Piece (Field UserDestroyImage);
  Piece (Text (" as deploy" +:+ LF +:+ LF +:+
               "ENV PATH=" +:+ dquote +:+ "${PATH}:/okteto/bin" +:+ dquote +:+ LF +:+
               "COPY --from=certs /etc/ssl/certs /etc/ssl/certs" +:+ LF +:+
               "COPY --from=installer /app/bin/* /okteto/bin/" +:+ LF +:+
               "COPY --from=okteto-cli /usr/local/bin/* /okteto/bin/" +:+ LF +:+ LF));
  RangeMap OktetoBuildEnvVars
    [Text (LF +:+ "ENV "); VarKey; Text " "; VarVal; Text LF];
  Piece (Text (LF +:+ "ENV "));
  Piece (Field NamespaceEnvVar); Piece (Text " "); Piece (Field NamespaceValue);
  Piece (Text (LF +:+ "ENV "));
  Piece (Field ContextEnvVar); Piece (Text " "); Piece (Field ContextValue);
  Piece (Text (LF +:+ "ENV "));
  Piece (Field TokenEnvVar); Piece (Text " "); Piece (Field TokenValue);
  Piece (Text (LF +:+ "ENV "));
  Piece (Field RemoteDeployEnvVar); Piece (Text (" true" +:+ LF));
  IfNe ActionNameValue ""
    [Text (LF +:+ "ENV "); Field ActionNameEnvVar; Text " "; Field ActionNameValue; Text LF];
  Piece (Text LF);
  IfNe GitCommitValue ""
    [Text (LF +:+ "ENV "); Field GitCommitEnvVar; Text " "; Field GitCommitValue; Text LF];
  Piece (Text (LF +:+ LF +:+
               "COPY . /okteto/src" +:+ LF +:+
               "WORKDIR /okteto/src" +:+ LF +:+ LF +:+
               "ENV OKTETO_INVALIDATE_CACHE "));
  Piece (FieldInt RandomInt);
  Piece (Text (LF +:+
               "ARG OKTETO_TLS_CERT_BASE64" +:+ LF +:+
               "ARG INTERNAL_SERVER_NAME=" +:+ dquote +:+ dquote +:+ LF +:+
               "RUN echo " +:+ dquote +:+ "$OKTETO_TLS_CERT_BASE64" +:+ dquote +:+
               " | base64 -d > /etc/ssl/certs/okteto.crt" +:+ LF +:+
               "RUN okteto destroy --log-output=json --server-name=" +:+ dquote +:+
               "$INTERNAL_SERVER_NAME" +:+ dquote +:+ " "));
  Piece (Field DestroyFlags);
  Piece (Text LF)
].

(** The lines of the manifest, as the template lays them out when the map
    of build variables is empty.  An optional binding takes a blank line and
    an [ENV] line. *)
Definition env_line (key val : string) : string := "ENV " +:+ key +:+ " " +:+ val.

Definition optional_env (key val : string) : list string :=
  if bool_decide (val ≠ "") then [""; env_line key val] else [].

Definition manifest_lines (data : dockerfileTemplateProperties) : list string :=
  [ "";
    "FROM " +:+ OktetoCLIImage data +:+ " as okteto-cli";
    "";
    "FROM " +:+ InstallerImage data +:+ " as installer";
    "";
    "FROM alpine as certs";
    "RUN apk update && apk add ca-certificates";
    "";
    "FROM " +:+ UserDestroyImage data +:+ " as deploy";
    "";
    "ENV PATH=" +:+ dquote +:+ "${PATH}:/okteto/bin" +:+ dquote;
    "COPY --from=certs /etc/ssl/certs /etc/ssl/certs";
    "COPY --from=installer /app/bin/* /okteto/bin/";
    "COPY --from=okteto-cli /usr/local/bin/* /okteto/bin/";
    "";
    "";
    env_line (NamespaceEnvVar data) (NamespaceValue data);
    env_line (ContextEnvVar data) (ContextValue data);
    env_line (TokenEnvVar data) (TokenValue data);
    env_line (RemoteDeployEnvVar data) "true" ] ++
  optional_env (ActionNameEnvVar data) (ActionNameValue data) ++
  [ "" ] ++
  optional_env (GitCommitEnvVar data) (GitCommitValue data) ++
  [ "";
    "";
    "COPY . /okteto/src";
    "WORKDIR /okteto/src";
    "";
    "ENV OKTETO_INVALIDATE_CACHE " +:+ Itoa (RandomInt data);
    "ARG OKTETO_TLS_CERT_BASE64";
    "ARG INTERNAL_SERVER_NAME=" +:+ dquote +:+ dquote;
    "RUN echo " +:+ dquote +:+ "$OKTETO_TLS_CERT_BASE64" +:+ dquote +:+
      " | base64 -d > /etc/ssl/certs/okteto.crt";
    "RUN okteto destroy --log-output=json --server-name=" +:+ dquote +:+
      "$INTERNAL_SERVER_NAME" +:+ dquote +:+ " " +:+ DestroyFlags data;
    "" ].

(** The lines of a text. *)
Definition lines (text : string) : list string := split_on "010" text.

(** The text has [line] as a line of its own, between two line feeds. *)
Definition emitted_line (text line : string) : Prop :=
  ∃ before after, text = before +:+ LF +:+ line +:+ LF +:+ after.

(** A line that binds [key] with an [ENV] instruction. *)
Definition binds (key line : string) : bool :=
  String.prefix ("ENV " +:+ key +:+ " ") line.

Fixpoint count_lines (p : string → bool) (ls : list string) : nat :=
  match ls with
  | [] => 0
  | l :: rest => (if p l then 1 else 0) + count_lines p rest
  end.

(** The number of [ENV] lines for [key] in a text. *)
Definition count_env (key text : string) : nat := count_lines (binds key) (lines text).

(** The keys of the [ENV] instructions of the manifest. *)
Definition env_keys (data : dockerfileTemplateProperties) : list string :=
  [ NamespaceEnvVar data; ContextEnvVar data; TokenEnvVar data; RemoteDeployEnvVar data;
    ActionNameEnvVar data; GitCommitEnvVar data; "OKTETO_INVALIDATE_CACHE" ].

(** The strings that the template prints into the manifest. *)
Definition printed_values (data : dockerfileTemplateProperties) : list string :=
  [ OktetoCLIImage data; InstallerImage data; UserDestroyImage data;
    NamespaceValue data; ContextValue data; TokenValue data;
    ActionNameValue data; GitCommitValue data; DestroyFlags data ].

(** The keys are pairwise different names without spaces, and neither a key
    nor a printed value has a line feed in it. *)
Definition well_formed_data (data : dockerfileTemplateProperties) : Prop :=
  NoDup (env_keys data) ∧
  Forall (λ s, no_space s = true) (env_keys data) ∧
  Forall (λ s, single_line s = true) (env_keys data ++ printed_values data).

(** ** The program *)

Section Program.
Variable decls : ErrorDecls.
Variable k : Constants.

(** [createDockerignoreIfNeeded]. *)
Definition createDockerignoreIfNeeded (rd : remoteDestroyCommand) (cwd tmpDir : string)
    : M unit :=
  let dockerignoreFilePath := Sprintf "%s/%s" [cwd; ".oktetodeployignore"] in
  err ← (emit (ev_Stat dockerignoreFilePath) ;;
         call_err (Fs_Stat (fs rd) dockerignoreFilePath));
  match err with
  | Some err =>
      if negb (errors_Is_ErrNotExist decls err) then M_fail err else M_ret tt
  | None =>
      dockerignoreContent ←
        (emit (ev_ReadFile dockerignoreFilePath) ;;
         call (Fs_ReadFile (fs rd) dockerignoreFilePath));
      let dst := Sprintf "%s/%s" [tmpDir; ".dockerignore"] in
      err ← (emit (ev_WriteFile dst dockerignoreContent 384) ;;
             call_err (Fs_WriteFile (fs rd) dst dockerignoreContent 384));
      check err
  end.

(** The template data that [createDockerfile] assembles.  The field
    [OktetoBuildEnvVars] is not set and stays the nil map, [DeployFlags]
    stays empty. *)
Definition dockerfileSyntax (rd : remoteDestroyCommand) (opts : Options)
    (installerImage : string) (randomNumber : N) (w : World) : dockerfileTemplateProperties :=
  {| OktetoCLIImage := getOktetoCLIVersion k (config_VersionString k) w;
     InstallerImage := installerImage;
     UserDestroyImage := destroyImage rd;
     OktetoBuildEnvVars := ∅;
     ContextEnvVar := OktetoContextEnvVar k;
     ContextValue := ctx_Name (w_context w);
     NamespaceEnvVar := OktetoNamespaceEnvVar k;
     NamespaceValue := ctx_Namespace (w_context w);
     TokenEnvVar := OktetoTokenEnvVar k;
     TokenValue := ctx_Token (w_context w);
     ActionNameEnvVar := OktetoActionNameEnvVar k;
     ActionNameValue := os_Getenv (OktetoActionNameEnvVar k) w;
     GitCommitEnvVar := OktetoGitCommitEnvVar k;
     GitCommitValue := os_Getenv (OktetoGitCommitEnvVar k) w;
     RemoteDeployEnvVar := OKtetoDeployRemote k;
     DeployFlags := "";
     RandomInt := Z.of_N randomNumber;
     DestroyFlags := strings_Join (getDestroyFlags opts) " " |}.

(** [createDockerfile]. *)
Definition createDockerfile (rd : remoteDestroyCommand) (tempDir : string)
    (opts : Options) (installerImage : string) : M string :=
  cwd ← (emit ev_Get ;; call (wd_Get (workingDirectoryCtrl rd)));
  randomNumber ← (emit ev_rand_Int ;; call (rand_Reader_Int 1000));
  dockerfileSyntax ← gets (dockerfileSyntax rd opts installerImage randomNumber);
  let path := filepath_Join [tempDir; "deploy"] in
  dockerfile ← (emit (ev_Create path) ;; call (Fs_Create (fs rd) path));
  createDockerignoreIfNeeded rd cwd tempDir ;;
  let text := Execute dockerfileTemplate dockerfileSyntax in
  err ← (emit (ev_Write dockerfile text) ;;
         call_err (Fs_Write (fs rd) dockerfile text));
  check err ;;
  M_ret dockerfile.

(** The function that [destroy] defers. *)
Definition remove_dockerfile (rd : remoteDestroyCommand) (dockerfile : string) : M unit :=
  err ← (emit (ev_Remove dockerfile) ;; call_err (Fs_Remove (fs rd) dockerfile));
  match err with
  | Some err => emit (ev_Infof "error removing dockerfile: %w" err)
  | None => M_ret tt
  end.

Definition set_destroyImage (image : string) (rd : remoteDestroyCommand)
    : remoteDestroyCommand :=
  {| builder := builder rd; destroyImage := image; fs := fs rd;
     workingDirectoryCtrl := workingDirectoryCtrl rd; temporalCtrl := temporalCtrl rd;
     manifest := manifest rd; clusterMetadata := clusterMetadata rd |}.

Definition add_BuildArgs (args : list string) (o : BuildOptions) : BuildOptions :=
  {| Path := Path o; OutputMode := OutputMode o; File := File o;
     BuildArgs := BuildArgs o ++ args; BuildManifest := BuildManifest o |}.

Definition set_Manifest (m : Manifest) (o : BuildOptions) : BuildOptions :=
  {| Path := Path o; OutputMode := OutputMode o; File := File o;
     BuildArgs := BuildArgs o; BuildManifest := Some m |}.

(** What [destroy] does with the error of the builder. *)
Definition classify_build_error (err : error) : M unit :=
  match errors_As_OktetoCommandErr decls err with
  | Some (stage, cause) =>
      emit (ev_SetStage stage) ;;
      M_fail (UserError
                (fmt_Errorf "error during development environment deployment: %w" cause) "")
  | None =>
      emit (ev_SetStage "remote deploy") ;;
      match errors_As_UserError decls err with
      | Some (e, hint) => M_fail (UserError e hint)
      | None =>
          M_fail (UserError
                    (fmt_Errorf "error during destroy of the development environment: %w" err) "")
      end
  end.

(** The build request of [destroy]: the options made from the build
    info, with the manifest and the two build arguments added. *)
Definition build_request (rd : remoteDestroyCommand) (sc : ClusterMetadata)
    (cwd dockerfile : string) : BuildOptions :=
  let buildInfo := {| Dockerfile := dockerfile |} in
  let buildOptions :=
    OptsFromBuildInfoForRemoteDeploy buildInfo
      {| Path := cwd; OutputMode := "destroy"; File := ""; BuildArgs := [];
         BuildManifest := None |} in
  let buildOptions := set_Manifest (manifest rd) buildOptions in
  add_BuildArgs
    [Sprintf "OKTETO_TLS_CERT_BASE64=%s"
       [base64_EncodeToString (default [] (Certificate sc))];
     Sprintf "INTERNAL_SERVER_NAME=%s" [ServerName sc]]
    buildOptions.

(** The part of [destroy] that follows the [defer] statement. *)
Definition build_and_report (rd : remoteDestroyCommand) (sc : ClusterMetadata)
    (cwd dockerfile : string) : M unit :=
  err ← (emit (ev_Change cwd) ;; call_err (wd_Change (workingDirectoryCtrl rd) cwd));
  check err ;;
  let buildOptions := build_request rd sc cwd dockerfile in
  now ← gets w_cwd;
  err ← (emit (ev_Build now buildOptions) ;;
         call_err (Build (builder rd) buildOptions));
  match err with
  | Some err => classify_build_error err
  | None =>
      emit (ev_SetStage "done") ;;
      emit (ev_AddToBuffer "info" "EOF") ;;
      M_ret tt
  end.

(** [remoteDestroyCommand.destroy].  [Ok tt] is the nil error.  The
    assignment to [rd.destroyImage] is kept in the local [rd]. *)
Definition destroy (rd : remoteDestroyCommand) (opts : Options) : M unit :=
  sc ← (emit ev_clusterMetadata ;; call (clusterMetadata rd));
  let rd :=
    if bool_decide (destroyImage rd = "")
    then set_destroyImage (PipelineRunnerImage sc) rd else rd in
  cwd ← (emit ev_Get ;; call (wd_Get (workingDirectoryCtrl rd)));
  tmpDir ← (emit ev_TempCreate ;; call (tmp_Create (temporalCtrl rd)));
  dockerfile ← createDockerfile rd tmpDir opts (PipelineInstallerImage sc);
  defer (remove_dockerfile rd dockerfile)
        (build_and_report rd sc cwd dockerfile).

(** The part of [destroy] that precedes the [defer] statement, with what
    it hands to the rest: the metadata, the command with its destroy
    image resolved, the captured working directory and the path of the
    manifest. *)
Definition staging (rd : remoteDestroyCommand) (opts : Options)
    : M (ClusterMetadata * remoteDestroyCommand * string * string) :=
  sc ← (emit ev_clusterMetadata ;; call (clusterMetadata rd));
  let rd :=
    if bool_decide (destroyImage rd = "")
    then set_destroyImage (PipelineRunnerImage sc) rd else rd in
  cwd ← (emit ev_Get ;; call (wd_Get (workingDirectoryCtrl rd)));
  tmpDir ← (emit ev_TempCreate ;; call (tmp_Create (temporalCtrl rd)));
  dockerfile ← createDockerfile rd tmpDir opts (PipelineInstallerImage sc);
  M_ret (sc, rd, cwd, dockerfile).
End Program.

(** The stage that the log reports: the one set last. *)
Fixpoint reported_stage (trace : list Event) : option string :=
  match trace with
  | [] => None
  | ev :: rest =>
      match reported_stage rest with
      | Some stage => Some stage
      | None => match ev with ev_SetStage stage => Some stage | _ => None end
      end
  end.

(** The command with another implementation of [Remove] in its filesystem. *)
Definition set_Remove (remove : string → World → option error * World)
    (rd : remoteDestroyCommand) : remoteDestroyCommand :=
  {| builder := builder rd; destroyImage := destroyImage rd;
     fs := {| Fs_Stat := Fs_Stat (fs rd); Fs_Create := Fs_Create (fs rd);
              Fs_Remove := remove; Fs_ReadFile := Fs_ReadFile (fs rd);
              Fs_WriteFile := Fs_WriteFile (fs rd); Fs_Write := Fs_Write (fs rd) |};
     workingDirectoryCtrl := workingDirectoryCtrl rd; temporalCtrl := temporalCtrl rd;
     manifest := manifest rd; clusterMetadata := clusterMetadata rd |}.

(** [fetchClusterMetadata]: the Go pair (metadata, error), both of which
    are set when the certificate call fails. *)
Definition set_Certificate (cert : option (list Byte.byte)) (m : ClusterMetadata)
    : ClusterMetadata :=
  {| Certificate := cert; ServerName := ServerName m;
     PipelineRunnerImage := PipelineRunnerImage m;
     PipelineInstallerImage := PipelineInstallerImage m |}.

Definition record (ev : Event) (st : St) : St :=
  {| st_world := st_world st; st_trace := st_trace st ++ [ev] |}.

Definition fetchClusterMetadata (st : St) : (option ClusterMetadata * option error) * St :=
  let api := w_api (st_world st) in
  let context := w_context (st_world st) in
  let st := record ev_Provide st in
  match api_Provide api with
  | Some err =>
      ((None,
        Some (fmt_Errorf "failed to provide okteto client for fetching certs: %s" err)), st)
  | None =>
      let st := record (ev_GetClusterMetadata (ctx_Namespace context)) st in
      let '(metadata, err) := api_GetClusterMetadata api (ctx_Namespace context) in
      match err with
      | Some err => ((None, Some err), st)
      | None =>
          match Certificate metadata with
          | None =>
              let st :=
                record (ev_GetClusterCertificate (ctx_Name context) (ctx_Namespace context)) st in
              let '(cert, err) :=
                api_GetClusterCertificate api (ctx_Name context) (ctx_Namespace context) in
              ((Some (set_Certificate cert metadata), err), st)
          | Some _ => ((Some metadata, None), st)
          end
      end
  end.

(** The ignore-file of the working directory and its copy in the build
    context. *)
Definition ignore_source (cwd : string) : string := cwd +:+ "/.oktetodeployignore".
Definition ignore_destination (tmpDir : string) : string := tmpDir +:+ "/.dockerignore".

(** The number that a render started in state [st] draws for the
    cache-invalidation nonce: the draw follows the first call of the
    render, which reads the working directory. *)
Definition render_nonce (rd : remoteDestroyCommand) (st : St) : option N :=
  match wd_Get (workingDirectoryCtrl rd) (st_world st) with
  | (Ok _, w1) =>
      match rand_Int 1000 (w_rand w1) with
      | (Ok n, _) => Some n
      | (Err _, _) => None
      end
  | (Err _, _) => None
  end.

(** The line of the manifest that carries the nonce. *)
Definition nonce_line (n : N) : string :=
  "ENV OKTETO_INVALIDATE_CACHE " +:+ Itoa (Z.of_N n).

(** No injected failure for a system call. *)
Definition no_fault (w : World) (c : Syscall) : Prop := w_fault w c = None.

(** ** A concrete setting

    One instantiation of the parameters and a small world, on which the
    definitions can be run. *)

Definition sample_decls : ErrorDecls :=
  {| OktetoCommandErr_has_Unwrap := true; UserError_has_Unwrap := true |}.

Definition sample_constants : Constants :=
  {| OktetoCLIImageForRemoteTemplate := "okteto/okteto:%s";
     OKtetoDeployRemoteImage := "OKTETO_REMOTE_CLI_IMAGE";
     OKtetoDeployRemote := "OKTETO_DEPLOY_REMOTE";
     OktetoGitCommitEnvVar := "OKTETO_GIT_COMMIT";
     OktetoContextEnvVar := "OKTETO_CONTEXT";
     OktetoNamespaceEnvVar := "OKTETO_NAMESPACE";
     OktetoTokenEnvVar := "OKTETO_TOKEN";
     OktetoActionNameEnvVar := "OKTETO_ACTION_NAME";
     config_VersionString := "2.14.0" |}.

Definition sample_metadata : ClusterMetadata :=
  {| Certificate := Some [Byte.x4d; Byte.x61; Byte.x6e];
     ServerName := "internal.example";
     PipelineRunnerImage := "okteto/pipeline-runner:1.0.0";
     PipelineInstallerImage := "okteto/installer:1.0.0" |}.

Definition sample_api : OktetoAPI :=
  {| api_Provide := None;
     api_GetClusterMetadata := λ _, (sample_metadata, None);
     api_GetClusterCertificate := λ _ _, (Some [Byte.x4d], None) |}.

Definition sample_world : World :=
  {| w_cwd := "/home/dev/app";
     w_files := {[ "/home/dev/app/.oktetodeployignore" := "node_modules" +:+ LF ]};
     w_env := {[ "OKTETO_ACTION_NAME" := "ci-run" ]};
     w_rand := [Byte.xff; Byte.xff; Byte.x00; Byte.x07; Byte.x00; Byte.x07];
     w_context := {| ctx_Name := "cloud"; ctx_Namespace := "ns1"; ctx_Token := "tok" |};
     w_api := sample_api;
     w_fault := λ _, None |}.

(** A temporary-directory controller that hands out one fixed directory and
    moves the process into it. *)
Definition sample_temporalCtrl : TemporalDirectoryInterface :=
  {| tmp_Create := λ w, (Ok "/tmp/okteto-1", set_cwd "/tmp/okteto-1" w) |}.

Definition builder_returning (err : option error) : Builder :=
  {| Build := λ _ w, (err, w) |}.

Definition sample_rd (b : Builder) : remoteDestroyCommand :=
  {| builder := b;
     destroyImage := "";
     fs := OsFs;
     workingDirectoryCtrl := NewOsWorkingDirectoryCtrl;
     temporalCtrl := sample_temporalCtrl;
     manifest := {| manifest_Destroy_Image := "" |};
     clusterMetadata := λ w, (Ok sample_metadata, w) |}.

Definition start (w : World) : St := {| st_world := w; st_trace := [] |}.

(** The sample command once staging has resolved its destroy image, and the
    state in which staging leaves the sample world. *)
Definition sample_staged_rd (b : Builder) : remoteDestroyCommand :=
  set_destroyImage "okteto/pipeline-runner:1.0.0" (sample_rd b).

Definition sample_staged : St :=
  (staging sample_decls sample_constants (sample_rd (builder_returning None))
     example_options (start sample_world)).2.

(** Options whose name and namespace have a space in them. *)
Definition spaced_options : Options :=
  {| Name := "my env"; Namespace := "team a"; ManifestPathFlag := "";
     DestroyVolumes := false; ForceDestroy := false |}.

(** A [Remove] that always fails. *)
Definition failing_Remove (path : string) (w : World) : option error * World :=
  (Some (PathError "remove" path (errors_New "permission denied")), w).

(** A failure of the installer stage, as the builder reports it. *)
Definition installer_failure : error :=
  OktetoCommandErr "installer" (errors_New "exit status 1").

Definition set_env (env : gmap string string) (w : World) : World :=
  {| w_cwd := w_cwd w; w_files := w_files w; w_env := env; w_rand := w_rand w;
     w_context := w_context w; w_api := w_api w; w_fault := w_fault w |}.

(** A world whose commit variable holds two lines, the second of which
    reads like an [ENV] instruction for the action name; the action name
    itself is not set. *)
Definition two_line_commit_world : World :=
  set_env {[ "OKTETO_GIT_COMMIT" := "abc" +:+ LF +:+ "ENV OKTETO_ACTION_NAME x" ]}
          sample_world.

Definition set_api (api : OktetoAPI) (w : World) : World :=
  {| w_cwd := w_cwd w; w_files := w_files w; w_env := w_env w; w_rand := w_rand w;
     w_context := w_context w; w_api := api; w_fault := w_fault w |}.

(** A world in which the metadata call fails. *)
Definition metadata_failure_world : World :=
  set_api {| api_Provide := None;
             api_GetClusterMetadata := λ _, (sample_metadata, Some (errors_New "connection refused"));
             api_GetClusterCertificate := λ _ _, (None, None) |}
          sample_world.

(** A world in which the metadata has no certificate and the certificate
    call fails. *)
Definition certificate_failure_world : World :=
  set_api {| api_Provide := None;
             api_GetClusterMetadata := λ _, (set_Certificate None sample_metadata, None);
             api_GetClusterCertificate := λ _ _, (None, Some (errors_New "forbidden")) |}
          sample_world.

(** An error is wrapped when it was made by [fmt.Errorf] around a cause. *)
Definition is_wrapped (err : error) : Prop := ∃ format cause, err = fmt_Errorf format cause.

(** The text of the last write in a trace. *)
Fixpoint last_written (trace : list Event) : option string :=
  match trace with
  | [] => None
  | ev :: rest =>
      match last_written rest with
      | Some text => Some text
      | None => match ev with ev_Write _ text => Some text | _ => None end
      end
  end.

(** ** What a run adds to the trace *)

(** The events that a run in state [st'] has recorded since state [st]. *)
Definition events_since (st st' : St) : list Event :=
  drop (length (st_trace st)) (st_trace st').

Fixpoint count_events (p : Event → bool) (trace : list Event) : nat :=
  match trace with
  | [] => 0
  | ev :: rest => (if p ev then 1 else 0) + count_events p rest
  end.

Definition is_Build (ev : Event) : bool :=
  match ev with ev_Build _ _ => true | _ => false end.

Definition is_Remove (ev : Event) : bool :=
  match ev with ev_Remove _ => true | _ => false end.

Definition is_Change (ev : Event) : bool :=
  match ev with ev_Change _ => true | _ => false end.

Definition is_SetStage (ev : Event) : bool :=
  match ev with ev_SetStage _ => true | _ => false end.

Definition is_Stat (ev : Event) : bool :=
  match ev with ev_Stat _ => true | _ => false end.

(** The end-of-output marker that [destroy] puts into the log buffer. *)
Definition is_EOF_marker (ev : Event) : bool :=
  match ev with
  | ev_AddToBuffer level msg => bool_decide (level = "info" ∧ msg = "EOF")
  | _ => false
  end.

(** The calls that the part of [destroy] before the [defer] statement
    makes: the metadata provider, the two directory controllers, the
    random source, and the filesystem calls of [createDockerfile]. *)
Definition staging_event (ev : Event) : bool :=
  match ev with
  | ev_clusterMetadata | ev_Get | ev_TempCreate | ev_rand_Int
  | ev_Create _ | ev_Stat _ | ev_ReadFile _ | ev_WriteFile _ _ _ | ev_Write _ _ => true
  | _ => false
  end.

(** One when a computation returned a value, zero when it failed. *)
Definition succeeded {A} (r : result A) : nat :=
  match r with
  | Ok _ => 1
  | Err _ => 0
  end.

(** The last byte of a string. *)
Fixpoint string_last (s : string) : option ascii :=
  match s with
  | EmptyString => None
  | String c rest =>
      match string_last rest with
      | Some l => Some l
      | None => Some c
      end
  end.

(** ** The command that [newRemoteDestroyer] builds *)

(** [fetchClusterMetadata] as the metadata provider of the command.  Its Go
    pair is read the way [destroy] reads it, the error first; the calls it
    records are its own, and the world it leaves is handed on.  The last
    case, neither metadata nor error, is one that [fetchClusterMetadata]
    never returns. *)
Definition fetchClusterMetadata_provider (w : World) : result ClusterMetadata * World :=
  let '(r, st) := fetchClusterMetadata (start w) in
  match r with
  | (_, Some err) => (Err err, st_world st)
  | (Some metadata, None) => (Ok metadata, st_world st)
  | (None, None) => (Err (errors_New "nil metadata"), st_world st)
  end.

(** [newRemoteDestroyer].  The builder of [remoteBuild.NewBuilderFromScratch]
    and the constructor [filesystem.NewTemporalDirectoryCtrl] belong to
    packages that are not among the sources, and are parameters. *)
Definition newRemoteDestroyer (NewBuilderFromScratch : Builder)
    (NewTemporalDirectoryCtrl : Fs → TemporalDirectoryInterface) (manifest : Manifest)
    : remoteDestroyCommand :=
  let fs := OsFs in
  let builder := NewBuilderFromScratch in
  {| builder := builder;
     destroyImage := manifest_Destroy_Image manifest;
     fs := fs;
     workingDirectoryCtrl := NewOsWorkingDirectoryCtrl;
     temporalCtrl := NewTemporalDirectoryCtrl fs;
     manifest := manifest;
     clusterMetadata := fetchClusterMetadata_provider |}.

(** * The command launchers of the end-to-end tests

    A shallow embedding of the functions of package [commands] that build
    the command lines of [okteto deploy] and [okteto destroy]. *)

(** Names of environment variables that the launchers import from the
    packages [model] and [constants]; the name of the token variable is
    [OktetoTokenEnvVar] of the constants above. *)
Record LauncherConstants : Type := {
  OktetoURLEnvVar : string;
  OktetoHomeEnvVar : string;
  KubeConfigEnvVar : string
}.

(** [os.Environ]: the environment as strings of the form key=value. *)
Definition os_Environ (w : World) : list string :=
  (λ kv : string * string, kv.1 +:+ "=" +:+ kv.2) <$> map_to_list (w_env w).

Module exec.

(** [exec.Cmd], with the fields that the launchers set.  [exec.Command]
    also resolves the name to the path of the executable, which the
    launchers do not read. *)
Record Cmd : Type := {
  Args : list string;
  Dir : string;
  Env : list string
}.

(** [exec.Command(name, arg...)]. *)
Definition Command (name : string) (arg : list string) : Cmd :=
  {| Args := name :: arg; Dir := ""; Env := [] |}.

Definition set_Args (args : list string) (cmd : Cmd) : Cmd :=
  {| Args := args; Dir := Dir cmd; Env := Env cmd |}.

Definition set_Dir (dir : string) (cmd : Cmd) : Cmd :=
  {| Args := Args cmd; Dir := dir; Env := Env cmd |}.

Definition set_Env (env : list string) (cmd : Cmd) : Cmd :=
  {| Args := Args cmd; Dir := Dir cmd; Env := env |}.

(** An entry of an environment, cut at its first equals sign into key and
    value; an entry without an equals sign has no key. *)
Fixpoint cut (kv : string) : option (string * string) :=
  match kv with
  | EmptyString => None
  | String c rest =>
      if is_char "=" c then Some ("", rest)
      else match cut rest with
           | Some (key, value) => Some (String c key, value)
           | None => None
           end
  end.

(** The value of [key] in the environment of the process that the command
    starts: when [Env] has several entries for a key, the last one is
    used. *)
Fixpoint lookup_Env (env : list string) (key : string) : option string :=
  match env with
  | [] => None
  | kv :: rest =>
      match lookup_Env rest key with
      | Some value => Some value
      | None =>
          match cut kv with
          | Some (key', value) => if bool_decide (key' = key) then Some value else None
          | None => None
          end
      end
  end.

End exec.

(** A name without an equals sign. *)
Definition equals_free (s : string) : bool :=
  string_forallb (λ c, negb (is_char "=" c)) s.

Module commands.

Module DestroyOptions.
(** [DestroyOptions]. *)
Record t : Type := {
  Workdir : string;
  ManifestPath : string;
  Namespace : string;
  OktetoHome : string;
  Token : string;
  Name : string
}.
End DestroyOptions.

Module DeployOptions.
(** [DeployOptions]. *)
Record t : Type := {
  Workdir : string;
  ManifestPath : string;
  Build : bool;
  LogLevel : string;
  LogOutput : string;
  ServicesToDeploy : list string;
  Namespace : string;
  OktetoHome : string;
  Token : string;
  Name : string;
  Variables : string
}.
End DeployOptions.

Section Launchers.
Variable k : Constants.
Variable c : LauncherConstants.

(** [getDestroyCmd]. *)
Definition getDestroyCmd (oktetoPath : string) (destroyOptions : DestroyOptions.t)
    (w : World) : exec.Cmd :=
  let cmd := exec.Command oktetoPath ["destroy"] in
  let cmd :=
    if bool_decide (DestroyOptions.Workdir destroyOptions ≠ "")
    then exec.set_Dir (DestroyOptions.Workdir destroyOptions) cmd else cmd in
  let cmd :=
    if bool_decide (DestroyOptions.Name destroyOptions ≠ "")
    then exec.set_Args (exec.Args cmd ++ ["--name"; DestroyOptions.Name destroyOptions]) cmd
    else cmd in
  let cmd :=
    if bool_decide (DestroyOptions.ManifestPath destroyOptions ≠ "")
    then exec.set_Args (exec.Args cmd ++ ["-f"; DestroyOptions.ManifestPath destroyOptions]) cmd
    else cmd in
  let cmd :=
    if bool_decide (DestroyOptions.Namespace destroyOptions ≠ "")
    then exec.set_Args
           (exec.Args cmd ++ ["--namespace"; DestroyOptions.Namespace destroyOptions]) cmd
    else cmd in
  let cmd := exec.set_Env (os_Environ w) cmd in
  let v := os_Getenv (OktetoURLEnvVar c) w in
  let cmd :=
    if bool_decide (v ≠ "")
    then exec.set_Env (exec.Env cmd ++ [Sprintf "%s=%s" [OktetoURLEnvVar c; v]]) cmd
    else cmd in
  let cmd :=
    if bool_decide (DestroyOptions.OktetoHome destroyOptions ≠ "")
    then exec.set_Env
           (exec.Env cmd ++
            [Sprintf "%s=%s" [OktetoHomeEnvVar c; DestroyOptions.OktetoHome destroyOptions]])
           cmd
    else cmd in
  let cmd :=
    if bool_decide (DestroyOptions.Token destroyOptions ≠ "")
    then exec.set_Env
           (exec.Env cmd ++
            [Sprintf "%s=%s" [OktetoTokenEnvVar k; DestroyOptions.Token destroyOptions]])
           cmd
    else cmd in
  cmd.

(** [getDeployCmd]. *)
Definition getDeployCmd (oktetoPath : string) (deployOptions : DeployOptions.t)
    (w : World) : exec.Cmd :=
  let cmd := exec.Command oktetoPath ["deploy"] in
  let cmd :=
    if bool_decide (DeployOptions.Workdir deployOptions ≠ "")
    then exec.set_Dir (DeployOptions.Workdir deployOptions) cmd else cmd in
  let cmd :=
    if bool_decide (0 < length (DeployOptions.ServicesToDeploy deployOptions))
    then exec.set_Args (exec.Args cmd ++ DeployOptions.ServicesToDeploy deployOptions) cmd
    else cmd in
  let cmd :=
    if bool_decide (DeployOptions.ManifestPath deployOptions ≠ "")
    then exec.set_Args (exec.Args cmd ++ ["-f"; DeployOptions.ManifestPath deployOptions]) cmd
    else cmd in
  let cmd :=
    if DeployOptions.Build deployOptions
    then exec.set_Args (exec.Args cmd ++ ["--build"]) cmd else cmd in
  let cmd :=
    if bool_decide (DeployOptions.LogLevel deployOptions ≠ "")
    then exec.set_Args (exec.Args cmd ++ ["--log-level"; DeployOptions.LogLevel deployOptions]) cmd
    else cmd in
  let cmd :=
    if bool_decide (DeployOptions.Namespace deployOptions ≠ "")
    then exec.set_Args (exec.Args cmd ++ ["--namespace"; DeployOptions.Namespace deployOptions]) cmd
    else cmd in
  let cmd :=
    if bool_decide (DeployOptions.LogOutput deployOptions ≠ "")
    then exec.set_Args (exec.Args cmd ++ ["--log-output"; DeployOptions.LogOutput deployOptions]) cmd
    else cmd in
  let cmd :=
    if bool_decide (DeployOptions.Name deployOptions ≠ "")
    then exec.set_Args (exec.Args cmd ++ ["--name"; DeployOptions.Name deployOptions]) cmd
    else cmd in
  let cmd :=
    if bool_decide (DeployOptions.Variables deployOptions ≠ "")
    then exec.set_Args (exec.Args cmd ++ ["--var"; DeployOptions.Variables deployOptions]) cmd
    else cmd in
  let cmd := exec.set_Env (os_Environ w) cmd in
  let v := os_Getenv (OktetoURLEnvVar c) w in
  let cmd :=
    if bool_decide (v ≠ "")
    then exec.set_Env (exec.Env cmd ++ [Sprintf "%s=%s" [OktetoURLEnvVar c; v]]) cmd
    else cmd in
  let cmd :=
    if bool_decide (DeployOptions.OktetoHome deployOptions ≠ "")
    then
      let cmd :=
        exec.set_Env
          (exec.Env cmd ++
           [Sprintf "%s=%s" [OktetoHomeEnvVar c; DeployOptions.OktetoHome deployOptions]])
          cmd in
      exec.set_Env
        (exec.Env cmd ++
         [Sprintf "%s=%s"
            [KubeConfigEnvVar c;
             filepath_Join [DeployOptions.OktetoHome deployOptions; ".kube"; "config"]]])
        cmd
    else cmd in
  let cmd :=
    if bool_decide (DeployOptions.Token deployOptions ≠ "")
    then exec.set_Env
           (exec.Env cmd ++
            [Sprintf "%s=%s" [OktetoTokenEnvVar k; DeployOptions.Token deployOptions]])
           cmd
    else cmd in
  cmd.

(** The command that [RunOktetoDestroyRemote] runs. *)
Definition getDestroyRemoteCmd (oktetoPath : string) (destroyOptions : DestroyOptions.t)
    (w : World) : exec.Cmd :=
  let cmd := getDestroyCmd oktetoPath destroyOptions w in
  exec.set_Args (exec.Args cmd ++ ["--remote"]) cmd.
End Launchers.

(** The arguments that a launcher appends for an option: the flag and the
    value, or nothing when the value is empty; and the entry that it
    appends to the environment. *)
Definition flag_with (flag value : string) : list string :=
  if bool_decide (value ≠ "") then [flag; value] else [].

Definition entry_with (key value : string) : list string :=
  if bool_decide (value ≠ "") then [key +:+ "=" +:+ value] else [].

End commands.

(** ** A failing write and a concrete setting for the launchers *)

Definition set_fault (fault : Syscall → option error) (w : World) : World :=
  {| w_cwd := w_cwd w; w_files := w_files w; w_env := w_env w; w_rand := w_rand w;
     w_context := w_context w; w_api := w_api w; w_fault := fault |}.

(** A world in which every write to an open file fails. *)
Definition write_failure_world : World :=
  set_fault (λ call, match call with
                     | sys_Write _ => Some (errors_New "no space left on device")
                     | _ => None
                     end)
            sample_world.

Definition sample_launcher_constants : LauncherConstants :=
  {| OktetoURLEnvVar := "OKTETO_URL";
     OktetoHomeEnvVar := "OKTETO_HOME";
     KubeConfigEnvVar := "KUBECONFIG" |}.

(** A world whose environment has a token and a kubeconfig of its own. *)
Definition launcher_world : World :=
  set_env (<["OKTETO_TOKEN" := "inherited"]> (<["KUBECONFIG" := "/etc/kube"]>
             {[ "OKTETO_URL" := "https://okteto.example" ]}))
          sample_world.

Definition sample_DestroyOptions : commands.DestroyOptions.t :=
  {| commands.DestroyOptions.Workdir := "/home/dev/app";
     commands.DestroyOptions.ManifestPath := "okteto.yml";
     commands.DestroyOptions.Namespace := "team a";
     commands.DestroyOptions.OktetoHome := "/tmp/home";
     commands.DestroyOptions.Token := "secret";
     commands.DestroyOptions.Name := "my env" |}.

Definition sample_DeployOptions : commands.DeployOptions.t :=
  {| commands.DeployOptions.Workdir := "/home/dev/app";
     commands.DeployOptions.ManifestPath := "okteto.yml";
     commands.DeployOptions.Build := true;
     commands.DeployOptions.LogLevel := "debug";
     commands.DeployOptions.LogOutput := "";
     commands.DeployOptions.ServicesToDeploy := ["api"; "web"];
     commands.DeployOptions.Namespace := "team a";
     commands.DeployOptions.OktetoHome := "/tmp/home";
     commands.DeployOptions.Token := "";
     commands.DeployOptions.Name := "my env";
     commands.DeployOptions.Variables := "" |}.

(** * Properties *)

(** ** Strings *)

Lemma string_app_nil_r (s : string) : s +:+ "" = s.
Proof.
  induction s as [|c s IH]; [reflexivity|].
  change (String c (s +:+ "") = String c s). by rewrite IH.
Qed.

Lemma string_app_assoc (s t u : string) : (s +:+ t) +:+ u = s +:+ t +:+ u.
Proof.
  induction s as [|c s IH]; [reflexivity|].
  change (String c ((s +:+ t) +:+ u) = String c (s +:+ t +:+ u)). by rewrite IH.
Qed.

Lemma string_app_cons (c : ascii) (s t : string) :
  String c s +:+ t = String c (s +:+ t).
Proof. reflexivity. Qed.

(** ** Derived flags *)

Lemma getDestroyFlags_unfold opts :
  getDestroyFlags opts =
    (if bool_decide (Name opts ≠ "") then [name_flag opts] else []) ++
    (if bool_decide (Namespace opts ≠ "") then [namespace_flag opts] else []) ++
    (if bool_decide (ManifestPathFlag opts ≠ "") then [file_flag opts] else []) ++
    (if DestroyVolumes opts then ["--volumes"] else []) ++
    (if ForceDestroy opts then ["--force-destroy"] else []).
Proof.
  unfold getDestroyFlags, name_flag, namespace_flag, file_flag.
  repeat case_bool_decide; destruct (DestroyVolumes opts), (ForceDestroy opts);
    cbn; rewrite ?string_app_nil_r; reflexivity.
Qed.

Lemma candidate_flags_NoDup opts : NoDup (candidate_flags opts).
Proof.
  unfold candidate_flags, name_flag, namespace_flag, file_flag.
  rewrite !NoDup_cons, !elem_of_cons, !elem_of_nil.
  repeat split; try apply NoDup_nil_2; intuition discriminate.
Qed.

(** C2. The derived flag list is a subsequence of the five flags in the order
    name, namespace, manifest path, volumes, force (which are pairwise
    different), a flag is in it exactly when its field is non-empty or
    true, and the options of the scenario give the three expected flags. *)
Theorem getDestroyFlags_presence_and_order (opts : Options) :
  sublist (getDestroyFlags opts) (candidate_flags opts) ∧
  NoDup (candidate_flags opts) ∧
  (name_flag opts ∈ getDestroyFlags opts ↔ Name opts ≠ "") ∧
  (namespace_flag opts ∈ getDestroyFlags opts ↔ Namespace opts ≠ "") ∧
  (file_flag opts ∈ getDestroyFlags opts ↔ ManifestPathFlag opts ≠ "") ∧
  ("--volumes" ∈ getDestroyFlags opts ↔ DestroyVolumes opts = true) ∧
  ("--force-destroy" ∈ getDestroyFlags opts ↔ ForceDestroy opts = true) ∧
  getDestroyFlags example_options =
    ["--name " +:+ dquote +:+ "myenv" +:+ dquote; "--namespace ns1"; "--volumes"].
Proof.
  split.
  { rewrite getDestroyFlags_unfold. unfold candidate_flags.
    repeat case_bool_decide; destruct (DestroyVolumes opts), (ForceDestroy opts);
      cbn [app]; repeat (first [apply sublist_skip | apply sublist_cons]);
      apply sublist_nil. }
  split; [apply candidate_flags_NoDup|].
  rewrite getDestroyFlags_unfold.
  unfold name_flag, namespace_flag, file_flag.
  repeat split; try reflexivity;
    repeat case_bool_decide; destruct (DestroyVolumes opts), (ForceDestroy opts);
    cbn [app]; rewrite ?elem_of_cons, ?elem_of_nil;
    try (intros _; by auto); try (intros ?; exfalso; intuition discriminate);
    try (intros ?; intuition discriminate).
Qed.

Example match_123 : regexp_MatchString version_pattern "1.2.3" = true.
Proof. reflexivity. Qed.
Example match_dev : regexp_MatchString version_pattern "dev" = false.
Proof. reflexivity. Qed.
Example match_unanchored : regexp_MatchString version_pattern "v0.15.12-rc.1" = true.
Proof. reflexivity. Qed.
Example match_two : regexp_MatchString version_pattern "1.2" = false.
Proof. reflexivity. Qed.

(** ** Regular expressions *)

Lemma string_app_eq_nil (s t : string) : s +:+ t = "" → s = "" ∧ t = "".
Proof. destruct s; cbn; [by intros ->|discriminate]. Qed.

Lemma string_app_eq_cons (s t : string) c u :
  s +:+ t = String c u →
  (s = "" ∧ t = String c u) ∨ (∃ s', s = String c s' ∧ u = s' +:+ t).
Proof.
  destruct s as [|c' s']; cbn; [by left|].
  intros [= -> <-]. right. by exists s'.
Qed.

Lemma nullable_spec r : nullable r = true ↔ re_matches r "".
Proof.
  induction r as [| |p|r1 IH1 r2 IH2|r1 IH1 r2 IH2|r IH]; cbn [nullable].
  - split; [discriminate|inversion 1].
  - split; [constructor|done].
  - split; [discriminate|inversion 1].
  - rewrite andb_true_iff, IH1, IH2. split.
    + intros [H1 H2]. apply (re_matches_cat _ _ "" ""); assumption.
    + inversion 1 as [| |? ? s1 s2 H1 H2 [E1 E2] E3| | | |]; subst.
      apply string_app_eq_nil in E3 as [-> ->]. by split.
  - rewrite orb_true_iff, IH1, IH2. split.
    + intros [H|H]; [by apply re_matches_alt_l|by apply re_matches_alt_r].
    + inversion 1; subst; [by left|by right].
  - split; [constructor|done].
Qed.

Lemma re_matches_star_cons_inv r c s :
  re_matches (re_star r) (String c s) →
  ∃ s1 s2, s = s1 +:+ s2 ∧ re_matches r (String c s1) ∧ re_matches (re_star r) s2.
Proof.
  intros H. remember (re_star r) as r' eqn:Er. remember (String c s) as t eqn:Et.
  revert Er Et.
  induction H as [| | | | | |r0 s1 s2 H1 _ H2 IH2]; try discriminate.
  intros [= ->] Et.
  apply string_app_eq_cons in Et as [[-> ->]|(s1' & -> & ->)].
  - by apply IH2.
  - by exists s1', s2.
Qed.

Lemma deriv_spec c r s : re_matches (deriv c r) s ↔ re_matches r (String c s).
Proof.
  revert s.
  induction r as [| |p|r1 IH1 r2 IH2|r1 IH1 r2 IH2|r IH]; intros s; cbn [deriv].
  - split; inversion 1.
  - split; inversion 1.
  - destruct (p c) eqn:Hp; split.
    + inversion 1; subst. by constructor.
    + inversion 1; subst. constructor.
    + inversion 1.
    + inversion 1; subst. congruence.
  - assert (Hcat : ∀ s, re_matches (re_cat (deriv c r1) r2) s →
                        re_matches (re_cat r1 r2) (String c s)).
    { intros s0. inversion 1 as [| |? ? s1 s2 H1 H2| | | |]; subst.
      apply IH1 in H1. by apply (re_matches_cat _ _ (String c s1) s2). }
    split.
    + destruct (nullable r1) eqn:Hn; [|by apply Hcat].
      inversion 1 as [| | |? ? ? H1|? ? ? H2| |]; subst; [by apply Hcat|].
      apply IH2 in H2. apply nullable_spec in Hn.
      by apply (re_matches_cat _ _ "" (String c s)).
    + inversion 1 as [| |? ? s1 s2 H1 H2 [E1 E2] E3| | | |]; subst.
      apply string_app_eq_cons in E3 as [[-> ->]|(s1' & -> & ->)].
      * assert (nullable r1 = true) as -> by by apply nullable_spec.
        apply re_matches_alt_r. by apply IH2.
      * apply IH1 in H1.
        destruct (nullable r1); [apply re_matches_alt_l|]; by constructor.
  - split.
    + inversion 1; subst; [apply re_matches_alt_l|apply re_matches_alt_r];
        [by apply IH1|by apply IH2].
    + inversion 1; subst; [apply re_matches_alt_l|apply re_matches_alt_r];
        [by apply IH1|by apply IH2].
  - split.
    + inversion 1 as [| |? ? s1 s2 H1 H2| | | |]; subst.
      apply IH in H1. by apply (re_matches_star_app _ (String c s1) s2).
    + intros (s1 & s2 & -> & H1 & H2)%re_matches_star_cons_inv.
      constructor; [by apply IH|done].
Qed.

Lemma match_prefix_spec r s :
  match_prefix r s = true ↔ ∃ p q, s = p +:+ q ∧ re_matches r p.
Proof.
  revert r. induction s as [|c s IH]; intros r; cbn [match_prefix].
  - rewrite orb_false_r, nullable_spec. split.
    + intros H. by exists "", "".
    + intros (p & q & [-> ->]%eq_sym%string_app_eq_nil & H). done.
  - rewrite orb_true_iff, nullable_spec, IH. split.
    + intros [H|(p & q & -> & H)].
      * by exists "", (String c s).
      * exists (String c p), q. split; [done|]. by apply deriv_spec.
    + intros (p & q & E & H). symmetry in E.
      apply string_app_eq_cons in E as [[-> ->]|(p' & -> & ->)]; [by left|].
      right. exists p', q. split; [done|]. by apply deriv_spec.
Qed.

Lemma regexp_MatchString_spec r s :
  regexp_MatchString r s = true ↔
  ∃ before p after, s = before +:+ p +:+ after ∧ re_matches r p.
Proof.
  induction s as [|c s IH]; cbn [regexp_MatchString].
  - rewrite orb_false_r, match_prefix_spec. split.
    + intros (p & q & -> & H). by exists "", p, q.
    + intros (b & p & q & E & H). symmetry in E.
      apply string_app_eq_nil in E as [-> E]. by exists p, q.
  - rewrite orb_true_iff, match_prefix_spec, IH. split.
    + intros [(p & q & -> & H)|(b & p & q & -> & H)].
      * by exists "", p, q.
      * by exists (String c b), p, q.
    + intros (b & p & q & E & H). symmetry in E.
      apply string_app_eq_cons in E as [[-> E]|(b' & -> & ->)].
      * left. by exists p, q.
      * right. by exists b', p, q.
Qed.

Lemma re_matches_cat_iff r1 r2 s :
  re_matches (re_cat r1 r2) s ↔
  ∃ s1 s2, s = s1 +:+ s2 ∧ re_matches r1 s1 ∧ re_matches r2 s2.
Proof.
  split.
  - inversion 1 as [| |? ? s1 s2 H1 H2| | | |]; subst. by exists s1, s2.
  - intros (s1 & s2 & -> & H1 & H2). by constructor.
Qed.

Lemma re_matches_class_iff p s :
  re_matches (re_class p) s ↔ ∃ c, s = String c "" ∧ p c = true.
Proof.
  split.
  - inversion 1; subst. eauto.
  - intros (c & -> & H). by constructor.
Qed.

Lemma re_matches_star_class p s :
  re_matches (re_star (re_class p)) s ↔ string_forallb p s = true.
Proof.
  split.
  - intros H. remember (re_star (re_class p)) as r eqn:Er. revert Er.
    induction H as [| | | | | |r0 s1 s2 H1 _ H2 IH2]; try discriminate.
    + done.
    + intros [= ->]. apply re_matches_class_iff in H1 as (c & -> & Hc).
      cbn. rewrite Hc. by apply IH2.
  - induction s as [|c s IH]; cbn [string_forallb]; [constructor|].
    intros [Hc Hs]%andb_true_iff.
    apply (re_matches_star_app _ (String c "") s); [by constructor|by apply IH].
Qed.

Lemma re_matches_digits d :
  re_matches (re_plus (re_class is_digit)) d ↔ digit_run d.
Proof.
  unfold re_plus, digit_run. rewrite re_matches_cat_iff. split.
  - intros (s1 & s2 & -> & (c & -> & Hc)%re_matches_class_iff & H2%re_matches_star_class).
    cbn. by rewrite Hc, H2.
  - intros [Hne Hd]. destruct d as [|c d]; [done|]. cbn in Hd.
    apply andb_true_iff in Hd as [Hc Hd].
    exists (String c ""), d. split; [done|].
    split; [by constructor|by apply re_matches_star_class].
Qed.

Lemma re_matches_dot s : re_matches (re_class (is_char ".")) s ↔ s = ".".
Proof.
  rewrite re_matches_class_iff. unfold is_char. split.
  - intros (c & -> & <-%bool_decide_eq_true). done.
  - intros ->. exists "."%char. by rewrite bool_decide_eq_true.
Qed.

Lemma version_pattern_spec p :
  re_matches version_pattern p ↔ three_component_version p.
Proof.
  unfold version_pattern, three_component_version.
  rewrite re_matches_cat_iff. split.
  - intros (d1 & t1 & -> & H1%re_matches_digits & H).
    apply re_matches_cat_iff in H as (x1 & t2 & -> & ->%re_matches_dot & H).
    apply re_matches_cat_iff in H as (d2 & t3 & -> & H2%re_matches_digits & H).
    apply re_matches_cat_iff in H as (x2 & d3 & -> & ->%re_matches_dot & H3%re_matches_digits).
    by exists d1, d2, d3.
  - intros (d1 & d2 & d3 & H1 & H2 & H3 & ->).
    exists d1, ("." +:+ d2 +:+ "." +:+ d3). split; [done|].
    split; [by apply re_matches_digits|].
    apply (re_matches_cat _ _ "." (d2 +:+ "." +:+ d3)); [by apply re_matches_dot|].
    apply re_matches_cat; [by apply re_matches_digits|].
    apply (re_matches_cat _ _ "." d3); [by apply re_matches_dot|].
    by apply re_matches_digits.
Qed.

Lemma version_match_spec s :
  regexp_MatchString version_pattern s = true ↔ contains_version s.
Proof.
  rewrite regexp_MatchString_spec. unfold contains_version. split.
  - intros (b & p & a & -> & H%version_pattern_spec). by exists b, p, a.
  - intros (b & p & a & H & ->). exists b, p, a. split; [done|].
    by apply version_pattern_spec.
Qed.

(** ** The CLI image *)

(** C4. The version string matches the pattern exactly when it has a
    three-component numeric version in it (the pattern is searched, not
    anchored).  [getOktetoCLIVersion] formats the image template with the
    version string when it matches; otherwise it gives the
    environment override when that is non-empty and the template formatted
    with the tag latest when it is empty.  The string 1.2.3 takes the first
    branch and the string dev the second. *)
Theorem getOktetoCLIVersion_cases (k : Constants) (versionString : string) (w : World) :
  (regexp_MatchString version_pattern versionString = true ↔
     contains_version versionString) ∧
  (contains_version versionString →
     getOktetoCLIVersion k versionString w =
       Sprintf (OktetoCLIImageForRemoteTemplate k) [versionString]) ∧
  (¬ contains_version versionString →
     os_Getenv (OKtetoDeployRemoteImage k) w ≠ "" →
     getOktetoCLIVersion k versionString w = os_Getenv (OKtetoDeployRemoteImage k) w) ∧
  (¬ contains_version versionString →
     os_Getenv (OKtetoDeployRemoteImage k) w = "" →
     getOktetoCLIVersion k versionString w =
       Sprintf (OktetoCLIImageForRemoteTemplate k) ["latest"]) ∧
  getOktetoCLIVersion k "1.2.3" w = Sprintf (OktetoCLIImageForRemoteTemplate k) ["1.2.3"] ∧
  getOktetoCLIVersion k "dev" w =
    (if bool_decide (os_Getenv (OKtetoDeployRemoteImage k) w ≠ "")
     then os_Getenv (OKtetoDeployRemoteImage k) w
     else Sprintf (OktetoCLIImageForRemoteTemplate k) ["latest"]).
Proof.
  split; [apply version_match_spec|].
  unfold getOktetoCLIVersion.
  split; [|split; [|split; [|split]]]; try reflexivity.
  - intros H%version_match_spec. by rewrite H.
  - intros H Henv. rewrite <- version_match_spec in H.
    apply not_true_is_false in H. rewrite H. by rewrite bool_decide_eq_true_2.
  - intros H Henv. rewrite <- version_match_spec in H.
    apply not_true_is_false in H. rewrite H. rewrite bool_decide_eq_false_2; [done|].
    by intros ?.
Qed.

Example join_tmp : filepath_Join ["/tmp/okteto-1/"; "deploy"] = "/tmp/okteto-1/deploy".
Proof. vm_compute. reflexivity. Qed.
Example join_dots : filepath_Join ["a/../b/./c//d"; ".."; "deploy"] = "b/c/deploy".
Proof. vm_compute. reflexivity. Qed.
Example join_up : filepath_Join ["../.."; "x"] = "../../x".
Proof. vm_compute. reflexivity. Qed.
Example join_root : filepath_Join ["/.."; ""] = "/".
Proof. vm_compute. reflexivity. Qed.
Example b64_1 : base64_EncodeToString [Byte.x4d; Byte.x61; Byte.x6e] = "TWFu".
Proof. vm_compute. reflexivity. Qed.
Example b64_2 : base64_EncodeToString [Byte.x4d; Byte.x61] = "TWE=".
Proof. vm_compute. reflexivity. Qed.
Example b64_3 : base64_EncodeToString [Byte.x4d] = "TQ==".
Proof. vm_compute. reflexivity. Qed.
Example rand_1 : rand_Int 1000 [Byte.xff; Byte.xff; Byte.x00; Byte.x07] = (Ok 7%N, []).
Proof. vm_compute. reflexivity. Qed.
Example rand_2 : rand_Int 1000 [Byte.xfd; Byte.x07; Byte.x00] = (Ok 263%N, [Byte.x00]).
Proof. vm_compute. reflexivity. Qed.
Example rand_3 : rand_Int 1000 [Byte.xff; Byte.xff; Byte.x00] = (Err (errors_New "unexpected EOF"), []).
Proof. vm_compute. reflexivity. Qed.
Example itoa_1 : Itoa 42 = "42".
Proof. vm_compute. reflexivity. Qed.

(** ** Stepping through the program *)

Ltac unfold_M :=
  unfold check, defer in *;
  unfold mbind, M_mbind, M_bind, mret, M_mret, M_ret, M_fail, emit, call, call_err,
    gets in *.

Ltac not_in_list :=
  cbn [app]; repeat (apply not_elem_of_cons; split; [discriminate|]); apply not_elem_of_nil.

Lemma Sprintf_path (a b : string) : Sprintf "%s/%s" [a; b] = a +:+ "/" +:+ b.
Proof. cbn. by rewrite string_app_nil_r. Qed.

(** ** Staging the ignore-file *)

Section Staging.
Variable decls : ErrorDecls.

Lemma createDockerignoreIfNeeded_unfold rd cwd tmpDir st :
  createDockerignoreIfNeeded decls rd cwd tmpDir st =
    let src := ignore_source cwd in
    let dst := ignore_destination tmpDir in
    let st1 := record (ev_Stat src) st in
    match Fs_Stat (fs rd) src (st_world st) with
    | (Some e, w1) =>
        let st1' := {| st_world := w1; st_trace := st_trace st1 |} in
        if errors_Is_ErrNotExist decls e then (Ok tt, st1') else (Err e, st1')
    | (None, w1) =>
        let st2 := {| st_world := w1; st_trace := st_trace st1 ++ [ev_ReadFile src] |} in
        match Fs_ReadFile (fs rd) src w1 with
        | (Err e, w2) => (Err e, {| st_world := w2; st_trace := st_trace st2 |})
        | (Ok content, w2) =>
            let tr := st_trace st2 ++ [ev_WriteFile dst content 384] in
            match Fs_WriteFile (fs rd) dst content 384 w2 with
            | (Some e, w3) => (Err e, {| st_world := w3; st_trace := tr |})
            | (None, w3) => (Ok tt, {| st_world := w3; st_trace := tr |})
            end
        end
    end.
Proof.
  unfold createDockerignoreIfNeeded, ignore_source, ignore_destination, record.
  rewrite !Sprintf_path. unfold_M. cbn.
  destruct (Fs_Stat _ _ _) as [[e|] w1]; cbn.
  - by destruct (errors_Is_ErrNotExist decls e).
  - destruct (Fs_ReadFile _ _ _) as [[content|e] w2]; cbn; [|done].
    by destruct (Fs_WriteFile _ _ _ _ _) as [[e|] w3].
Qed.

(** C6. Staging the ignore-file: when the stat of the ignore-file of the
    working directory succeeds, its content is read and written, as read,
    to the ignore-file of the build context; when the stat reports that
    the file does not exist, staging succeeds and does nothing else; a
    stat failure of another kind, a read failure and a write failure are
    returned.  On the filesystem of the operating system this means: an
    existing ignore-file is copied with the same content, and without one
    the files stay as they are. *)
Theorem createDockerignoreIfNeeded_cases (rd : remoteDestroyCommand)
    (cwd tmpDir : string) (st : St) :
  let src := ignore_source cwd in
  let dst := ignore_destination tmpDir in
  let run := createDockerignoreIfNeeded decls rd cwd tmpDir st in
  (∀ w1 content w2 w3,
      Fs_Stat (fs rd) src (st_world st) = (None, w1) →
      Fs_ReadFile (fs rd) src w1 = (Ok content, w2) →
      Fs_WriteFile (fs rd) dst content 384 w2 = (None, w3) →
      run = (Ok tt, {| st_world := w3;
                       st_trace := st_trace st ++
                         [ev_Stat src; ev_ReadFile src; ev_WriteFile dst content 384] |})) ∧
  (∀ e w1,
      Fs_Stat (fs rd) src (st_world st) = (Some e, w1) →
      errors_Is_ErrNotExist decls e = true →
      run = (Ok tt, {| st_world := w1; st_trace := st_trace st ++ [ev_Stat src] |})) ∧
  (∀ e w1,
      Fs_Stat (fs rd) src (st_world st) = (Some e, w1) →
      errors_Is_ErrNotExist decls e = false →
      run.1 = Err e) ∧
  (∀ w1 e w2,
      Fs_Stat (fs rd) src (st_world st) = (None, w1) →
      Fs_ReadFile (fs rd) src w1 = (Err e, w2) →
      run.1 = Err e) ∧
  (∀ w1 content w2 e w3,
      Fs_Stat (fs rd) src (st_world st) = (None, w1) →
      Fs_ReadFile (fs rd) src w1 = (Ok content, w2) →
      Fs_WriteFile (fs rd) dst content 384 w2 = (Some e, w3) →
      run.1 = Err e) ∧
  (fs rd = OsFs →
     ∀ content,
      w_files (st_world st) !! src = Some content →
      no_fault (st_world st) (sys_Stat src) →
      no_fault (st_world st) (sys_ReadFile src) →
      no_fault (st_world st) (sys_WriteFile dst) →
      run.1 = Ok tt ∧
      w_files (st_world run.2) = <[dst := content]> (w_files (st_world st))) ∧
  (fs rd = OsFs →
      w_files (st_world st) !! src = None →
      no_fault (st_world st) (sys_Stat src) →
      run.1 = Ok tt ∧ st_world run.2 = st_world st).
Proof.
  intros src dst run. subst run. rewrite createDockerignoreIfNeeded_unfold.
  fold src dst. cbn zeta. unfold record. cbn [st_trace st_world].
  split_and!.
  - intros w1 content w2 w3 -> -> ->. by rewrite <- !app_assoc.
  - intros e w1 -> ->. done.
  - intros e w1 -> ->. done.
  - intros w1 e w2 -> ->. done.
  - intros w1 content w2 e w3 -> -> ->. done.
  - intros -> content Hsrc Hstat Hread Hwrite. unfold no_fault in *. cbn.
    rewrite Hstat, Hsrc. cbn. rewrite Hread, Hsrc. cbn. by rewrite Hwrite.
  - intros -> Hsrc Hstat. unfold no_fault in *. cbn.
    rewrite Hstat, Hsrc. cbn. done.
Qed.
End Staging.

(** ** The cache-invalidation nonce *)

Lemma rand_Int_loop_spec fuel max k b reader n rest :
  (0 < k)%nat →
  rand_Int_loop fuel max k b reader = (Ok n, rest) →
  (n < max)%N ∧ (length rest < length reader)%nat.
Proof.
  intros Hk. revert reader.
  induction fuel as [|fuel IH]; intros reader; cbn [rand_Int_loop]; [done|].
  case_bool_decide as Hlen; [done|].
  case_bool_decide as Hshort; [done|].
  destruct (take k reader) as [|b0 bytes] eqn:Htake; [done|].
  assert (length (drop k reader) < length reader)%nat as Hdrop.
  { rewrite length_drop. lia. }
  destruct (_ <? max)%N eqn:Hlt.
  - intros [= <- <-]. split; [by apply N.ltb_lt|done].
  - intros [Hn Hrest]%IH. split; [done|lia].
Qed.

Lemma rand_Int_1000_spec reader n rest :
  rand_Int 1000 reader = (Ok n, rest) →
  (n < 1000)%N ∧ (length rest < length reader)%nat.
Proof.
  unfold rand_Int.
  change (N.size (1000 - 1)) with 10%N. cbn [N.eqb Pos.eqb].
  change (N.to_nat ((10 + 7) / 8)) with 2%nat.
  change (10 mod 8)%N with 2%N. cbn [N.eqb].
  apply rand_Int_loop_spec. lia.
Qed.

Lemma strings_Contains_unfold (s sub : string) :
  strings_Contains s sub =
    String.prefix sub s ||
    match s with
    | EmptyString => false
    | String _ rest => strings_Contains rest sub
    end.
Proof. destruct s; cbn [strings_Contains]; by destruct (String.prefix _ _). Qed.

Lemma prefix_app (b c : string) : String.prefix b (b +:+ c) = true.
Proof.
  induction b as [|x b IH]; cbn; [by destruct c|].
  destruct (ascii_dec x x); [apply IH|done].
Qed.

Lemma strings_Contains_app (a b c : string) : strings_Contains (a +:+ b +:+ c) b = true.
Proof.
  induction a as [|x a IH]; rewrite strings_Contains_unfold.
  - cbn [String.append]. by rewrite prefix_app.
  - cbn [String.append]. rewrite IH. apply orb_true_r.
Qed.

Lemma strings_Contains_app_r (a t x : string) :
  strings_Contains t x = true → strings_Contains (a +:+ t) x = true.
Proof.
  intros H. induction a as [|c a IH]; [done|].
  rewrite strings_Contains_unfold. cbn [String.append]. rewrite IH. apply orb_true_r.
Qed.

Lemma strings_Contains_Join (ls : list string) (sep x : string) :
  x ∈ ls → strings_Contains (strings_Join ls sep) x = true.
Proof.
  induction ls as [|a ls IH]; [by intros ?%elem_of_nil|].
  intros [->|Hin]%elem_of_cons.
  - destruct ls as [|b ls]; cbn [strings_Join].
    + rewrite <- (string_app_nil_r a) at 1. apply (strings_Contains_app "" a "").
    + apply (strings_Contains_app "" a).
  - destruct ls as [|b ls]; [by apply elem_of_nil in Hin|].
    change (strings_Join (a :: b :: ls) sep) with (a +:+ sep +:+ strings_Join (b :: ls) sep).
    do 2 apply strings_Contains_app_r. by apply IH.
Qed.

Lemma sorted_entries_empty : sorted_entries ∅ = [].
Proof. unfold sorted_entries. by rewrite map_to_list_empty. Qed.

Lemma Execute_manifest_lines data :
  OktetoBuildEnvVars data = ∅ →
  Execute dockerfileTemplate data = strings_Join (manifest_lines data) LF.
Proof.
  intros Hmap. unfold dockerfileTemplate, manifest_lines, optional_env, env_line.
  cbn [Execute exec_node exec_piece exec_pieces]. rewrite Hmap, sorted_entries_empty.
  do 2 case_bool_decide; cbn; rewrite ?string_app_assoc, ?string_app_nil_r; cbn;
    rewrite ?string_app_assoc; reflexivity.
Qed.

(** ** The lines of the manifest *)

Lemma not_is_char (a c : ascii) : negb (is_char a c) = true → c ≠ a.
Proof. unfold is_char. intros H ->. by rewrite bool_decide_eq_true_2 in H. Qed.

Lemma single_line_app (a b : string) :
  single_line (a +:+ b) = single_line a && single_line b.
Proof.
  unfold single_line. induction a as [|c a IH]; cbn -[is_char]; [done|].
  rewrite IH. by rewrite andb_assoc.
Qed.

Lemma lines_single (a : string) : single_line a = true → lines a = [a].
Proof.
  unfold lines, single_line. induction a as [|c a IH]; cbn -[is_char]; [done|].
  intros [Hc%not_is_char Ha]%andb_true_iff.
  rewrite bool_decide_eq_false_2 by done. by rewrite (IH Ha).
Qed.

Lemma lines_cons (a b : string) :
  single_line a = true → lines (a +:+ LF +:+ b) = a :: lines b.
Proof.
  unfold lines, single_line, LF. cbn. induction a as [|c a IH]; cbn -[is_char]; [done|].
  intros [Hc%not_is_char Ha]%andb_true_iff.
  rewrite bool_decide_eq_false_2 by done. by rewrite (IH Ha).
Qed.

Lemma lines_Join (ls : list string) :
  ls ≠ [] → Forall (λ l, single_line l = true) ls → lines (strings_Join ls LF) = ls.
Proof.
  induction ls as [|a ls IH]; [done|]. intros _ Hall.
  apply Forall_cons in Hall as [Ha Hls].
  destruct ls as [|b ls]; [by apply lines_single|].
  change (strings_Join (a :: b :: ls) LF) with (a +:+ LF +:+ strings_Join (b :: ls) LF).
  rewrite lines_cons by done. f_equal. by apply IH.
Qed.

Lemma prefix_key (key key' val : string) :
  no_space key = true → no_space key' = true →
  String.prefix (key +:+ " ") (key' +:+ " " +:+ val) = bool_decide (key = key').
Proof.
  unfold no_space. cbn [String.append]. revert key'.
  induction key as [|a key IH]; intros [|c key']; cbn -[ascii_dec is_char].
  - intros _ _. rewrite bool_decide_eq_true_2 by done. by destruct val.
  - intros _ [Hc%not_is_char _]%andb_true_iff.
    rewrite bool_decide_eq_false_2 by done.
    by destruct (ascii_dec " " c) as [<-|].
  - intros [Ha%not_is_char _]%andb_true_iff _.
    rewrite bool_decide_eq_false_2 by done.
    by destruct (ascii_dec a " ") as [->|].
  - intros [_ Hk]%andb_true_iff [_ Hk']%andb_true_iff.
    destruct (ascii_dec a c) as [->|Hne].
    + rewrite (IH _ Hk Hk'). apply bool_decide_ext. naive_solver.
    + symmetry. apply bool_decide_eq_false_2. naive_solver.
Qed.

Lemma prefix_key_no_space (key s : string) :
  no_space s = true → String.prefix (key +:+ " ") s = false.
Proof.
  unfold no_space. revert s.
  induction key as [|a key IH]; intros [|c s]; cbn -[ascii_dec is_char]; try done.
  - intros [Hc%not_is_char _]%andb_true_iff.
    by destruct (ascii_dec " " c) as [<-|].
  - intros [_ Hs]%andb_true_iff. destruct (ascii_dec a c); [by apply IH|done].
Qed.

Lemma binds_env_line (key key' val : string) :
  no_space key = true → no_space key' = true →
  binds key (env_line key' val) = bool_decide (key = key').
Proof. intros Hk Hk'. unfold binds, env_line. cbn. by apply prefix_key. Qed.

Lemma single_line_pretty_N_go (x : N) (s : string) :
  single_line s = true → single_line (pretty_N_go x s) = true.
Proof.
  revert s. induction (N.lt_wf_0 x) as [x _ IH]; intros s Hs.
  assert (x = 0 ∨ 0 < x)%N as [->|Hpos] by lia; [by rewrite pretty_N_go_0|].
  rewrite pretty_N_go_step by done. apply IH; [by apply N.div_lt|].
  unfold single_line in *. cbn [string_forallb]. rewrite Hs, andb_true_r.
  unfold pretty_N_char. by repeat case_match.
Qed.

Lemma single_line_Itoa (n : Z) : single_line (Itoa n) = true.
Proof.
  unfold Itoa, pretty, pretty_Z.
  assert (HN : ∀ x : N, single_line (pretty x) = true).
  { intros x. unfold pretty, pretty_N. case_decide; [done|].
    by apply single_line_pretty_N_go. }
  destruct n as [|p|p]; [done|apply (HN (Npos p))|].
  rewrite single_line_app. apply andb_true_intro. split; [done|apply (HN (Npos p))].
Qed.

Lemma prefix_app_l (a b l : string) :
  String.prefix a l = false → String.prefix (a +:+ b) l = false.
Proof.
  revert l. induction a as [|x a IH]; intros [|y l]; cbn -[ascii_dec]; try done.
  destruct (ascii_dec x y); [apply IH|done].
Qed.

Lemma prefix_app_same (a b c : string) :
  String.prefix (a +:+ b) (a +:+ c) = String.prefix b c.
Proof.
  induction a as [|x a IH]; cbn -[ascii_dec]; [done|].
  by destruct (ascii_dec x x).
Qed.

Lemma binds_not_env (key line : string) :
  String.prefix "ENV " line = false → binds key line = false.
Proof. intros H. unfold binds. by apply prefix_app_l. Qed.

Lemma binds_nonce (key val : string) :
  no_space key = true →
  binds key ("ENV OKTETO_INVALIDATE_CACHE " +:+ val) = bool_decide (key = "OKTETO_INVALIDATE_CACHE").
Proof.
  intros Hk. change ("ENV OKTETO_INVALIDATE_CACHE " +:+ val)
    with (env_line "OKTETO_INVALIDATE_CACHE" val).
  by apply binds_env_line.
Qed.

Lemma binds_path (key : string) :
  binds key ("ENV PATH=" +:+ dquote +:+ "${PATH}:/okteto/bin" +:+ dquote) = false.
Proof.
  unfold binds.
  change ("ENV PATH=" +:+ dquote +:+ "${PATH}:/okteto/bin" +:+ dquote)
    with ("ENV " +:+ ("PATH=" +:+ dquote +:+ "${PATH}:/okteto/bin" +:+ dquote)).
  rewrite prefix_app_same. by apply prefix_key_no_space.
Qed.

(** What the conditions on the data give, one fact at a time. *)
Lemma well_formed_data_keys data :
  well_formed_data data →
  NoDup (env_keys data) ∧
  no_space (NamespaceEnvVar data) = true ∧ no_space (ContextEnvVar data) = true ∧
  no_space (TokenEnvVar data) = true ∧ no_space (RemoteDeployEnvVar data) = true ∧
  no_space (ActionNameEnvVar data) = true ∧ no_space (GitCommitEnvVar data) = true.
Proof.
  intros (Hnd & Hsp & _). unfold env_keys in Hsp.
  repeat (apply Forall_cons in Hsp as [? Hsp]). by split_and!.
Qed.

Lemma manifest_lines_single data :
  well_formed_data data → Forall (λ l, single_line l = true) (manifest_lines data).
Proof.
  intros (_ & _ & Hsl). unfold env_keys, printed_values in Hsl. cbn [app] in Hsl.
  repeat (apply Forall_cons in Hsl as [? Hsl]).
  unfold manifest_lines, optional_env, env_line.
  do 2 case_bool_decide; cbn [app];
    repeat (apply Forall_cons; split); try apply Forall_nil_2;
    rewrite ?single_line_app;
    repeat (apply andb_true_intro; split);
    first [assumption | reflexivity | apply single_line_Itoa].
Qed.

Lemma lines_manifest data :
  OktetoBuildEnvVars data = ∅ → well_formed_data data →
  lines (Execute dockerfileTemplate data) = manifest_lines data.
Proof.
  intros Hmap Hwf. rewrite Execute_manifest_lines by done.
  apply lines_Join; [|by apply manifest_lines_single].
  unfold manifest_lines. discriminate.
Qed.

Ltac eval_binds :=
  repeat match goal with
    | |- context [binds ?key (env_line ?key' ?val)] =>
        rewrite (binds_env_line key key' val) by assumption
    | |- context [binds ?key ("ENV OKTETO_INVALIDATE_CACHE " +:+ ?val)] =>
        rewrite (binds_nonce key val) by assumption
    | |- context [binds ?key ("ENV PATH=" +:+ ?rest)] =>
        rewrite (binds_path key)
    | |- context [binds ?key ?line] =>
        rewrite (binds_not_env key line) by reflexivity
    end;
  repeat match goal with
    | |- context [bool_decide (?a = ?a)] =>
        rewrite (bool_decide_eq_true_2 (a = a)) by reflexivity
    | |- context [bool_decide (?a = ?b)] =>
        rewrite (bool_decide_eq_false_2 (a = b)) by congruence
    end.

Lemma count_env_manifest data :
  OktetoBuildEnvVars data = ∅ → well_formed_data data →
  count_env (ActionNameEnvVar data) (Execute dockerfileTemplate data) =
    (if bool_decide (ActionNameValue data ≠ "") then 1 else 0) ∧
  count_env (GitCommitEnvVar data) (Execute dockerfileTemplate data) =
    (if bool_decide (GitCommitValue data ≠ "") then 1 else 0).
Proof.
  intros Hmap Hwf. unfold count_env. rewrite lines_manifest by done.
  destruct (well_formed_data_keys data Hwf) as (Hnd & Hns & Hctx & Htok & Hrem & Hact & Hgit).
  unfold env_keys in Hnd.
  repeat (apply NoDup_cons in Hnd as [Hnotin Hnd];
          rewrite ?not_elem_of_cons in Hnotin; destruct_and?).
  unfold manifest_lines, optional_env.
  split; do 2 case_bool_decide; cbn [app count_lines]; eval_binds; reflexivity.
Qed.

Section Rendering.
Variable decls : ErrorDecls.
Variable k : Constants.

Lemma createDockerfile_Ok rd tempDir opts inst st name st' :
  createDockerfile decls k rd tempDir opts inst st = (Ok name, st') →
  ∃ cwd w1 n rest w3 st4 w5,
    let path := filepath_Join [tempDir; "deploy"] in
    let data := dockerfileSyntax k rd opts inst n (set_rand rest w1) in
    wd_Get (workingDirectoryCtrl rd) (st_world st) = (Ok cwd, w1) ∧
    rand_Int 1000 (w_rand w1) = (Ok n, rest) ∧
    Fs_Create (fs rd) path (set_rand rest w1) = (Ok name, w3) ∧
    createDockerignoreIfNeeded decls rd cwd tempDir
      {| st_world := w3; st_trace := st_trace st ++ [ev_Get; ev_rand_Int; ev_Create path] |}
      = (Ok tt, st4) ∧
    Fs_Write (fs rd) name (Execute dockerfileTemplate data) (st_world st4) = (None, w5) ∧
    st' = {| st_world := w5;
             st_trace := st_trace st4 ++ [ev_Write name (Execute dockerfileTemplate data)] |}.
Proof.
  unfold createDockerfile. unfold_M. cbn [st_world st_trace]. unfold rand_Reader_Int.
  destruct (wd_Get _ _) as [[cwd|e] w1] eqn:Hget; [|done].
  cbn [st_world st_trace].
  destruct (rand_Int 1000 (w_rand w1)) as [[n|e] rest] eqn:Hrand; [|done].
  cbn [st_world st_trace].
  destruct (Fs_Create _ _ _) as [[file|e] w3] eqn:Hcreate; [|done].
  cbn [st_world st_trace]. rewrite <- !app_assoc. cbn [app].
  destruct (createDockerignoreIfNeeded _ _ _ _ _) as [[[]|e] st4] eqn:Hignore; [|done].
  destruct (Fs_Write _ _ _ _) as [[e|] w5] eqn:Hwrite; [done|].
  cbn [st_world st_trace]. intros [= <- <-].
  by exists cwd, w1, n, rest, w3, st4, w5.
Qed.

Lemma last_written_snoc trace name text :
  last_written (trace ++ [ev_Write name text]) = Some text.
Proof. induction trace as [|ev trace IH]; cbn; [done|]. by rewrite IH. Qed.

(** C3, as the program has it. Every render that succeeds draws its nonce
    with [rand.Int] from bytes that the random reader had not delivered
    before; the number is below 1000 and is the one printed on the nonce
    line of the manifest that the render writes.  Nothing relates the
    draws of two renders. *)
Theorem nonce_drawn_per_render (rd : remoteDestroyCommand) (tempDir : string)
    (opts : Options) (inst : string) (st : St) (name : string) (st' : St) :
  createDockerfile decls k rd tempDir opts inst st = (Ok name, st') →
  ∃ n cwd w1 rest data,
    wd_Get (workingDirectoryCtrl rd) (st_world st) = (Ok cwd, w1) ∧
    rand_Int 1000 (w_rand w1) = (Ok n, rest) ∧
    (length rest < length (w_rand w1))%nat ∧
    render_nonce rd st = Some n ∧
    (0 ≤ Z.of_N n < 1000)%Z ∧
    RandomInt data = Z.of_N n ∧
    last_written (st_trace st') = Some (Execute dockerfileTemplate data) ∧
    strings_Contains (Execute dockerfileTemplate data) (nonce_line n) = true.
Proof.
  intros (cwd & w1 & n & rest & w3 & st4 & w5 & H)%createDockerfile_Ok.
  cbn zeta in H. destruct H as (Hget & Hrand & _ & _ & _ & ->).
  destruct (rand_Int_1000_spec _ _ _ Hrand) as [Hn Hrest].
  exists n, cwd, w1, rest, (dockerfileSyntax k rd opts inst n (set_rand rest w1)).
  split_and!; try done.
  - unfold render_nonce. by rewrite Hget, Hrand.
  - lia.
  - lia.
  - apply last_written_snoc.
  - rewrite Execute_manifest_lines by done.
    apply strings_Contains_Join. unfold manifest_lines, nonce_line.
    cbn [RandomInt dockerfileSyntax].
    rewrite !elem_of_app. do 4 right.
    do 5 apply list_elem_of_further. apply list_elem_of_here.
Qed.
End Rendering.

(** C3, witness: the render of the sample world draws 7. *)
Lemma nonce_drawn_per_render_witness :
  ∃ n, render_nonce (sample_rd (builder_returning None)) (start sample_world) = Some n ∧
       (0 ≤ Z.of_N n < 1000)%Z.
Proof.
  destruct (createDockerfile sample_decls sample_constants
              (sample_rd (builder_returning None)) "/tmp/okteto-1" example_options
              "okteto/installer:1.0.0" (start sample_world)) as [r st'] eqn:Hrun.
  assert (r = Ok "/tmp/okteto-1/deploy") as ->.
  { apply (f_equal fst) in Hrun. cbn [fst] in Hrun. rewrite <- Hrun.
    vm_compute. reflexivity. }
  destruct (nonce_drawn_per_render _ _ _ _ _ _ _ _ _ Hrun)
    as (n & cwd & w1 & rest & data & _ & _ & _ & Hn & Hrange & _).
  exists n. split; assumption.
Defined.

(** C3, counterexample: two consecutive renders of the sample world both
    succeed and both draw 7 (the reader delivers the bytes ff ff, which are
    rejected, then 00 07 twice), so the two manifests carry the same nonce
    line: the renders write the same text. *)
Lemma nonce_repeats :
  let rd := sample_rd (builder_returning None) in
  let render := createDockerfile sample_decls sample_constants rd "/tmp/okteto-1"
                  example_options "okteto/installer:1.0.0" in
  let st0 := start sample_world in
  let st1 := (render st0).2 in
  let st2 := (render st1).2 in
  (render st0).1 = Ok "/tmp/okteto-1/deploy" ∧
  (render st1).1 = Ok "/tmp/okteto-1/deploy" ∧
  render_nonce rd st0 = Some 7%N ∧
  render_nonce rd st1 = Some 7%N ∧
  (∃ text, last_written (st_trace st1) = Some text ∧
           last_written (st_trace st2) = Some text ∧
           strings_Contains text (nonce_line 7) = true).
Proof.
  cbn zeta. split_and!; try (vm_compute; reflexivity).
  eexists. split_and!; vm_compute; reflexivity.
Qed.

(** ** The ENV lines of the manifest *)

Lemma split_on_nonempty (sep : ascii) (s : string) : split_on sep s ≠ [].
Proof.
  destruct s as [|c s]; cbn [split_on]; [done|].
  case_bool_decide; [done|]. by destruct (split_on sep s).
Qed.

Lemma split_on_app (sep : ascii) (a b : string) :
  split_on sep (a +:+ String sep b) = split_on sep a ++ split_on sep b.
Proof.
  induction a as [|c a IH]; cbn [String.append split_on].
  - by rewrite bool_decide_eq_true_2.
  - rewrite IH. case_bool_decide; [done|].
    pose proof (split_on_nonempty sep a). by destruct (split_on sep a).
Qed.

Lemma Execute_app (a b : list node) data :
  Execute (a ++ b) data = Execute a data +:+ Execute b data.
Proof.
  induction a as [|n a IH]; cbn [app Execute]; [done|].
  by rewrite IH, string_app_assoc.
Qed.

(** A line between two line feeds is in the text, and is one of its lines
    when it has no line feed of its own. *)
Lemma emitted_line_lines (text line : string) :
  emitted_line text line →
  strings_Contains text line = true ∧ (single_line line = true → line ∈ lines text).
Proof.
  intros (before & after & ->). split.
  - apply strings_Contains_app_r. apply (strings_Contains_app LF line).
  - intros Hline. unfold lines.
    change (LF +:+ line +:+ LF +:+ after) with (String "010" (line +:+ LF +:+ after)).
    rewrite split_on_app. apply elem_of_app. right.
    fold (lines (line +:+ LF +:+ after)). rewrite lines_cons by done.
    apply list_elem_of_here.
Qed.

(** The part of the template from node [i] on writes its text after the
    text of the nodes before. *)
Lemma Execute_from (i : nat) data :
  Execute dockerfileTemplate data =
    Execute (take i dockerfileTemplate) data +:+ Execute (drop i dockerfileTemplate) data.
Proof. by rewrite <- Execute_app, take_drop. Qed.

Ltac normal_append :=
  repeat (progress (rewrite ?string_app_assoc; cbn [String.append])).

Ltac emitted_at i :=
  match goal with
  | |- emitted_line (Execute dockerfileTemplate ?data) _ =>
      rewrite (Execute_from i data);
      exists (Execute (take i dockerfileTemplate) data); eexists;
      f_equal; unfold env_line;
      cbn [drop dockerfileTemplate Execute exec_node exec_piece exec_pieces];
      unfold LF; normal_append
  end.

(** The four required bindings are lines of every manifest, and an
    optional binding is one when its value is not empty. *)
Lemma required_env_lines data :
  let text := Execute dockerfileTemplate data in
  emitted_line text (env_line (NamespaceEnvVar data) (NamespaceValue data)) ∧
  emitted_line text (env_line (ContextEnvVar data) (ContextValue data)) ∧
  emitted_line text (env_line (TokenEnvVar data) (TokenValue data)) ∧
  emitted_line text (env_line (RemoteDeployEnvVar data) "true").
Proof.
  cbn zeta. split_and!.
  - emitted_at 8. reflexivity.
  - emitted_at 12. reflexivity.
  - emitted_at 16. reflexivity.
  - emitted_at 20. reflexivity.
Qed.

Lemma optional_env_lines data :
  let text := Execute dockerfileTemplate data in
  (ActionNameValue data ≠ "" →
   emitted_line text (env_line (ActionNameEnvVar data) (ActionNameValue data))) ∧
  (GitCommitValue data ≠ "" →
   emitted_line text (env_line (GitCommitEnvVar data) (GitCommitValue data))).
Proof.
  cbn zeta. split.
  - intros Hne. emitted_at 23. rewrite (bool_decide_eq_true_2 _ Hne).
    normal_append. reflexivity.
  - intros Hne. emitted_at 25. rewrite (bool_decide_eq_true_2 _ Hne).
    normal_append. reflexivity.
Qed.

(** C5, as the program has it. The four required bindings (namespace,
    context, token, remote marker set to true) are emitted into every
    manifest, each as a line of its own between two line feeds, and so
    is each of the two optional bindings (action name, git commit) whose
    value is not empty; such a text is in the manifest, and is one of its
    lines when it has no line feed in it.  When the keys of the manifest
    are pairwise different names without spaces and neither a key nor a
    printed value has a line feed in it, the manifest has exactly one
    [ENV] line for the action name when its value is non-empty and none
    when it is empty, the same for the git commit, and the four required
    bindings are among its lines. *)
Theorem manifest_env_lines (k : Constants) (rd : remoteDestroyCommand) (opts : Options)
    (inst : string) (n : N) (w : World) :
  let data := dockerfileSyntax k rd opts inst n w in
  let text := Execute dockerfileTemplate data in
  (emitted_line text (env_line (OktetoNamespaceEnvVar k) (ctx_Namespace (w_context w))) ∧
   emitted_line text (env_line (OktetoContextEnvVar k) (ctx_Name (w_context w))) ∧
   emitted_line text (env_line (OktetoTokenEnvVar k) (ctx_Token (w_context w))) ∧
   emitted_line text (env_line (OKtetoDeployRemote k) "true")) ∧
  (os_Getenv (OktetoActionNameEnvVar k) w ≠ "" →
     emitted_line text
       (env_line (OktetoActionNameEnvVar k) (os_Getenv (OktetoActionNameEnvVar k) w))) ∧
  (os_Getenv (OktetoGitCommitEnvVar k) w ≠ "" →
     emitted_line text
       (env_line (OktetoGitCommitEnvVar k) (os_Getenv (OktetoGitCommitEnvVar k) w))) ∧
  (∀ line, emitted_line text line →
     strings_Contains text line = true ∧ (single_line line = true → line ∈ lines text)) ∧
  (well_formed_data data →
   count_env (OktetoActionNameEnvVar k) text =
     (if bool_decide (os_Getenv (OktetoActionNameEnvVar k) w ≠ "") then 1 else 0) ∧
   (os_Getenv (OktetoActionNameEnvVar k) w ≠ "" →
      env_line (OktetoActionNameEnvVar k) (os_Getenv (OktetoActionNameEnvVar k) w)
        ∈ lines text) ∧
   count_env (OktetoGitCommitEnvVar k) text =
     (if bool_decide (os_Getenv (OktetoGitCommitEnvVar k) w ≠ "") then 1 else 0) ∧
   (os_Getenv (OktetoGitCommitEnvVar k) w ≠ "" →
      env_line (OktetoGitCommitEnvVar k) (os_Getenv (OktetoGitCommitEnvVar k) w)
        ∈ lines text) ∧
   env_line (OktetoNamespaceEnvVar k) (ctx_Namespace (w_context w)) ∈ lines text ∧
   env_line (OktetoContextEnvVar k) (ctx_Name (w_context w)) ∈ lines text ∧
   env_line (OktetoTokenEnvVar k) (ctx_Token (w_context w)) ∈ lines text ∧
   env_line (OKtetoDeployRemote k) "true" ∈ lines text).
Proof.
  intros data text. subst text.
  split; [exact (required_env_lines data)|].
  split; [exact (proj1 (optional_env_lines data))|].
  split; [exact (proj2 (optional_env_lines data))|].
  split; [intros line; apply emitted_line_lines|].
  intros Hwf.
  assert (Hmap : OktetoBuildEnvVars data = ∅) by done.
  destruct (count_env_manifest data Hmap Hwf) as [Hact Hgit].
  rewrite lines_manifest by done.
  split_and!; try done.
  - intros Hne. unfold manifest_lines, optional_env. cbn [ActionNameValue data dockerfileSyntax].
    rewrite (bool_decide_eq_true_2 _ Hne). rewrite !elem_of_app. right. left.
    apply list_elem_of_further, list_elem_of_here.
  - intros Hne. unfold manifest_lines, optional_env. cbn [GitCommitValue data dockerfileSyntax].
    rewrite (bool_decide_eq_true_2 _ Hne). rewrite !elem_of_app. do 3 right. left.
    apply list_elem_of_further, list_elem_of_here.
  - unfold manifest_lines. rewrite !elem_of_app. left.
    do 16 apply list_elem_of_further. apply list_elem_of_here.
  - unfold manifest_lines. rewrite !elem_of_app. left.
    do 17 apply list_elem_of_further. apply list_elem_of_here.
  - unfold manifest_lines. rewrite !elem_of_app. left.
    do 18 apply list_elem_of_further. apply list_elem_of_here.
  - unfold manifest_lines. rewrite !elem_of_app. left.
    do 19 apply list_elem_of_further. apply list_elem_of_here.
Qed.

Lemma sample_data_well_formed :
  well_formed_data (dockerfileSyntax sample_constants (sample_rd (builder_returning None))
                      example_options "okteto/installer:1.0.0" 7 sample_world).
Proof.
  unfold well_formed_data. split_and!.
  - refine (bool_decide_unpack _ _). vm_compute. exact I.
  - refine (bool_decide_unpack _ _). vm_compute. exact I.
  - refine (bool_decide_unpack _ _). vm_compute. exact I.
Qed.

(** C5, witness: in the sample world the action name is set and the
    manifest has one line for it. *)
Lemma manifest_env_lines_witness :
  count_env "OKTETO_ACTION_NAME"
    (Execute dockerfileTemplate
       (dockerfileSyntax sample_constants (sample_rd (builder_returning None))
          example_options "okteto/installer:1.0.0" 7 sample_world)) = 1.
Proof.
  exact (proj1 (proj2 (proj2 (proj2 (proj2
           (manifest_env_lines sample_constants (sample_rd (builder_returning None))
              example_options "okteto/installer:1.0.0" 7 sample_world))))
           sample_data_well_formed)).
Defined.

(** C5, counterexample: the action name is not set, and yet the manifest has
    an [ENV] line for it, which is the second line of the value of the
    commit variable. *)
Lemma env_line_without_value :
  let data := dockerfileSyntax sample_constants (sample_rd (builder_returning None))
                example_options "okteto/installer:1.0.0" 7 two_line_commit_world in
  ActionNameValue data = "" ∧
  count_env (ActionNameEnvVar data) (Execute dockerfileTemplate data) = 1 ∧
  "ENV OKTETO_ACTION_NAME x" ∈ lines (Execute dockerfileTemplate data).
Proof.
  cbn zeta. split_and!.
  - vm_compute. reflexivity.
  - vm_compute. reflexivity.
  - refine (bool_decide_unpack _ _). vm_compute. exact I.
Qed.

(** In the world of the counterexample, whose commit value has two lines,
    the required bindings are lines of the manifest all the same. *)
Example required_lines_with_two_line_commit :
  let data := dockerfileSyntax sample_constants (sample_rd (builder_returning None))
                example_options "okteto/installer:1.0.0" 7 two_line_commit_world in
  env_line "OKTETO_NAMESPACE" "ns1" ∈ lines (Execute dockerfileTemplate data) ∧
  env_line "OKTETO_TOKEN" "tok" ∈ lines (Execute dockerfileTemplate data).
Proof.
  cbn zeta. split.
  - apply emitted_line_lines; [|done].
    exact (proj1 (required_env_lines _)).
  - apply emitted_line_lines; [|done].
    exact (proj1 (proj2 (proj2 (required_env_lines _)))).
Qed.

(** ** The destroy run *)

Section Destroy.
Variable decls : ErrorDecls.
Variable k : Constants.

Lemma destroy_staging rd opts st :
  destroy decls k rd opts st =
    match staging decls k rd opts st with
    | (Ok (sc, rd', cwd, dockerfile), st5) =>
        defer (remove_dockerfile rd' dockerfile)
              (build_and_report decls rd' sc cwd dockerfile) st5
    | (Err e, st') => (Err e, st')
    end.
Proof.
  unfold destroy, staging.
  unfold mbind, M_mbind, M_bind, mret, M_mret, M_ret, emit, call.
  cbn [st_world st_trace].
  destruct (clusterMetadata rd _) as [[sc|e] w1]; [|done].
  cbn [st_world st_trace].
  destruct (wd_Get _ _) as [[cwd|e] w2]; [|done].
  cbn [st_world st_trace].
  destruct (tmp_Create _ _) as [[tmpDir|e] w3]; [|done].
  cbn [st_world st_trace].
  by destruct (createDockerfile _ _ _ _ _ _ _) as [[dockerfile|e] st5].
Qed.

Lemma build_and_report_unfold rd sc cwd dockerfile st :
  build_and_report decls rd sc cwd dockerfile st =
    match wd_Change (workingDirectoryCtrl rd) cwd (st_world st) with
    | (Some e, w6) => (Err e, {| st_world := w6; st_trace := st_trace st ++ [ev_Change cwd] |})
    | (None, w6) =>
        let bo := build_request rd sc cwd dockerfile in
        let tr := st_trace st ++ [ev_Change cwd; ev_Build (w_cwd w6) bo] in
        match Build (builder rd) bo w6 with
        | (None, w7) =>
            (Ok tt, {| st_world := w7;
                       st_trace := tr ++ [ev_SetStage "done"; ev_AddToBuffer "info" "EOF"] |})
        | (Some err, w7) =>
            match errors_As_OktetoCommandErr decls err with
            | Some (stage, cause) =>
                (Err (UserError
                        (fmt_Errorf "error during development environment deployment: %w"
                           cause) ""),
                 {| st_world := w7; st_trace := tr ++ [ev_SetStage stage] |})
            | None =>
                (Err match errors_As_UserError decls err with
                     | Some (e, hint) => UserError e hint
                     | None =>
                         UserError
                           (fmt_Errorf
                              "error during destroy of the development environment: %w"
                              err) ""
                     end,
                 {| st_world := w7; st_trace := tr ++ [ev_SetStage "remote deploy"] |})
            end
        end
    end.
Proof.
  unfold build_and_report, classify_build_error. unfold_M. cbn [st_world st_trace].
  destruct (wd_Change _ _ _) as [[e|] w6]; cbn [st_world st_trace]; [done|].
  destruct (Build _ _ _) as [[err|] w7]; cbn [st_world st_trace].
  - destruct (errors_As_OktetoCommandErr decls err) as [[stage cause]|];
      cbn [st_world st_trace]; rewrite <- ?app_assoc; cbn [app]; [done|].
    by destruct (errors_As_UserError decls err) as [[e hint]|].
  - by rewrite <- !app_assoc.
Qed.

Lemma remove_dockerfile_unfold rd dockerfile st :
  remove_dockerfile rd dockerfile st =
    match Fs_Remove (fs rd) dockerfile (st_world st) with
    | (Some e, w) =>
        (Ok tt, {| st_world := w;
                   st_trace := st_trace st ++
                     [ev_Remove dockerfile; ev_Infof "error removing dockerfile: %w" e] |})
    | (None, w) =>
        (Ok tt, {| st_world := w; st_trace := st_trace st ++ [ev_Remove dockerfile] |})
    end.
Proof.
  unfold remove_dockerfile. unfold_M. cbn [st_world st_trace].
  destruct (Fs_Remove _ _ _) as [[e|] w]; cbn [st_world st_trace]; [|done].
  by rewrite <- app_assoc.
Qed.

Lemma reported_stage_app (a b : list Event) :
  reported_stage (a ++ b) =
    match reported_stage b with
    | Some stage => Some stage
    | None => reported_stage a
    end.
Proof.
  induction a as [|ev a IH]; cbn [app reported_stage].
  - by destruct (reported_stage b).
  - rewrite IH. by destruct (reported_stage b).
Qed.
End Destroy.

Section DestroyProperties.
Variable decls : ErrorDecls.
Variable k : Constants.

(** A run whose staging succeeded, step by step: the rest of the run, then
    the deferred removal. *)
Lemma destroy_after_staging rd opts st sc rd' cwd dockerfile st5 :
  staging decls k rd opts st = (Ok (sc, rd', cwd, dockerfile), st5) →
  destroy decls k rd opts st =
    let body := build_and_report decls rd' sc cwd dockerfile st5 in
    (body.1, (remove_dockerfile rd' dockerfile body.2).2).
Proof.
  intros Hst. rewrite destroy_staging, Hst. unfold defer.
  by destruct (build_and_report _ _ _ _ _ _).
Qed.

Lemma reported_stage_after_removal rd dockerfile st stage :
  reported_stage (st_trace st) = Some stage →
  reported_stage (st_trace (remove_dockerfile rd dockerfile st).2) = Some stage.
Proof.
  intros Hstage. rewrite remove_dockerfile_unfold.
  destruct (Fs_Remove _ _ _) as [[e|] w]; cbn [snd st_trace];
    by rewrite reported_stage_app, Hstage.
Qed.

(** C1. When the builder returns an error, [destroy] classifies it in three
    cases.  If a command error is found along the chain, the result is a
    user error around a new error that wraps the cause carried by the
    command error, and the stage that is reported is the stage of the
    command error.  Otherwise the reported stage is remote deploy; if a
    user error is found along the chain, that user error is the result
    (the error of the builder itself when it is a user error), and if
    none is found, the result is a user error around a new error that
    wraps the error of the builder. *)
Theorem destroy_classifies_build_error (rd : remoteDestroyCommand) (opts : Options)
    (st : St) (sc : ClusterMetadata) (rd' : remoteDestroyCommand)
    (cwd dockerfile : string) (st5 : St) (w6 : World) (err : error) (w7 : World) :
  staging decls k rd opts st = (Ok (sc, rd', cwd, dockerfile), st5) →
  wd_Change (workingDirectoryCtrl rd') cwd (st_world st5) = (None, w6) →
  Build (builder rd') (build_request rd' sc cwd dockerfile) w6 = (Some err, w7) →
  let run := destroy decls k rd opts st in
  match errors_As_OktetoCommandErr decls err with
  | Some (stage, cause) =>
      let E := fmt_Errorf "error during development environment deployment: %w" cause in
      run.1 = Err (UserError E "") ∧
      errors_Unwrap decls E = Some cause ∧
      reported_stage (st_trace run.2) = Some stage
  | None =>
      reported_stage (st_trace run.2) = Some "remote deploy" ∧
      match errors_As_UserError decls err with
      | Some (e, hint) =>
          run.1 = Err (UserError e hint) ∧
          (∀ e0 hint0, err = UserError e0 hint0 → run.1 = Err err)
      | None =>
          let E := fmt_Errorf "error during destroy of the development environment: %w" err in
          run.1 = Err (UserError E "") ∧
          errors_Unwrap decls E = Some err
      end
  end.
Proof.
  intros Hst Hchange Hbuild run. subst run.
  rewrite (destroy_after_staging _ _ _ _ _ _ _ _ Hst). cbn zeta.
  rewrite build_and_report_unfold, Hchange. cbn zeta. rewrite Hbuild.
  destruct (errors_As_OktetoCommandErr decls err) as [[stage cause]|] eqn:Hcmd.
  - cbn [fst snd]. split_and!; [done|done|].
    apply reported_stage_after_removal. cbn [st_trace].
    by rewrite reported_stage_app.
  - cbn [fst snd]. split.
    { apply reported_stage_after_removal. cbn [st_trace].
      by rewrite reported_stage_app. }
    destruct (errors_As_UserError decls err) as [[e hint]|] eqn:Huser.
    + split; [done|]. intros e0 hint0 ->. cbn in Huser. by simplify_eq.
    + by split.
Qed.

Lemma staging_Ok rd opts st sc rd' cwd dockerfile st5 :
  staging decls k rd opts st = (Ok (sc, rd', cwd, dockerfile), st5) →
  ∃ w1 w2 tmpDir w3,
    clusterMetadata rd (st_world st) = (Ok sc, w1) ∧
    rd' = (if bool_decide (destroyImage rd = "")
           then set_destroyImage (PipelineRunnerImage sc) rd else rd) ∧
    wd_Get (workingDirectoryCtrl rd) w1 = (Ok cwd, w2) ∧
    tmp_Create (temporalCtrl rd) w2 = (Ok tmpDir, w3) ∧
    createDockerfile decls k rd' tmpDir opts (PipelineInstallerImage sc)
      {| st_world := w3;
         st_trace := st_trace st ++ [ev_clusterMetadata; ev_Get; ev_TempCreate] |}
      = (Ok dockerfile, st5).
Proof.
  unfold staging.
  unfold mbind, M_mbind, M_bind, mret, M_mret, M_ret, emit, call.
  cbn [st_world st_trace].
  destruct (clusterMetadata rd _) as [[sc0|e] w1] eqn:Hmd; [|done].
  cbn [st_world st_trace].
  set (rd0 := if bool_decide (destroyImage rd = "") then _ else _).
  assert (Hwd : workingDirectoryCtrl rd0 = workingDirectoryCtrl rd)
    by (subst rd0; by case_bool_decide).
  assert (Htmp : temporalCtrl rd0 = temporalCtrl rd)
    by (subst rd0; by case_bool_decide).
  rewrite Hwd, Htmp.
  destruct (wd_Get _ _) as [[cwd0|e] w2] eqn:Hget; [|done].
  cbn [st_world st_trace].
  destruct (tmp_Create _ _) as [[tmpDir|e] w3] eqn:Hcreate; [|done].
  cbn [st_world st_trace]. rewrite <- !app_assoc. cbn [app].
  destruct (createDockerfile _ _ _ _ _ _ _) as [[dockerfile0|e] st5'] eqn:Hdf; [|done].
  intros [= <- <- <- <- <-]. by exists w1, w2, tmpDir, w3.
Qed.


Lemma staging_set_Remove remove rd opts st :
  staging decls k (set_Remove remove rd) opts st =
    match staging decls k rd opts st with
    | (Ok (sc, rd', cwd, dockerfile), st5) =>
        (Ok (sc, set_Remove remove rd', cwd, dockerfile), st5)
    | (Err e, st') => (Err e, st')
    end.
Proof.
  unfold staging.
  unfold mbind, M_mbind, M_bind, mret, M_mret, M_ret, emit, call.
  cbn [st_world st_trace set_Remove clusterMetadata destroyImage].
  destruct (clusterMetadata rd _) as [[sc|e] w1]; [|done].
  cbn [st_world st_trace].
  case_bool_decide.
  - change (workingDirectoryCtrl (set_destroyImage (PipelineRunnerImage sc) (set_Remove remove rd)))
      with (workingDirectoryCtrl (set_destroyImage (PipelineRunnerImage sc) rd)).
    destruct (wd_Get _ _) as [[cwd|e] w2]; [|done].
    cbn [st_world st_trace].
    change (temporalCtrl (set_destroyImage (PipelineRunnerImage sc) (set_Remove remove rd)))
      with (temporalCtrl (set_destroyImage (PipelineRunnerImage sc) rd)).
    destruct (tmp_Create _ _) as [[tmpDir|e] w3]; [|done].
    cbn [st_world st_trace].
    change (createDockerfile decls k
              (set_destroyImage (PipelineRunnerImage sc) (set_Remove remove rd)))
      with (createDockerfile decls k (set_destroyImage (PipelineRunnerImage sc) rd)).
    by destruct (createDockerfile _ _ _ _ _ _ _) as [[dockerfile|e] st5].
  - change (workingDirectoryCtrl (set_Remove remove rd)) with (workingDirectoryCtrl rd).
    destruct (wd_Get _ _) as [[cwd|e] w2]; [|done].
    cbn [st_world st_trace].
    change (temporalCtrl (set_Remove remove rd)) with (temporalCtrl rd).
    destruct (tmp_Create _ _) as [[tmpDir|e] w3]; [|done].
    cbn [st_world st_trace].
    change (createDockerfile decls k (set_Remove remove rd))
      with (createDockerfile decls k rd).
    by destruct (createDockerfile _ _ _ _ _ _ _) as [[dockerfile|e] st5].
Qed.

(** A run whose staging fails returns that failure from before the [defer]
    statement: nothing is scheduled and nothing more is done. *)
Lemma destroy_staging_failure rd opts st e st' :
  staging decls k rd opts st = (Err e, st') →
  destroy decls k rd opts st = (Err e, st').
Proof. intros Hst. by rewrite destroy_staging, Hst. Qed.

(** C9. Once staging has returned the rendered manifest, its removal is
    deferred: the rest of the run (changing back, building, reporting) is
    followed, whether it succeeded or failed, by one attempt to remove the
    manifest, and the rest itself attempts no removal.  The removal is
    carried out: the world at the end of the run is the one that [Remove]
    returns, so that on the filesystem of the operating system, when the
    removal does not fail, the manifest is gone and every other file is as
    the rest of the run left it.  A failure of the removal is logged and
    nothing else: the result of [destroy] is the result of the rest, and
    on every run it is the same for any other implementation of
    [Remove]. *)
Theorem destroy_removal_is_deferred_and_silent (rd : remoteDestroyCommand)
    (opts : Options) (st : St) :
  let run := destroy decls k rd opts st in
  (∀ remove, (destroy decls k (set_Remove remove rd) opts st).1 = run.1) ∧
  (∀ sc rd' cwd dockerfile st5,
     staging decls k rd opts st = (Ok (sc, rd', cwd, dockerfile), st5) →
     let body := build_and_report decls rd' sc cwd dockerfile st5 in
     run.1 = body.1 ∧
     (∀ path, ev_Remove path ∉ drop (length (st_trace st5)) (st_trace body.2)) ∧
     st_trace run.2 =
       st_trace body.2 ++
       ev_Remove dockerfile ::
       match (Fs_Remove (fs rd) dockerfile (st_world body.2)).1 with
       | Some e => [ev_Infof "error removing dockerfile: %w" e]
       | None => []
       end ∧
     st_world run.2 = (Fs_Remove (fs rd) dockerfile (st_world body.2)).2 ∧
     (fs rd = OsFs →
      no_fault (st_world body.2) (sys_Remove dockerfile) →
      w_files (st_world run.2) !! dockerfile = None ∧
      ∀ path, path ≠ dockerfile →
              w_files (st_world run.2) !! path = w_files (st_world body.2) !! path)).
Proof.
  intros run. subst run. split_and!.
  - intros remove. rewrite !destroy_staging, staging_set_Remove.
    destruct (staging decls k rd opts st) as [[[[[sc rd'] cwd] dockerfile]|e] st5]; [|done].
    unfold defer.
    change (build_and_report decls (set_Remove remove rd'))
      with (build_and_report decls rd').
    by destruct (build_and_report _ _ _ _ _ _).
  - intros sc rd' cwd dockerfile st5 Hst body.
    destruct (staging_Ok _ _ _ _ _ _ _ _ Hst) as (w1 & w2 & tmpDir & w3 & _ & Hrd & _).
    assert (Hfs : fs rd' = fs rd) by (subst rd'; by case_bool_decide).
    rewrite (destroy_after_staging _ _ _ _ _ _ _ _ Hst). cbn zeta. fold body.
    assert (Hworld : st_world (remove_dockerfile rd' dockerfile body.2).2 =
                     (Fs_Remove (fs rd) dockerfile (st_world body.2)).2).
    { rewrite remove_dockerfile_unfold, Hfs.
      by destruct (Fs_Remove _ _ _) as [[e|] w]. }
    split_and!; [done| | |done|].
    + intros path. subst body. rewrite build_and_report_unfold.
      destruct (wd_Change _ _ _) as [[e|] w6]; cbn zeta.
      * cbn [snd st_trace]. rewrite drop_app_length. not_in_list.
      * destruct (Build _ _ _) as [[err|] w7].
        -- destruct (errors_As_OktetoCommandErr decls err) as [[stage cause]|];
             cbn [snd st_trace]; rewrite <- app_assoc, drop_app_length; not_in_list.
        -- cbn [snd st_trace]. rewrite <- app_assoc, drop_app_length. not_in_list.
    + rewrite remove_dockerfile_unfold, Hfs.
      by destruct (Fs_Remove _ _ _) as [[e|] w].
    + intros Hos Hfault. cbn [snd]. rewrite Hworld, Hos. unfold no_fault in Hfault.
      cbn [OsFs Fs_Remove]. rewrite Hfault.
      destruct (w_files (st_world body.2) !! dockerfile) as [content|] eqn:Hfile;
        cbn [snd set_files w_files].
      * split; [apply lookup_delete_eq|]. intros path Hpath. by apply lookup_delete_ne.
      * by split.
Qed.
End DestroyProperties.

(** ** Quoting of the flags *)

Lemma quote_free_app (a b : string) : quote_free (a +:+ b) = quote_free a && quote_free b.
Proof.
  unfold quote_free. induction a as [|c a IH]; cbn -[is_char]; [done|].
  rewrite IH. by rewrite andb_assoc.
Qed.

Lemma no_space_app (a b : string) : no_space (a +:+ b) = no_space a && no_space b.
Proof.
  unfold no_space. induction a as [|c a IH]; cbn -[is_char]; [done|].
  rewrite IH. by rewrite andb_assoc.
Qed.

Example sh_words_quoted : sh_words ("a " +:+ dquote +:+ "b c" +:+ dquote +:+ "d") = Some ["a"; "b cd"].
Proof. reflexivity. Qed.

Example sh_words_empty_quotes : sh_words (dquote +:+ dquote) = Some [""].
Proof. reflexivity. Qed.

Example sh_words_open_quote : sh_words (dquote +:+ "a") = None.
Proof. reflexivity. Qed.

Example sh_words_single_quote : sh_words "a'b'c" = None.
Proof. reflexivity. Qed.

Example sh_words_dollar : sh_words "$HOME" = None.
Proof. reflexivity. Qed.

Lemma is_literal_plain (c : ascii) :
  is_literal c = true → is_char "034" c = false ∧ is_char " " c = false.
Proof. destruct c as [[] [] [] [] [] [] [] []]; by vm_compute. Qed.

Lemma literal_or_blank_cons (c : ascii) (s : string) :
  literal_or_blank (String c s) = true →
  is_char "034" c = false ∧
  (is_char " " c = true ∨ is_char " " c = false ∧ is_literal c = true) ∧
  literal_or_blank s = true.
Proof.
  unfold literal_or_blank. cbn [string_forallb].
  intros [[Hlit|Hsp]%orb_prop Hs]%andb_prop.
  - destruct (is_literal_plain c Hlit) as [Hq Hb]. auto.
  - split; [|auto]. unfold is_char in *. apply bool_decide_eq_true in Hsp as <-.
    by vm_compute.
Qed.

Lemma literal_or_blank_app (a b : string) :
  literal_or_blank (a +:+ b) = literal_or_blank a && literal_or_blank b.
Proof.
  unfold literal_or_blank. induction a as [|c a IH]; cbn [String.append string_forallb];
    [done|]. by rewrite IH, andb_assoc.
Qed.

Lemma literal_text_or_blank (s : string) :
  literal_text s = true → literal_or_blank s = true ∧ no_space s = true.
Proof.
  unfold literal_text, literal_or_blank, no_space.
  induction s as [|c s IH]; cbn [string_forallb]; [done|].
  intros [Hc Hs]%andb_prop. destruct (IH Hs) as [-> ->].
  destruct (is_literal_plain c Hc) as [_ ->]. by rewrite Hc.
Qed.

(** Outside quotes, a text of literal bytes and blanks is read as its
    parts. *)
Lemma sh_words_go_fields (s : string) (cur : option string) :
  literal_or_blank s = true →
  sh_words_go false cur s = Some (fields_go cur s) ∧
  ∀ rest, sh_words_go false cur (s +:+ " " +:+ rest) =
          (fields_go cur s ++.) <$> sh_words_go false None rest.
Proof.
  cbn [String.append]. revert cur. induction s as [|c s IH]; intros cur Hs.
  - split; [done|]. intros rest. done.
  - apply literal_or_blank_cons in Hs as (Hq & Hc & Hs).
    cbn [String.append sh_words_go fields_go]. rewrite Hq.
    destruct Hc as [Hb|[Hb Hlit]]; rewrite Hb.
    + destruct (IH None Hs) as [Hend Hmid]. split.
      * by rewrite Hend.
      * intros rest. rewrite Hmid.
        destruct (sh_words_go false None rest) as [ws|]; cbn; [|done].
        by rewrite app_assoc.
    + rewrite Hlit. by apply IH.
Qed.

(** Between quotes, blanks belong to the word. *)
Lemma sh_words_go_in_quote (v x rest : string) :
  literal_or_blank v = true →
  sh_words_go true (Some x) (v +:+ dquote +:+ rest) =
    sh_words_go false (Some (x +:+ v)) rest.
Proof.
  unfold dquote. cbn [String.append]. revert x.
  induction v as [|c v IH]; intros x Hv.
  - cbn. by rewrite string_app_nil_r.
  - apply literal_or_blank_cons in Hv as (Hq & Hc & Hv).
    cbn [String.append sh_words_go]. rewrite Hq.
    assert (sh_words_go true (push (Some x) c) (v +:+ String "034" rest) =
            sh_words_go false (Some (x +:+ String c v)) rest) as Hpush.
    { unfold push. cbn [word_so_far]. rewrite (IH _ Hv). by rewrite string_app_assoc. }
    destruct Hc as [Hb|[Hb Hlit]]; rewrite Hb; [done|]. by rewrite Hlit.
Qed.

Lemma reads_as_text (t : string) :
  literal_or_blank t = true → reads_as t (blank_fields t).
Proof. intros Ht. by apply sh_words_go_fields. Qed.

Lemma reads_as_name (opts : Options) :
  literal_or_blank (Name opts) = true → reads_as (name_flag opts) ["--name"; Name opts].
Proof.
  intros Hname. unfold name_flag.
  change ("--name " +:+ dquote +:+ Name opts +:+ dquote)
    with ("--name" +:+ " " +:+ dquote +:+ Name opts +:+ dquote).
  split.
  - rewrite (proj2 (sh_words_go_fields "--name" None eq_refl)).
    unfold dquote at 1. cbn [String.append sh_words_go]. change (is_char "034" "034") with true. cbn [negb word_so_far].
    rewrite <- (string_app_nil_r dquote).
    by rewrite sh_words_go_in_quote.
  - intros rest. rewrite !string_app_assoc.
    rewrite (proj2 (sh_words_go_fields "--name" None eq_refl)).
    unfold dquote at 1. cbn [String.append sh_words_go]. change (is_char "034" "034") with true. cbn [negb word_so_far].
    rewrite sh_words_go_in_quote by done.
    cbn [String.append sh_words_go].
    destruct (sh_words_go false None rest) as [ws|]; by cbn.
Qed.

Lemma Join_cons (x : string) (l : list string) :
  strings_Join (x :: l) " " = x +:+ join_tail l.
Proof. destruct l; cbn [strings_Join join_tail]; [by rewrite string_app_nil_r|done]. Qed.

Lemma sh_words_Join (flags : list string) (words : list (list string)) :
  Forall2 reads_as flags words →
  sh_words (strings_Join flags " ") = Some (concat words).
Proof.
  unfold sh_words.
  induction 1 as [|flag ws flags words [Hend Hmid] Hrest IH]; [done|].
  rewrite Join_cons. cbn [concat].
  destruct flags as [|next flags]; cbn [join_tail].
  - apply Forall2_nil_inv_l in Hrest as ->. cbn [concat].
    by rewrite string_app_nil_r, app_nil_r.
  - by rewrite Hmid, IH.
Qed.

(** The parts of a text. *)
Lemma fields_go_app (s b : string) (cur : option string) :
  fields_go cur (s +:+ " " +:+ b) = fields_go cur s ++ fields_go None b.
Proof.
  cbn [String.append]. revert cur.
  induction s as [|c s IH]; intros cur; cbn [String.append fields_go].
  - change (is_char " " " ") with true. cbn [fields_go]. done.
  - destruct (is_char " " c); [|apply IH]. by rewrite IH, app_assoc.
Qed.

Lemma fields_go_plain (a : string) (cur : option string) :
  no_space a = true → is_Some cur ∨ a ≠ "" →
  fields_go cur a = [word_so_far cur +:+ a].
Proof.
  unfold no_space. revert cur.
  induction a as [|c a IH]; intros cur; cbn [string_forallb fields_go].
  - intros _ [[w ->]|?]; [|done]. cbn. by rewrite string_app_nil_r.
  - intros [Hsp Ha]%andb_prop _. apply negb_true_iff in Hsp. rewrite Hsp.
    rewrite (IH (push cur c) Ha) by (left; by eexists).
    unfold push. cbn [word_so_far]. by rewrite string_app_assoc.
Qed.

Lemma fields_go_words (s : string) (cur : option string) :
  (∀ w, cur = Some w → no_space w = true ∧ w ≠ "") →
  Forall (λ w, no_space w = true ∧ w ≠ "") (fields_go cur s).
Proof.
  revert cur. induction s as [|c s IH]; intros cur Hcur; cbn [fields_go].
  - destruct cur as [w|]; cbn; [|constructor]. constructor; [by apply Hcur|constructor].
  - destruct (is_char " " c) eqn:Hc.
    + apply Forall_app. split; [|by apply IH].
      destruct cur as [w|]; cbn; [|constructor]. constructor; [by apply Hcur|constructor].
    + apply IH. intros w [= <-]. split.
      * rewrite no_space_app. apply andb_true_intro. split.
        -- destruct cur as [w|]; cbn; [by apply Hcur|done].
        -- unfold no_space. cbn [string_forallb]. by rewrite Hc.
      * by destruct (word_so_far cur).
Qed.

Lemma blank_fields_words (v : string) :
  Forall (λ w, no_space w = true ∧ w ≠ "") (blank_fields v).
Proof. by apply fields_go_words. Qed.

Lemma blank_fields_one (v : string) :
  blank_fields v = [v] ↔ v ≠ "" ∧ no_space v = true.
Proof.
  split.
  - intros Hv. pose proof (blank_fields_words v) as Hall. rewrite Hv in Hall.
    apply Forall_cons in Hall as [[? ?] _]. done.
  - intros [Hne Hsp]. unfold blank_fields. by rewrite fields_go_plain by auto.
Qed.

Lemma blank_fields_cut (a b : string) :
  no_space a = true → a ≠ "" → blank_fields (a +:+ " " +:+ b) = a :: blank_fields b.
Proof.
  intros Ha Hne. unfold blank_fields. rewrite fields_go_app.
  by rewrite fields_go_plain by auto.
Qed.

Lemma fields_go_nil (v : string) (cur : option string) :
  fields_go cur v = [] ↔ cur = None ∧ string_forallb (is_char " ") v = true.
Proof.
  revert cur. induction v as [|c v IH]; intros cur; cbn [fields_go string_forallb].
  - destruct cur as [w|]; cbn [finish]; [|done]. split; [done|]. by intros [? _].
  - destruct (is_char " " c); cbn [andb].
    + rewrite app_nil, IH. destruct cur as [w|]; cbn [finish].
      * split; by intros [? _].
      * split; [by intros (_ & _ & ?)|by intros [_ ?]].
    + rewrite IH. unfold push. split; [by intros [? _]|by intros [_ ?]].
Qed.

Lemma blank_fields_nil (v : string) :
  blank_fields v = [] ↔ string_forallb (is_char " ") v = true.
Proof. unfold blank_fields. rewrite fields_go_nil. split; [by intros [_ ?]|done]. Qed.

Lemma blank_fields_edges (v : string) :
  blank_fields (" " +:+ v) = blank_fields v ∧ blank_fields (v +:+ " ") = blank_fields v.
Proof.
  split; [done|]. unfold blank_fields.
  rewrite <- (string_app_nil_r " "), fields_go_app. cbn [fields_go finish].
  by rewrite app_nil_r.
Qed.

(** The flag string, word by word. *)
Lemma joined_flags_words (opts : Options) :
  literal_or_blank (Name opts) = true →
  literal_or_blank (Namespace opts) = true →
  literal_or_blank (ManifestPathFlag opts) = true →
  sh_words (joined_flags opts) = Some (destroy_words opts).
Proof.
  intros Hname Hns Hfile. unfold joined_flags, destroy_words.
  rewrite getDestroyFlags_unfold.
  rewrite (sh_words_Join _
    ((if bool_decide (Name opts ≠ "") then [["--name"; Name opts]] else []) ++
     (if bool_decide (Namespace opts ≠ "")
      then ["--namespace" :: blank_fields (Namespace opts)] else []) ++
     (if bool_decide (ManifestPathFlag opts ≠ "")
      then ["--file" :: blank_fields (ManifestPathFlag opts)] else []) ++
     (if DestroyVolumes opts then [["--volumes"]] else []) ++
     (if ForceDestroy opts then [["--force-destroy"]] else []))).
  - rewrite !concat_app.
    destruct (bool_decide (Name opts ≠ "")), (bool_decide (Namespace opts ≠ "")),
      (bool_decide (ManifestPathFlag opts ≠ "")), (DestroyVolumes opts), (ForceDestroy opts);
      cbn [concat app]; by rewrite ?app_nil_r.
  - repeat apply Forall2_app.
    + destruct (bool_decide (Name opts ≠ "")); [|constructor].
      constructor; [by apply reads_as_name|constructor].
    + destruct (bool_decide (Namespace opts ≠ "")); [|constructor].
      constructor; [|constructor].
      change ("--namespace" :: blank_fields (Namespace opts))
        with (fields_go None "--namespace" ++ fields_go None (Namespace opts)).
      rewrite <- fields_go_app. apply reads_as_text.
      by rewrite !literal_or_blank_app, Hns.
    + destruct (bool_decide (ManifestPathFlag opts ≠ "")); [|constructor].
      constructor; [|constructor].
      change ("--file" :: blank_fields (ManifestPathFlag opts))
        with (fields_go None "--file" ++ fields_go None (ManifestPathFlag opts)).
      rewrite <- fields_go_app. apply reads_as_text.
      by rewrite !literal_or_blank_app, Hfile.
    + destruct (DestroyVolumes opts); [|constructor].
      constructor; [by apply (reads_as_text "--volumes")|constructor].
    + destruct (ForceDestroy opts); [|constructor].
      constructor; [by apply (reads_as_text "--force-destroy")|constructor].
Qed.

(** C10, as the program has it. Of the three values that the flags carry,
    only the name is put between double quotes; the namespace and the
    manifest path follow their flag as they are.  For options whose values
    are texts of literal bytes and blanks, a shell therefore reads the
    name as one word, blanks included, and reads after the namespace flag
    and after the file flag the parts of the value that blanks separate,
    each part a word of its own.  The parts are non-empty words without
    blanks, and there is none exactly when the value is all blanks; a
    value is read as the one word that it is exactly when it is not empty
    and has no blank; a value with a blank after a first part is split
    after that part, into that part and the parts of the rest; and blanks
    at its edges split nothing: they are dropped. *)
Theorem only_the_name_is_quoted (opts : Options) :
  getDestroyFlags opts =
    (if bool_decide (Name opts ≠ "")
     then ["--name " +:+ dquote +:+ Name opts +:+ dquote] else []) ++
    (if bool_decide (Namespace opts ≠ "") then ["--namespace " +:+ Namespace opts] else []) ++
    (if bool_decide (ManifestPathFlag opts ≠ "")
     then ["--file " +:+ ManifestPathFlag opts] else []) ++
    (if DestroyVolumes opts then ["--volumes"] else []) ++
    (if ForceDestroy opts then ["--force-destroy"] else []) ∧
  (literal_or_blank (Name opts) = true →
   literal_or_blank (Namespace opts) = true →
   literal_or_blank (ManifestPathFlag opts) = true →
   sh_words (joined_flags opts) = Some (destroy_words opts)) ∧
  (∀ v, Forall (λ w, no_space w = true ∧ w ≠ "") (blank_fields v)) ∧
  (∀ v, blank_fields v = [] ↔ string_forallb (is_char " ") v = true) ∧
  (∀ v, blank_fields v = [v] ↔ v ≠ "" ∧ no_space v = true) ∧
  (∀ a b, no_space a = true → a ≠ "" →
          blank_fields (a +:+ " " +:+ b) = a :: blank_fields b) ∧
  (∀ v, blank_fields (" " +:+ v) = blank_fields v ∧
        blank_fields (v +:+ " ") = blank_fields v).
Proof.
  split_and!.
  - apply getDestroyFlags_unfold.
  - apply joined_flags_words.
  - apply blank_fields_words.
  - apply blank_fields_nil.
  - apply blank_fields_one.
  - apply blank_fields_cut.
  - apply blank_fields_edges.
Qed.

(** C10, witness: the namespace of the spaced options is split at its
    blank into two words, while the name, which has a blank too, stays one
    word. *)
Lemma only_the_name_is_quoted_witness :
  sh_words (joined_flags spaced_options) =
    Some ["--name"; "my env"; "--namespace"; "team"; "a"].
Proof.
  exact (proj1 (proj2 (only_the_name_is_quoted spaced_options)) eq_refl eq_refl eq_refl).
Defined.

(** C10, counterexample: a namespace that starts with a blank and a
    manifest path that ends with one have a space in them, and the shell
    reads each as one word: the blank splits nothing. *)
Lemma blank_without_split :
  strings_Contains (Namespace edge_blank_options) " " = true ∧
  strings_Contains (ManifestPathFlag edge_blank_options) " " = true ∧
  sh_words (joined_flags edge_blank_options) =
    Some ["--name"; "myenv"; "--namespace"; "x"; "--file"; "f.yml"].
Proof. split_and!; vm_compute; reflexivity. Qed.

(** ** Fetching the cluster metadata *)

(** C7, as the program has it. [fetchClusterMetadata] builds the client, asks
    for the metadata of the current namespace, and asks for the certificate
    of the context and namespace only when the metadata has none, which it
    then stores in the metadata; each call is made at most once, in this
    order, and the world stays as it is.  Whenever one of these calls fails
    an error comes back.  The failure to build the client comes back as a
    new error with a message prefix, formatted with the verb for strings,
    so that it does not unwrap to the cause; the errors of the two network
    calls come back as they are. *)
Theorem fetchClusterMetadata_cases (st : St) :
  let api := w_api (st_world st) in
  let name := ctx_Name (w_context (st_world st)) in
  let ns := ctx_Namespace (w_context (st_world st)) in
  let run := fetchClusterMetadata st in
  st_world run.2 = st_world st ∧
  match api_Provide api with
  | Some e =>
      let err := fmt_Errorf "failed to provide okteto client for fetching certs: %s" e in
      run.1 = (None, Some err) ∧
      (∀ decls, errors_Unwrap decls err = None) ∧
      st_trace run.2 = st_trace st ++ [ev_Provide]
  | None =>
      match api_GetClusterMetadata api ns with
      | (_, Some e) =>
          run.1 = (None, Some e) ∧
          st_trace run.2 = st_trace st ++ [ev_Provide; ev_GetClusterMetadata ns]
      | (metadata, None) =>
          match Certificate metadata with
          | Some _ =>
              run.1 = (Some metadata, None) ∧
              st_trace run.2 = st_trace st ++ [ev_Provide; ev_GetClusterMetadata ns]
          | None =>
              run.1 = (Some (set_Certificate (api_GetClusterCertificate api name ns).1 metadata),
                       (api_GetClusterCertificate api name ns).2) ∧
              st_trace run.2 =
                st_trace st ++
                [ev_Provide; ev_GetClusterMetadata ns; ev_GetClusterCertificate name ns]
          end
      end
  end.
Proof.
  cbn zeta. unfold fetchClusterMetadata, record. cbn [st_world st_trace].
  destruct (api_Provide _) as [e|]; cbn [fst snd st_world st_trace]; [done|].
  destruct (api_GetClusterMetadata _ _) as [metadata [e|]];
    cbn [fst snd st_world st_trace]; rewrite <- ?app_assoc; cbn [app]; [done|].
  destruct (Certificate metadata); cbn [fst snd st_world st_trace]; [done|].
  destruct (api_GetClusterCertificate _ _ _) as [cert err].
  cbn [fst snd st_world st_trace]. rewrite <- ?app_assoc. done.
Qed.

(** C7, counterexample: when the metadata call fails, and when the
    certificate call fails, the error that comes back is the error of the
    call itself, which is not a wrapped error. *)
Lemma network_errors_are_not_wrapped :
  (fetchClusterMetadata (start metadata_failure_world)).1
    = (None, Some (errors_New "connection refused")) ∧
  (fetchClusterMetadata (start certificate_failure_world)).1.2
    = Some (errors_New "forbidden") ∧
  ¬ is_wrapped (errors_New "connection refused") ∧
  ¬ is_wrapped (errors_New "forbidden").
Proof.
  split_and!; try reflexivity; by intros (format & cause & ?).
Qed.

(** ** The sample run *)

Lemma sample_staging (b : Builder) :
  staging sample_decls sample_constants (sample_rd b) example_options (start sample_world)
  = (Ok (sample_metadata, sample_staged_rd b, "/home/dev/app", "/tmp/okteto-1/deploy"),
     sample_staged).
Proof. vm_compute. reflexivity. Qed.

Lemma sample_change_back (b : Builder) :
  wd_Change (workingDirectoryCtrl (sample_staged_rd b)) "/home/dev/app" (st_world sample_staged)
  = (None, set_cwd "/home/dev/app" (st_world sample_staged)).
Proof. vm_compute. reflexivity. Qed.

Example sample_staged_cwd : w_cwd (st_world sample_staged) = "/tmp/okteto-1".
Proof. vm_compute. reflexivity. Qed.

(** C1, witness: the builder fails with a command error of stage installer;
    [destroy] returns a user error that wraps the cause and reports the
    stage installer. *)
Lemma destroy_classifies_build_error_witness :
  let run := destroy sample_decls sample_constants
               (sample_rd (builder_returning (Some installer_failure)))
               example_options (start sample_world) in
  let E := fmt_Errorf "error during development environment deployment: %w"
             (errors_New "exit status 1") in
  run.1 = Err (UserError E "") ∧
  errors_Unwrap sample_decls E = Some (errors_New "exit status 1") ∧
  reported_stage (st_trace run.2) = Some "installer".
Proof.
  exact (destroy_classifies_build_error sample_decls sample_constants
           (sample_rd (builder_returning (Some installer_failure))) example_options
           (start sample_world) sample_metadata
           (sample_staged_rd (builder_returning (Some installer_failure)))
           "/home/dev/app" "/tmp/okteto-1/deploy" sample_staged
           (set_cwd "/home/dev/app" (st_world sample_staged)) installer_failure
           (set_cwd "/home/dev/app" (st_world sample_staged))
           (sample_staging _) (sample_change_back _) eq_refl).
Defined.


Lemma sample_version : contains_version "2.14.0".
Proof.
  exists "", "2.14.0", "". split; [|reflexivity].
  exists "2", "14", "0". by split_and!.
Qed.

(** C4, witness: the version string of the sample constants has three
    numeric components and gives the versioned image. *)
Lemma getOktetoCLIVersion_cases_witness :
  getOktetoCLIVersion sample_constants "2.14.0" sample_world = "okteto/okteto:2.14.0".
Proof.
  exact (proj1 (proj2 (getOktetoCLIVersion_cases sample_constants "2.14.0" sample_world))
           sample_version).
Defined.

(** C6, witness: the ignore-file of the sample world is copied with the
    same content. *)
Lemma createDockerignoreIfNeeded_cases_witness :
  let run := createDockerignoreIfNeeded sample_decls (sample_rd (builder_returning None))
               "/home/dev/app" "/tmp/okteto-1" (start sample_world) in
  run.1 = Ok tt ∧
  w_files (st_world run.2) =
    <["/tmp/okteto-1/.dockerignore" := "node_modules" +:+ LF]> (w_files sample_world).
Proof.
  destruct (createDockerignoreIfNeeded_cases sample_decls (sample_rd (builder_returning None))
              "/home/dev/app" "/tmp/okteto-1" (start sample_world))
    as (_ & _ & _ & _ & _ & Hcopy & _).
  exact (Hcopy eq_refl ("node_modules" +:+ LF) eq_refl eq_refl eq_refl eq_refl).
Defined.

(** C9, witness: in the sample run the removal is the last thing that
    happens, a removal that fails leaves the result as it is, and at the
    end the manifest is gone from the temporary directory. *)
Lemma destroy_removal_is_deferred_and_silent_witness :
  let rd := sample_rd (builder_returning None) in
  let run := destroy sample_decls sample_constants rd example_options (start sample_world) in
  (destroy sample_decls sample_constants (set_Remove failing_Remove rd) example_options
     (start sample_world)).1 = run.1 ∧
  (∃ trace, st_trace run.2 = trace ++ [ev_Remove "/tmp/okteto-1/deploy"]) ∧
  w_files (st_world sample_staged) !! "/tmp/okteto-1/deploy" ≠ None ∧
  w_files (st_world run.2) !! "/tmp/okteto-1/deploy" = None.
Proof.
  destruct (destroy_removal_is_deferred_and_silent sample_decls sample_constants
              (sample_rd (builder_returning None)) example_options (start sample_world))
    as (Hsame & Hdeferred).
  split; [exact (Hsame failing_Remove)|].
  destruct (Hdeferred _ _ _ _ _ (sample_staging _)) as (_ & _ & Htrace & _ & Hgone).
  split; [eexists; exact Htrace|].
  split; [by vm_compute|].
  refine (proj1 (Hgone eq_refl _)). by vm_compute.
Defined.

Example failing_removal_is_logged :
  let rd := set_Remove failing_Remove (sample_rd (builder_returning None)) in
  let run := destroy sample_decls sample_constants rd example_options (start sample_world) in
  run.1 = Ok tt ∧
  drop 12 (st_trace run.2) =
    [ev_Remove "/tmp/okteto-1/deploy";
     ev_Infof "error removing dockerfile: %w"
       (PathError "remove" "/tmp/okteto-1/deploy" (errors_New "permission denied"))].
Proof. cbn zeta. split; vm_compute; reflexivity. Qed.

(** ** The events of a run *)

Lemma count_events_app p (a b : list Event) :
  count_events p (a ++ b) = count_events p a + count_events p b.
Proof. induction a as [|ev a IH]; cbn; [done|]. rewrite IH. lia. Qed.

Lemma count_events_none (p q : Event → bool) (evs : list Event) :
  (∀ ev, q ev = true → p ev = false) →
  forallb q evs = true →
  count_events p evs = 0.
Proof.
  intros Hpq. induction evs as [|ev evs IH]; cbn; [done|].
  intros [Hq Hrest]%andb_prop. by rewrite (Hpq _ Hq), IH.
Qed.

Lemma events_since_app (st st' : St) (evs : list Event) :
  st_trace st' = st_trace st ++ evs → events_since st st' = evs.
Proof. intros Htr. unfold events_since. by rewrite Htr, drop_app_length. Qed.

Section Events.
Variable decls : ErrorDecls.
Variable k : Constants.

Lemma createDockerignoreIfNeeded_events rd cwd tmpDir st :
  ∃ evs,
    st_trace (createDockerignoreIfNeeded decls rd cwd tmpDir st).2 = st_trace st ++ evs ∧
    forallb staging_event evs = true.
Proof.
  rewrite createDockerignoreIfNeeded_unfold. cbn zeta. unfold record.
  cbn [st_world st_trace].
  destruct (Fs_Stat _ _ _) as [[e|] w1].
  - exists [ev_Stat (ignore_source cwd)].
    by destruct (errors_Is_ErrNotExist decls e).
  - destruct (Fs_ReadFile _ _ _) as [[content|e] w2].
    + exists [ev_Stat (ignore_source cwd); ev_ReadFile (ignore_source cwd);
              ev_WriteFile (ignore_destination tmpDir) content 384].
      destruct (Fs_WriteFile _ _ _ _ _) as [[e|] w3]; cbn [snd st_trace];
        by rewrite <- !app_assoc.
    + exists [ev_Stat (ignore_source cwd); ev_ReadFile (ignore_source cwd)].
      cbn [snd st_trace]. by rewrite <- !app_assoc.
Qed.

Lemma createDockerfile_events rd tempDir opts inst st :
  ∃ evs,
    st_trace (createDockerfile decls k rd tempDir opts inst st).2 = st_trace st ++ evs ∧
    forallb staging_event evs = true.
Proof.
  unfold createDockerfile. unfold_M. cbn [st_world st_trace]. unfold rand_Reader_Int.
  destruct (wd_Get _ _) as [[cwd|e] w1]; [|by exists [ev_Get]].
  cbn [st_world st_trace].
  destruct (rand_Int 1000 (w_rand w1)) as [[n|e] rest];
    [|exists [ev_Get; ev_rand_Int]; cbn [snd st_trace]; by rewrite <- !app_assoc].
  cbn [st_world st_trace].
  destruct (Fs_Create _ _ _) as [[file|e] w3];
    [|eexists [ev_Get; ev_rand_Int; ev_Create _]; cbn [snd st_trace];
      by rewrite <- !app_assoc].
  cbn [st_world st_trace].
  match goal with
  | |- context [createDockerignoreIfNeeded decls rd cwd tempDir ?s] =>
      destruct (createDockerignoreIfNeeded_events rd cwd tempDir s) as (evs & Htr & Hall);
      destruct (createDockerignoreIfNeeded decls rd cwd tempDir s) as [[[]|e] st4]
  end; cbn [snd st_trace] in Htr.
  - destruct (Fs_Write _ _ _ _) as [[e|] w5]; cbn [snd st_world st_trace];
      rewrite Htr; cbn [st_trace]; rewrite <- !app_assoc; cbn [app];
      eexists; (split; [reflexivity|]); cbn [forallb staging_event andb];
      rewrite forallb_app, Hall; done.
  - cbn [snd]. rewrite Htr. rewrite <- !app_assoc. cbn [app].
    eexists. split; [reflexivity|]. done.
Qed.

Lemma staging_events rd opts st :
  ∃ evs,
    st_trace (staging decls k rd opts st).2 = st_trace st ++ evs ∧
    forallb staging_event evs = true.
Proof.
  unfold staging.
  unfold mbind, M_mbind, M_bind, mret, M_mret, M_ret, emit, call.
  cbn [st_world st_trace].
  destruct (clusterMetadata rd _) as [[sc|e] w1]; [|by exists [ev_clusterMetadata]].
  cbn [st_world st_trace].
  destruct (wd_Get _ _) as [[cwd|e] w2];
    [|exists [ev_clusterMetadata; ev_Get]; cbn [snd st_trace]; by rewrite <- !app_assoc].
  cbn [st_world st_trace].
  destruct (tmp_Create _ _) as [[tmpDir|e] w3];
    [|exists [ev_clusterMetadata; ev_Get; ev_TempCreate]; cbn [snd st_trace];
      by rewrite <- !app_assoc].
  cbn [st_world st_trace].
  match goal with
  | |- context [createDockerfile decls k ?r tmpDir opts ?i ?s] =>
      destruct (createDockerfile_events r tmpDir opts i s) as (evs & Htr & Hall);
      destruct (createDockerfile decls k r tmpDir opts i s) as [[dockerfile|e] st5]
  end; cbn [snd st_trace] in Htr |- *; rewrite Htr; cbn [st_trace];
    rewrite <- !app_assoc; cbn [app]; eexists; (split; [reflexivity|]); done.
Qed.
End Events.

Lemma filter_staging_events (p : Event → bool) (evs : list Event) :
  (∀ ev, staging_event ev = true → p ev = false) →
  forallb staging_event evs = true →
  List.filter p evs = [].
Proof.
  intros Hp. induction evs as [|ev evs IH]; cbn [forallb List.filter]; [done|].
  intros [Hev Hrest]%andb_prop. by rewrite (Hp _ Hev), IH.
Qed.

(** ** The outcomes of [destroy] *)

Section Outcomes.
Variable decls : ErrorDecls.
Variable k : Constants.

(** A run of [destroy], case by case: what it returns and what it records
    after staging. *)
Lemma destroy_run rd opts st :
  let run := destroy decls k rd opts st in
  match staging decls k rd opts st with
  | (Err e, st') => run = (Err e, st')
  | (Ok (sc, rd', cwd, dockerfile), st5) =>
      ∃ mid rm,
        st_trace run.2 = st_trace st5 ++ ev_Change cwd :: mid ++ ev_Remove dockerfile :: rm ∧
        (rm = [] ∨ ∃ e, rm = [ev_Infof "error removing dockerfile: %w" e]) ∧
        match wd_Change (workingDirectoryCtrl rd') cwd (st_world st5) with
        | (Some e, _) => run.1 = Err e ∧ mid = []
        | (None, w6) =>
            let request := build_request rd' sc cwd dockerfile in
            match Build (builder rd') request w6 with
            | (None, _) =>
                run.1 = Ok tt ∧
                mid = [ev_Build (w_cwd w6) request; ev_SetStage "done";
                       ev_AddToBuffer "info" "EOF"]
            | (Some err, _) =>
                ∃ E hint stage,
                  run.1 = Err (UserError E hint) ∧
                  mid = [ev_Build (w_cwd w6) request; ev_SetStage stage]
            end
        end
  end.
Proof.
  cbn zeta.
  destruct (staging decls k rd opts st) as [[[[[sc rd'] cwd] dockerfile]|e] st5] eqn:Hst;
    [|by apply destroy_staging_failure].
  rewrite (destroy_after_staging _ _ _ _ _ _ _ _ _ _ Hst). cbn zeta.
  rewrite build_and_report_unfold, remove_dockerfile_unfold.
  destruct (wd_Change _ _ _) as [[e|] w6]; cbn zeta.
  - cbn [fst snd st_world st_trace]. exists [].
    destruct (Fs_Remove _ _ _) as [[e'|] w]; cbn [snd st_trace];
      rewrite <- !app_assoc; cbn [app]; eexists; split_and!; eauto.
  - destruct (Build _ _ _) as [[err|] w7].
    + destruct (errors_As_OktetoCommandErr decls err) as [[stage cause]|];
        cbn [fst snd st_world st_trace].
      * exists [ev_Build (w_cwd w6) (build_request rd' sc cwd dockerfile); ev_SetStage stage].
        destruct (Fs_Remove _ _ _) as [[e'|] w]; cbn [snd st_trace];
          rewrite <- !app_assoc; cbn [app]; eexists; split_and!; eauto.
      * exists [ev_Build (w_cwd w6) (build_request rd' sc cwd dockerfile);
                ev_SetStage "remote deploy"].
        destruct (Fs_Remove _ _ _) as [[e'|] w]; cbn [snd st_trace];
          rewrite <- !app_assoc; cbn [app]; eexists; split_and!; eauto;
          destruct (errors_As_UserError decls err) as [[e0 hint]|]; eauto.
    + cbn [fst snd st_world st_trace].
      exists [ev_Build (w_cwd w6) (build_request rd' sc cwd dockerfile); ev_SetStage "done";
              ev_AddToBuffer "info" "EOF"].
      destruct (Fs_Remove _ _ _) as [[e'|] w]; cbn [snd st_trace];
        rewrite <- !app_assoc; cbn [app]; eexists; split_and!; eauto.
Qed.

(** The world that a run leaves whose staging succeeded: the one that the
    removal of the manifest returns, applied to what the change of
    directory, when it failed, or else the builder has left. *)
Lemma destroy_world rd opts st sc rd' cwd dockerfile st5 :
  staging decls k rd opts st = (Ok (sc, rd', cwd, dockerfile), st5) →
  st_world (destroy decls k rd opts st).2 =
    match wd_Change (workingDirectoryCtrl rd') cwd (st_world st5) with
    | (Some e, w6) => (Fs_Remove (fs rd') dockerfile w6).2
    | (None, w6) =>
        (Fs_Remove (fs rd') dockerfile
           (Build (builder rd') (build_request rd' sc cwd dockerfile) w6).2).2
    end.
Proof.
  intros Hst. rewrite (destroy_after_staging _ _ _ _ _ _ _ _ _ _ Hst). cbn zeta.
  rewrite build_and_report_unfold, remove_dockerfile_unfold.
  destruct (wd_Change _ _ _) as [[e|] w6]; cbn zeta.
  - cbn [fst snd st_world]. by destruct (Fs_Remove _ _ _) as [[e'|] w].
  - destruct (Build _ _ _) as [[err|] w7]; cbn [snd].
    + destruct (errors_As_OktetoCommandErr decls err) as [[stage cause]|];
        cbn [fst snd st_world]; by destruct (Fs_Remove _ _ _) as [[e'|] w].
    + cbn [fst snd st_world]. by destruct (Fs_Remove _ _ _) as [[e'|] w].
Qed.

(** X1. [destroy] returns nil exactly when staging succeeded, the change
    back to the captured working directory succeeded and the builder
    returned nil; the stage that the log reports is then done. *)
Theorem destroy_nil_iff_build_succeeded (rd : remoteDestroyCommand) (opts : Options)
    (st : St) :
  let run := destroy decls k rd opts st in
  (run.1 = Ok tt ↔
     ∃ sc rd' cwd dockerfile st5 w6 w7,
       staging decls k rd opts st = (Ok (sc, rd', cwd, dockerfile), st5) ∧
       wd_Change (workingDirectoryCtrl rd') cwd (st_world st5) = (None, w6) ∧
       Build (builder rd') (build_request rd' sc cwd dockerfile) w6 = (None, w7)) ∧
  (run.1 = Ok tt → reported_stage (st_trace run.2) = Some "done").
Proof.
  intros run. pose proof (destroy_run rd opts st) as Hrun. cbn zeta in Hrun. fold run in Hrun.
  destruct (staging decls k rd opts st) as [[[[[sc rd'] cwd] dockerfile]|e] st5] eqn:Hst.
  - destruct Hrun as (mid & rm & Htr & Hrm & Hcase).
    destruct (wd_Change _ _ _) as [[e|] w6] eqn:Hchange.
    { destruct Hcase as [Hres _]. rewrite Hres. split; [split|]; [done| |done].
      intros (? & ? & ? & ? & ? & ? & ? & [= <- <- <- <- <-] & Hc & _). congruence. }
    cbn zeta in Hcase.
    destruct (Build _ _ _) as [[err|] w7] eqn:Hbuild.
    { destruct Hcase as (E & hint & stage & Hres & _). rewrite Hres.
      split; [split|]; [done| |done].
      intros (? & ? & ? & ? & ? & ? & ? & [= <- <- <- <- <-] & Hc & Hb).
      rewrite Hchange in Hc. simplify_eq. congruence. }
    destruct Hcase as [Hres ->]. split.
    + split; [|done]. intros _. by exists sc, rd', cwd, dockerfile, st5, w6, w7.
    + intros _. rewrite Htr.
      change (ev_Change cwd :: ?a ++ ?b) with ((ev_Change cwd :: a) ++ b).
      rewrite !reported_stage_app.
      by destruct Hrm as [->|[e ->]].
  - rewrite Hrun. cbn [fst]. split; [split|]; [done| |done].
    by intros (? & ? & ? & ? & ? & ? & ? & ? & _).
Qed.

(** X2. The end-of-output marker is put into the log buffer exactly once by
    a run that returns nil, and not at all by a run that returns an
    error. *)
Theorem destroy_marks_end_of_output_iff_nil (rd : remoteDestroyCommand) (opts : Options)
    (st : St) :
  let run := destroy decls k rd opts st in
  count_events is_EOF_marker (events_since st run.2) = succeeded run.1.
Proof.
  intros run. pose proof (destroy_run rd opts st) as Hrun. cbn zeta in Hrun. fold run in Hrun.
  destruct (staging_events decls k rd opts st) as (evs & Hevs & Hall).
  assert (Hnone : count_events is_EOF_marker evs = 0).
  { apply (count_events_none _ staging_event); [|done]. by intros []. }
  destruct (staging decls k rd opts st) as [[[[[sc rd'] cwd] dockerfile]|e] st5] eqn:Hst;
    cbn [snd] in Hevs.
  - destruct Hrun as (mid & rm & Htr & Hrm & Hcase).
    rewrite Hevs, <- app_assoc in Htr. rewrite (events_since_app _ _ _ Htr).
    rewrite count_events_app, Hnone.
    change (ev_Change cwd :: ?a ++ ?b) with ((ev_Change cwd :: a) ++ b).
    rewrite count_events_app.
    assert (count_events is_EOF_marker (ev_Remove dockerfile :: rm) = 0) as ->
      by (by destruct Hrm as [->|[e ->]]).
    destruct (wd_Change _ _ _) as [[e|] w6].
    { destruct Hcase as [-> ->]. done. }
    cbn zeta in Hcase. destruct (Build _ _ _) as [[err|] w7].
    + destruct Hcase as (E & hint & stage & -> & ->). done.
    + destruct Hcase as [-> ->]. done.
  - rewrite Hrun. cbn [fst snd]. by rewrite (events_since_app _ _ _ Hevs).
Qed.

(** X3. A run of [destroy] whose staging fails ends in the state in which
    staging failed, and has made staging calls only: no change of
    directory, no removal, no build.  A run whose staging succeeded makes
    one change of directory, to the captured working directory, and one
    removal, of the manifest.  When the change fails, the builder is not
    invoked and no stage is reported; when it succeeds, the builder is
    invoked once, in the directory that the change has left, with the
    build request, and one stage is reported.  The world at the end is
    the one that the removal returns, applied to what the failed change
    or else the builder has left. *)
Theorem destroy_attempts (rd : remoteDestroyCommand) (opts : Options) (st : St) :
  let run := destroy decls k rd opts st in
  let evs := events_since st run.2 in
  match staging decls k rd opts st with
  | (Err e, st') => run = (Err e, st') ∧ forallb staging_event evs = true
  | (Ok (sc, rd', cwd, dockerfile), st5) =>
      List.filter is_Change evs = [ev_Change cwd] ∧
      List.filter is_Remove evs = [ev_Remove dockerfile] ∧
      match wd_Change (workingDirectoryCtrl rd') cwd (st_world st5) with
      | (Some e, w6) =>
          List.filter is_Build evs = [] ∧
          List.filter is_SetStage evs = [] ∧
          st_world run.2 = (Fs_Remove (fs rd') dockerfile w6).2
      | (None, w6) =>
          let request := build_request rd' sc cwd dockerfile in
          List.filter is_Build evs = [ev_Build (w_cwd w6) request] ∧
          count_events is_SetStage evs = 1 ∧
          st_world run.2 = (Fs_Remove (fs rd') dockerfile (Build (builder rd') request w6).2).2
      end
  end.
Proof.
  intros run evs. subst evs.
  pose proof (destroy_run rd opts st) as Hrun. cbn zeta in Hrun. fold run in Hrun.
  destruct (staging_events decls k rd opts st) as (pre & Hpre & Hall).
  pose proof (destroy_world rd opts st) as Hworld. fold run in Hworld.
  destruct (staging decls k rd opts st) as [[[[[sc rd'] cwd] dockerfile]|e] st5] eqn:Hst;
    cbn [snd] in Hpre.
  - specialize (Hworld _ _ _ _ _ eq_refl).
    destruct Hrun as (mid & rm & Htr & Hrm & Hcase).
    rewrite Hpre, <- app_assoc in Htr. rewrite (events_since_app _ _ _ Htr).
    change (ev_Change cwd :: ?a ++ ?b) with ((ev_Change cwd :: a) ++ b).
    rewrite !List.filter_app.
    rewrite !(filter_staging_events _ pre) by (done || by intros []).
    assert (∀ p, (∀ e, p (ev_Infof "error removing dockerfile: %w" e) = false) →
                 List.filter p (ev_Remove dockerfile :: rm) =
                 List.filter p [ev_Remove dockerfile]) as Hrm'.
    { intros p Hp. destruct Hrm as [->|[e ->]]; [done|]. cbn. by rewrite Hp. }
    rewrite !Hrm' by done.
    destruct (wd_Change _ _ _) as [[e|] w6].
    { destruct Hcase as [_ ->]. done. }
    cbn zeta in Hcase |- *. destruct (Build _ _ _) as [[err|] w7].
    + destruct Hcase as (E & hint & stage & _ & ->). split_and!; try done.
      rewrite !count_events_app. rewrite (count_events_none _ staging_event pre);
        [|by intros []|done].
      by destruct Hrm as [->|[e' ->]].
    + destruct Hcase as [_ ->]. split_and!; try done.
      rewrite !count_events_app. rewrite (count_events_none _ staging_event pre);
        [|by intros []|done].
      by destruct Hrm as [->|[e' ->]].
  - split; [done|]. rewrite Hrun. cbn [snd]. by rewrite (events_since_app _ _ _ Hpre).
Qed.

(** X4. An error that [destroy] returns is the error on which staging
    failed, or the error of the change back to the captured working
    directory, in both cases as it was returned to [destroy]; or the
    builder returned an error and the error of [destroy] is a user
    error. *)
Theorem destroy_error_origin (rd : remoteDestroyCommand) (opts : Options) (st : St)
    (e : error) :
  (destroy decls k rd opts st).1 = Err e →
  (staging decls k rd opts st).1 = Err e ∨
  ∃ sc rd' cwd dockerfile st5,
    staging decls k rd opts st = (Ok (sc, rd', cwd, dockerfile), st5) ∧
    ((wd_Change (workingDirectoryCtrl rd') cwd (st_world st5)).1 = Some e ∨
     ∃ w6 err w7 E hint,
       wd_Change (workingDirectoryCtrl rd') cwd (st_world st5) = (None, w6) ∧
       Build (builder rd') (build_request rd' sc cwd dockerfile) w6 = (Some err, w7) ∧
       e = UserError E hint).
Proof.
  intros He. pose proof (destroy_run rd opts st) as Hrun. cbn zeta in Hrun.
  destruct (staging decls k rd opts st) as [[[[[sc rd'] cwd] dockerfile]|e0] st5] eqn:Hst.
  - right. exists sc, rd', cwd, dockerfile, st5. split; [done|].
    destruct Hrun as (mid & rm & _ & _ & Hcase).
    destruct (wd_Change _ _ _) as [[e1|] w6] eqn:Hchange.
    { destruct Hcase as [Hres _]. left. cbn [fst]. congruence. }
    cbn zeta in Hcase. destruct (Build _ _ _) as [[err|] w7] eqn:Hbuild.
    + destruct Hcase as (E & hint & stage & Hres & _). right.
      exists w6, err, w7, E, hint. split_and!; [done|done|congruence].
    + destruct Hcase as [Hres _]. congruence.
  - left. rewrite Hrun in He. cbn [fst] in He |- *. by injection He as ->.
Qed.
End Outcomes.

(** ** The path of the manifest *)

Lemma string_last_app (a : string) (c : ascii) (b : string) :
  string_last (a +:+ String c b) = string_last (String c b).
Proof.
  induction a as [|x a IH]; cbn [String.append]; [done|].
  change (string_last (String x ?s)) with
    (match string_last s with Some l => Some l | None => Some x end).
  rewrite IH. cbn [string_last]. by destruct (string_last b).
Qed.

Lemma clean_elements_snoc (rooted : bool) (l kept : list string) (e : string) :
  e ≠ "" → e ≠ "." → e ≠ ".." →
  clean_elements rooted (l ++ [e]) kept = clean_elements rooted l kept ++ [e].
Proof.
  intros H1 H2 H3. revert kept.
  induction l as [|x l IH]; intros kept; cbn [app clean_elements].
  - rewrite bool_decide_eq_false_2 by (intros [?|?]; done).
    by rewrite bool_decide_eq_false_2.
  - repeat case_bool_decide; try apply IH.
    destruct kept as [|top kept']; [destruct rooted; apply IH|].
    case_bool_decide; apply IH.
Qed.

Lemma strings_Join_snoc (l : list string) (x sep : string) :
  ∃ before, strings_Join (l ++ [x]) sep = before +:+ x.
Proof.
  induction l as [|a l [before IH]]; [by exists ""|].
  exists (a +:+ sep +:+ before).
  change (strings_Join ((a :: l) ++ [x]) sep)
    with (strings_Join (a :: (l ++ [x])) sep).
  destruct (l ++ [x]) as [|b l'] eqn:Hl; [by destruct l|].
  change (strings_Join (a :: b :: l') sep) with (a +:+ sep +:+ strings_Join (b :: l') sep).
  by rewrite IH, !string_app_assoc.
Qed.

Lemma filepath_Clean_deploy (a : string) :
  ∃ dir, filepath_Clean (a +:+ "/deploy") = dir +:+ "deploy".
Proof.
  unfold filepath_Clean.
  rewrite bool_decide_eq_false_2 by (by destruct a).
  change (a +:+ "/deploy") with (a +:+ String "/" "deploy").
  rewrite split_on_app.
  change (split_on "/" "deploy") with ["deploy"].
  rewrite clean_elements_snoc by done.
  destruct (strings_Join_snoc (clean_elements (String.prefix "/" (a +:+ String "/" "deploy"))
                                 (split_on "/" a) []) "deploy" "/") as [before ->].
  destruct (String.prefix _ _).
  - exists ("/" +:+ before). by rewrite string_app_assoc.
  - rewrite bool_decide_eq_false_2 by (by destruct before). by exists before.
Qed.

(** The manifest is a file named deploy. *)
Lemma filepath_Join_deploy (tempDir : string) :
  ∃ dir, filepath_Join [tempDir; "deploy"] = dir +:+ "deploy".
Proof.
  unfold filepath_Join. rewrite filter_cons. case_decide as Hne.
  - rewrite filter_cons_True by done. rewrite filter_nil.
    change (strings_Join [tempDir; "deploy"] "/") with (tempDir +:+ "/deploy").
    apply filepath_Clean_deploy.
  - rewrite filter_cons_True by done. rewrite filter_nil. by exists "".
Qed.

(** The manifest and the ignore-file of the build context are different
    files. *)
Lemma manifest_is_not_ignore_file (tempDir : string) :
  filepath_Join [tempDir; "deploy"] ≠ ignore_destination tempDir.
Proof.
  destruct (filepath_Join_deploy tempDir) as [dir ->]. unfold ignore_destination.
  intros Heq%(f_equal string_last).
  change "deploy" with (String "d" "eploy") in Heq.
  change "/.dockerignore" with (String "/" ".dockerignore") in Heq.
  by rewrite !string_last_app in Heq.
Qed.

(** ** The manifest on the filesystem of the operating system *)

Section OnDisk.
Variable decls : ErrorDecls.
Variable k : Constants.

(** Staging the ignore-file touches no other file. *)
Lemma createDockerignoreIfNeeded_other_files rd cwd tmpDir st path :
  fs rd = OsFs →
  path ≠ ignore_destination tmpDir →
  w_files (st_world (createDockerignoreIfNeeded decls rd cwd tmpDir st).2) !! path =
    w_files (st_world st) !! path.
Proof.
  intros Hfs Hpath. rewrite createDockerignoreIfNeeded_unfold, Hfs. cbn zeta.
  cbn [OsFs Fs_Stat].
  destruct (w_fault _ (sys_Stat _)) as [e|].
  { by destruct (errors_Is_ErrNotExist decls e). }
  destruct (w_files (st_world st) !! ignore_source cwd) as [content|] eqn:Hsrc; [|done].
  cbn [OsFs Fs_ReadFile]. destruct (w_fault _ (sys_ReadFile _)) as [e|]; [done|].
  rewrite Hsrc. cbn [OsFs Fs_WriteFile].
  destruct (w_fault _ (sys_WriteFile _)) as [e|]; [done|].
  cbn [snd st_world set_files w_files]. by rewrite lookup_insert_ne.
Qed.

(** X5. With the filesystem of the operating system, a render that
    succeeds returns the path of the file named deploy in the temporary
    directory, and that file then holds the text that the render wrote,
    from its first byte to its last: nothing of an earlier file at that
    path is left, and staging the ignore-file has not touched it. *)
Theorem createDockerfile_writes_manifest (rd : remoteDestroyCommand) (tempDir : string)
    (opts : Options) (inst : string) (st : St) (name : string) (st' : St) :
  fs rd = OsFs →
  createDockerfile decls k rd tempDir opts inst st = (Ok name, st') →
  name = filepath_Join [tempDir; "deploy"] ∧
  (∃ dir, name = dir +:+ "deploy") ∧
  ∃ text, last_written (st_trace st') = Some text ∧
          w_files (st_world st') !! name = Some text.
Proof.
  intros Hfs (cwd & w1 & n & rest & w3 & st4 & w5 & H)%createDockerfile_Ok.
  cbn zeta in H. destruct H as (_ & _ & Hcreate & Hignore & Hwrite & ->).
  rewrite Hfs in Hcreate, Hwrite. cbn [OsFs Fs_Create Fs_Write] in Hcreate, Hwrite.
  destruct (w_fault _ (sys_Create _)); [done|]. injection Hcreate as <- <-.
  split; [done|]. split; [apply filepath_Join_deploy|].
  eexists. split; [apply last_written_snoc|]. cbn [st_world].
  match type of Hignore with
  | createDockerignoreIfNeeded _ _ _ _ ?s = _ =>
      pose proof (createDockerignoreIfNeeded_other_files rd cwd tempDir s
                    (filepath_Join [tempDir; "deploy"]) Hfs
                    (manifest_is_not_ignore_file tempDir)) as Hkeep
  end.
  rewrite Hignore in Hkeep. cbn [snd st_world set_files w_files] in Hkeep.
  rewrite lookup_insert_eq in Hkeep.
  destruct (w_fault _ (sys_Write _)); [done|].
  rewrite Hkeep in Hwrite. injection Hwrite as <-.
  cbn [set_files w_files]. by rewrite lookup_insert_eq.
Qed.

(** X6. With the filesystem of the operating system, a render that fails
    after it has created the manifest file leaves that file behind:
    nothing in [createDockerfile] removes it. *)
Theorem failed_render_leaves_manifest_file (rd : remoteDestroyCommand) (tempDir : string)
    (opts : Options) (inst : string) (st : St) (cwd : string) (w1 : World) (n : N)
    (rest : list Byte.byte) (e : error) (st' : St) :
  fs rd = OsFs →
  wd_Get (workingDirectoryCtrl rd) (st_world st) = (Ok cwd, w1) →
  rand_Int 1000 (w_rand w1) = (Ok n, rest) →
  no_fault w1 (sys_Create (filepath_Join [tempDir; "deploy"])) →
  createDockerfile decls k rd tempDir opts inst st = (Err e, st') →
  is_Some (w_files (st_world st') !! filepath_Join [tempDir; "deploy"]).
Proof.
  intros Hfs Hget Hrand Hcreate. unfold no_fault in Hcreate.
  unfold createDockerfile. unfold_M. cbn [st_world st_trace]. unfold rand_Reader_Int.
  rewrite Hget. cbn [st_world st_trace]. rewrite Hrand. cbn [st_world st_trace].
  rewrite Hfs. cbn [OsFs Fs_Create Fs_Write set_rand w_fault]. rewrite Hcreate.
  cbn [st_world st_trace].
  match goal with
  | |- context [createDockerignoreIfNeeded decls rd cwd tempDir ?s] =>
      pose proof (createDockerignoreIfNeeded_other_files rd cwd tempDir s
                    (filepath_Join [tempDir; "deploy"]) Hfs
                    (manifest_is_not_ignore_file tempDir)) as Hkeep;
      destruct (createDockerignoreIfNeeded decls rd cwd tempDir s) as [[[]|e0] st4]
  end; cbn [snd st_world set_files w_files] in Hkeep; rewrite lookup_insert_eq in Hkeep.
  - cbn [st_world st_trace].
    destruct (w_fault _ (sys_Write _)) as [e1|].
    + intros [= <- <-]. cbn [st_world]. by rewrite Hkeep.
    + rewrite Hkeep. done.
  - intros [= <- <-]. by rewrite Hkeep.
Qed.
End OnDisk.

(** ** What staging puts into the manifest *)

Section Staged.
Variable decls : ErrorDecls.
Variable k : Constants.

(** The stats of staging the ignore-file: one, of the ignore-file under
    the directory it was given. *)
Lemma createDockerignoreIfNeeded_stats rd cwd tmpDir st path :
  ev_Stat path ∈ events_since st (createDockerignoreIfNeeded decls rd cwd tmpDir st).2 ↔
  path = ignore_source cwd.
Proof.
  rewrite createDockerignoreIfNeeded_unfold. cbn zeta. unfold record.
  cbn [st_world st_trace].
  destruct (Fs_Stat _ _ _) as [[e|] w1].
  - assert (events_since st
              (if errors_Is_ErrNotExist decls e
               then (Ok (), {| st_world := w1; st_trace := st_trace st ++ [ev_Stat (ignore_source cwd)] |})
               else (Err e, {| st_world := w1; st_trace := st_trace st ++ [ev_Stat (ignore_source cwd)] |})).2
            = [ev_Stat (ignore_source cwd)]) as ->.
    { apply events_since_app. by destruct (errors_Is_ErrNotExist decls e). }
    rewrite list_elem_of_singleton. split; [by intros [= ->]|by intros ->].
  - destruct (Fs_ReadFile _ _ _) as [[content|e] w2].
    + destruct (Fs_WriteFile _ _ _ _ _) as [[e|] w3]; cbn [snd];
        (erewrite events_since_app; [|cbn [st_trace]; rewrite <- !app_assoc; reflexivity]);
        cbn [app]; rewrite !elem_of_cons, elem_of_nil;
        (split; [intros [[= ->]|[[=]|[[=]|[]]]]; done|intros ->; by left]).
    + cbn [snd].
      (erewrite events_since_app; [|cbn [st_trace]; rewrite <- !app_assoc; reflexivity]).
      cbn [app]. rewrite !elem_of_cons, elem_of_nil.
      split; [intros [[= ->]|[[=]|[]]]; done|intros ->; by left].
Qed.

(** X7. In a run whose staging succeeds, the manifest that staging writes
    takes its deploy stage from the destroy image of the command, or from
    the pipeline runner image of the cluster metadata when the command has
    none, and its installer stage from the pipeline installer image; its
    last instruction runs the destroy command with the flags derived from
    the options, joined by blanks. *)
Theorem manifest_stage_images (rd : remoteDestroyCommand) (opts : Options) (st : St)
    (sc : ClusterMetadata) (rd' : remoteDestroyCommand) (cwd dockerfile : string)
    (st5 : St) :
  staging decls k rd opts st = (Ok (sc, rd', cwd, dockerfile), st5) →
  let image := if bool_decide (destroyImage rd = "")
               then PipelineRunnerImage sc else destroyImage rd in
  ∃ data,
    last_written (st_trace st5) = Some (Execute dockerfileTemplate data) ∧
    Execute dockerfileTemplate data = strings_Join (manifest_lines data) LF ∧
    "FROM " +:+ image +:+ " as deploy" ∈ manifest_lines data ∧
    "FROM " +:+ PipelineInstallerImage sc +:+ " as installer" ∈ manifest_lines data ∧
    ∃ before,
      manifest_lines data =
        before ++
        ["RUN okteto destroy --log-output=json --server-name=" +:+ dquote +:+
           "$INTERNAL_SERVER_NAME" +:+ dquote +:+ " " +:+ joined_flags opts;
         ""].
Proof.
  intros (w1 & w2 & tmpDir & w3 & _ & Hrd & _ & _ & Hdf)%staging_Ok image.
  apply createDockerfile_Ok in Hdf as (cwd' & w4 & n & rest & w5 & st6 & w7 & H).
  cbn zeta in H. destruct H as (_ & _ & _ & _ & _ & ->).
  eexists. split; [apply last_written_snoc|].
  assert (destroyImage rd' = image) as Himage by (subst rd' image; by case_bool_decide).
  split; [by apply Execute_manifest_lines|].
  unfold manifest_lines.
  cbn [dockerfileSyntax UserDestroyImage InstallerImage DestroyFlags].
  rewrite Himage. fold (joined_flags opts). split_and!.
  - rewrite !elem_of_app. left. do 8 apply list_elem_of_further. apply list_elem_of_here.
  - rewrite !elem_of_app. left. do 3 apply list_elem_of_further. apply list_elem_of_here.
  - match goal with
    | |- ∃ before, ?a ++ ?b ++ ?c ++ ?d ++
                   ?x1 :: ?x2 :: ?x3 :: ?x4 :: ?x5 :: ?x6 :: ?x7 :: ?x8 :: ?x9 :: ?tl = _ =>
        exists (a ++ b ++ c ++ d ++ [x1; x2; x3; x4; x5; x6; x7; x8; x9])
    end.
    by rewrite <- !app_assoc.
Qed.

(** X8. In a run whose staging succeeds, the only file that staging stats
    is the ignore-file under the directory that the working-directory
    controller reports to [createDockerfile], that is, after the temporary
    directory has been created.  The directory that [destroy] captured
    before, and hands to the builder, is not the one that is searched when
    the two differ. *)
Theorem ignore_file_is_looked_up_after_the_move (rd : remoteDestroyCommand)
    (opts : Options) (st : St) (sc : ClusterMetadata) (rd' : remoteDestroyCommand)
    (cwd dockerfile : string) (st5 : St) :
  staging decls k rd opts st = (Ok (sc, rd', cwd, dockerfile), st5) →
  ∃ w1 w2 tmpDir w3 cwd' w4,
    clusterMetadata rd (st_world st) = (Ok sc, w1) ∧
    wd_Get (workingDirectoryCtrl rd) w1 = (Ok cwd, w2) ∧
    tmp_Create (temporalCtrl rd) w2 = (Ok tmpDir, w3) ∧
    wd_Get (workingDirectoryCtrl rd) w3 = (Ok cwd', w4) ∧
    ∀ path, ev_Stat path ∈ events_since st st5 ↔ path = ignore_source cwd'.
Proof.
  intros (w1 & w2 & tmpDir & w3 & Hmd & Hrd & Hget & Htmp & Hdf)%staging_Ok.
  assert (Hwd : workingDirectoryCtrl rd' = workingDirectoryCtrl rd)
    by (subst rd'; by case_bool_decide).
  apply createDockerfile_Ok in Hdf as (cwd' & w4 & n & rest & w5 & st6 & w7 & H).
  cbn zeta in H. cbn [st_world st_trace] in H.
  destruct H as (Hget' & _ & _ & Hignore & _ & ->).
  rewrite Hwd in Hget'.
  exists w1, w2, tmpDir, w3, cwd', w4. split_and!; [done..|].
  intros path.
  match type of Hignore with
  | createDockerignoreIfNeeded _ _ _ _ ?s = _ => set (S := s) in *
  end.
  pose proof (createDockerignoreIfNeeded_stats rd' cwd' tmpDir S path) as Hstat.
  destruct (createDockerignoreIfNeeded_events decls rd' cwd' tmpDir S) as (evs & Hevs & _).
  rewrite Hignore in Hstat, Hevs. cbn [snd] in Hstat, Hevs.
  rewrite (events_since_app S st6 evs Hevs) in Hstat.
  erewrite events_since_app;
    [|cbn [st_trace]; rewrite Hevs; subst S; cbn [st_trace]; rewrite <- !app_assoc;
      reflexivity].
  rewrite <- Hstat. cbn [app]. rewrite !elem_of_cons, elem_of_app, !elem_of_cons, elem_of_nil.
  split; [|tauto]. intros [|[|[|[|[|[|[|[|]]]]]]]]; done.
Qed.
End Staged.

(** ** The nonce and the text of the manifest *)

Lemma string_length_app (a b : string) :
  String.length (a +:+ b) = String.length a + String.length b.
Proof. induction a as [|c a IH]; cbn [String.append String.length]; [done|]. by rewrite IH. Qed.

Lemma string_app_inj_r (a b c : string) : a +:+ c = b +:+ c → a = b.
Proof.
  revert b. induction a as [|x a IH]; intros [|y b]; cbn [String.append]; [done| | |].
  - intros H%(f_equal String.length). cbn [String.length] in H.
    rewrite string_length_app in H. lia.
  - intros H%(f_equal String.length). cbn [String.length] in H.
    rewrite string_length_app in H. lia.
  - intros [= -> H]. by rewrite (IH _ H).
Qed.

Section Nonce.
Variable k : Constants.

(** X9. Two renders from the same command, options and world write the
    same manifest exactly when they drew the same nonce: the nonce is
    the only part of the text that the random source decides, and
    different nonces always give different texts. *)
Theorem same_manifest_iff_same_nonce (rd : remoteDestroyCommand) (opts : Options)
    (inst : string) (n m : N) (w : World) :
  Execute dockerfileTemplate (dockerfileSyntax k rd opts inst n w) =
    Execute dockerfileTemplate (dockerfileSyntax k rd opts inst m w)
  ↔ n = m.
Proof.
  split; [|by intros ->].
  change dockerfileTemplate with
    (take 27 dockerfileTemplate ++ [Piece (FieldInt RandomInt)] ++ drop 28 dockerfileTemplate).
  rewrite !Execute_app.
  change (Execute (take 27 dockerfileTemplate) (dockerfileSyntax k rd opts inst m w))
    with (Execute (take 27 dockerfileTemplate) (dockerfileSyntax k rd opts inst n w)).
  change (Execute (drop 28 dockerfileTemplate) (dockerfileSyntax k rd opts inst m w))
    with (Execute (drop 28 dockerfileTemplate) (dockerfileSyntax k rd opts inst n w)).
  intros H%(inj (String.append _))%string_app_inj_r.
  cbn [Execute exec_node exec_piece dockerfileSyntax RandomInt] in H.
  rewrite !string_app_nil_r in H. unfold Itoa in H.
  by apply (inj pretty), (inj Z.of_N) in H.
Qed.
End Nonce.

(** ** Flags that run together *)

Section Flags.
Variable k : Constants.

(** X10. Joining the flags with blanks loses where one flag ends: options
    whose manifest path ends in a blank and the volumes flag, with the
    destruction of volumes switched off, give another flag list than the
    options with the plain path and the destruction of volumes switched
    on, but the same flag string and so the same manifest. *)
Theorem flag_string_is_ambiguous (rd : remoteDestroyCommand) (inst : string) (n : N)
    (w : World) (name ns file : string) (force : bool) :
  file ≠ "" →
  let plain := {| Name := name; Namespace := ns; ManifestPathFlag := file;
                  DestroyVolumes := true; ForceDestroy := force |} in
  let crafted := {| Name := name; Namespace := ns;
                    ManifestPathFlag := file +:+ " --volumes";
                    DestroyVolumes := false; ForceDestroy := force |} in
  getDestroyFlags crafted ≠ getDestroyFlags plain ∧
  joined_flags crafted = joined_flags plain ∧
  Execute dockerfileTemplate (dockerfileSyntax k rd crafted inst n w) =
    Execute dockerfileTemplate (dockerfileSyntax k rd plain inst n w).
Proof.
  intros Hfile plain crafted.
  assert (Hcrafted : file +:+ " --volumes" ≠ "") by (by destruct file).
  assert (Hjoined : joined_flags crafted = joined_flags plain).
  { unfold joined_flags. rewrite !getDestroyFlags_unfold. subst plain crafted.
    cbn [Name Namespace ManifestPathFlag DestroyVolumes ForceDestroy].
    rewrite (bool_decide_eq_true_2 _ Hfile), (bool_decide_eq_true_2 _ Hcrafted).
    unfold file_flag. cbn [ManifestPathFlag].
    do 2 case_bool_decide; destruct force; cbn [app strings_Join];
      rewrite ?string_app_assoc; reflexivity. }
  split_and!; [|done|].
  - rewrite !getDestroyFlags_unfold. subst plain crafted.
    cbn [Name Namespace ManifestPathFlag DestroyVolumes ForceDestroy].
    rewrite (bool_decide_eq_true_2 _ Hfile), (bool_decide_eq_true_2 _ Hcrafted).
    unfold file_flag. cbn [ManifestPathFlag].
    intros H. do 2 apply app_inv_head in H. injection H as H _.
    apply (f_equal String.length) in H. rewrite string_length_app in H.
    cbn [String.length] in H. lia.
  - unfold dockerfileSyntax. fold (joined_flags crafted) (joined_flags plain).
    by rewrite Hjoined.
Qed.
End Flags.

(** ** Flags that a shell reads back *)

(** X15. When the name is a text of literal bytes and blanks and the
    namespace and the manifest path are texts of literal bytes, a shell
    reads the flag string of the manifest back as the arguments that the
    options stand for: every flag and every value is one word, in the
    order name, namespace, manifest path, volumes, force. *)
Theorem plain_flags_are_read_back (opts : Options) :
  literal_or_blank (Name opts) = true →
  literal_text (Namespace opts) = true →
  literal_text (ManifestPathFlag opts) = true →
  sh_words (joined_flags opts) = Some (destroy_arguments opts).
Proof.
  intros Hname [Hns Hns']%literal_text_or_blank [Hfile Hfile']%literal_text_or_blank.
  rewrite joined_flags_words by done. f_equal.
  unfold destroy_words, destroy_arguments.
  case_bool_decide as H1; case_bool_decide as H2; case_bool_decide as H3;
    rewrite ?(proj2 (blank_fields_one (Namespace opts))) by done;
    rewrite ?(proj2 (blank_fields_one (ManifestPathFlag opts))) by done; reflexivity.
Qed.

(** ** The command that [newRemoteDestroyer] builds *)

Lemma fetchClusterMetadata_world (st : St) :
  st_world (fetchClusterMetadata st).2 = st_world st.
Proof.
  unfold fetchClusterMetadata, record. cbn [st_world st_trace].
  destruct (api_Provide _) as [e|]; [done|].
  destruct (api_GetClusterMetadata _ _) as [metadata [e|]]; [done|].
  destruct (Certificate metadata); [done|].
  by destruct (api_GetClusterCertificate _ _ _) as [cert err].
Qed.

Lemma fetchClusterMetadata_returns_something (st : St) :
  (fetchClusterMetadata st).1 ≠ (None, None).
Proof.
  unfold fetchClusterMetadata, record. cbn [st_world st_trace].
  destruct (api_Provide _) as [e|]; [done|].
  destruct (api_GetClusterMetadata _ _) as [metadata [e|]]; [done|].
  destruct (Certificate metadata); [done|].
  by destruct (api_GetClusterCertificate _ _ _) as [cert err].
Qed.

Lemma fetchClusterMetadata_provider_spec (w : World) :
  fetchClusterMetadata_provider w =
    match (fetchClusterMetadata (start w)).1 with
    | (_, Some err) => (Err err, w)
    | (Some metadata, None) => (Ok metadata, w)
    | (None, None) => (Err (errors_New "nil metadata"), w)
    end.
Proof.
  unfold fetchClusterMetadata_provider.
  pose proof (fetchClusterMetadata_world (start w)) as Hw.
  destruct (fetchClusterMetadata (start w)) as [[md err] st]. cbn [fst snd] in *.
  rewrite Hw. cbn [start st_world]. by destruct md, err.
Qed.

Section Default.
Variable decls : ErrorDecls.
Variable k : Constants.

(** X11. The command that [newRemoteDestroyer] builds takes its destroy
    image from the manifest, and its [destroy] stops as soon as
    [fetchClusterMetadata] reports an error, also when metadata came back
    with the error because only the certificate call failed: the error is
    returned as it is, and no directory, file or builder has been
    touched.  When [fetchClusterMetadata] reports no error, its metadata
    is what the provider hands to [destroy]. *)
Theorem default_destroy_stops_on_fetch_error (NewBuilderFromScratch : Builder)
    (NewTemporalDirectoryCtrl : Fs → TemporalDirectoryInterface) (m : Manifest)
    (opts : Options) (st : St) :
  let rd := newRemoteDestroyer NewBuilderFromScratch NewTemporalDirectoryCtrl m in
  let fetched := (fetchClusterMetadata (start (st_world st))).1 in
  destroyImage rd = manifest_Destroy_Image m ∧
  (∀ e, fetched.2 = Some e →
        destroy decls k rd opts st = (Err e, record ev_clusterMetadata st)) ∧
  (fetched.2 = None →
   ∃ metadata, fetched.1 = Some metadata ∧
               clusterMetadata rd (st_world st) = (Ok metadata, st_world st)).
Proof.
  intros rd fetched. split; [done|].
  pose proof (fetchClusterMetadata_returns_something (start (st_world st))) as Hsome.
  fold fetched in Hsome. split.
  - intros e He. unfold destroy.
    unfold mbind, M_mbind, M_bind, mret, M_mret, M_ret, emit, call.
    cbn [st_world st_trace rd newRemoteDestroyer clusterMetadata].
    rewrite fetchClusterMetadata_provider_spec. fold fetched.
    destruct fetched as [md err]. cbn [snd] in He. subst err. by destruct md.
  - intros Hnone. cbn [rd newRemoteDestroyer clusterMetadata].
    rewrite fetchClusterMetadata_provider_spec. fold fetched.
    destruct fetched as [[metadata|] err]; cbn [fst snd] in *; subst err; [|done].
    by exists metadata.
Qed.
End Default.

(** ** The command launchers *)

Lemma Sprintf_entry (a b : string) : Sprintf "%s=%s" [a; b] = a +:+ "=" +:+ b.
Proof. cbn. by rewrite string_app_nil_r. Qed.

Lemma cut_entry (key value : string) :
  equals_free key = true → exec.cut (key +:+ "=" +:+ value) = Some (key, value).
Proof.
  change ("=" +:+ value) with (String "=" value).
  induction key as [|x key IH]; cbn [String.append exec.cut]; [done|].
  unfold equals_free. cbn [string_forallb]. intros [Hx Hkey]%andb_prop.
  apply negb_true_iff in Hx. rewrite Hx. by rewrite (IH Hkey).
Qed.

Lemma lookup_Env_entry (env : list string) (key' value key : string) :
  equals_free key' = true →
  exec.lookup_Env (env ++ commands.entry_with key' value) key =
    if bool_decide (key = key' ∧ value ≠ "") then Some value else exec.lookup_Env env key.
Proof.
  intros Hfree. unfold commands.entry_with.
  destruct (decide (value = "")) as [Hv|Hv].
  - rewrite (bool_decide_eq_false_2 (value ≠ "")) by (by intros ?).
    rewrite app_nil_r. rewrite bool_decide_eq_false_2; [done|]. by intros [_ ?].
  - rewrite (bool_decide_eq_true_2 (value ≠ "")) by done.
    induction env as [|kv env IH]; cbn [app exec.lookup_Env].
    + rewrite (cut_entry _ _ Hfree).
      destruct (decide (key' = key)) as [->|Hk].
      * by rewrite !bool_decide_eq_true_2.
      * rewrite !bool_decide_eq_false_2; [done| |done]. intros [? _]. by apply Hk.
    + rewrite IH. by destruct (bool_decide _).
Qed.

Lemma lookup_Env_if (b : bool) (env : list string) (key' value key : string) :
  equals_free key' = true →
  exec.lookup_Env (env ++ (if b then [key' +:+ "=" +:+ value] else [])) key =
    if bool_decide (key = key' ∧ b = true) then Some value else exec.lookup_Env env key.
Proof.
  intros Hfree. destruct b.
  - induction env as [|kv env IH]; cbn [app exec.lookup_Env].
    + rewrite (cut_entry _ _ Hfree).
      destruct (decide (key' = key)) as [->|Hk].
      * by rewrite !bool_decide_eq_true_2.
      * rewrite !bool_decide_eq_false_2; [done| |done]. intros [? _]. by apply Hk.
    + rewrite IH. by destruct (bool_decide _).
  - rewrite app_nil_r. rewrite bool_decide_eq_false_2; [done|]. by intros [_ ?].
Qed.

Lemma lookup_Env_entries (l : list (string * string)) (key : string) :
  NoDup l.*1 →
  Forall (λ kv, equals_free kv.1 = true) l →
  exec.lookup_Env ((λ kv : string * string, kv.1 +:+ "=" +:+ kv.2) <$> l) key =
    (list_to_map l : gmap string string) !! key.
Proof.
  induction l as [|[name value] l IH]; cbn [fmap list_fmap exec.lookup_Env list_to_map foldr fst snd].
  { intros _ _. by rewrite lookup_empty. }
  intros [Hname Hnodup]%NoDup_cons [Hfree Hrest]%Forall_cons.
  cbn [fst] in Hfree. rewrite (IH Hnodup Hrest), (cut_entry _ _ Hfree).
  destruct (decide (name = key)) as [->|Hne].
  - rewrite lookup_insert_eq, bool_decide_eq_true_2 by done.
    by rewrite (not_elem_of_list_to_map_1 _ _ Hname).
  - rewrite lookup_insert_ne, bool_decide_eq_false_2 by done.
    by destruct (list_to_map l !! key).
Qed.

(** The environment strings give back the variables. *)
Lemma lookup_Env_Environ (w : World) (key : string) :
  map_Forall (λ name _, equals_free name = true) (w_env w) →
  exec.lookup_Env (os_Environ w) key = w_env w !! key.
Proof.
  intros Hfree. unfold os_Environ. rewrite lookup_Env_entries.
  - by rewrite list_to_map_to_list.
  - apply NoDup_fst_map_to_list.
  - apply Forall_forall. intros [name value] Hin%elem_of_map_to_list.
    by apply (Hfree name value).
Qed.

Lemma if_Args (b : bool) (args extra : list string) (dir : string) (env : list string) :
  (if b then {| exec.Args := args ++ extra; exec.Dir := dir; exec.Env := env |}
   else {| exec.Args := args; exec.Dir := dir; exec.Env := env |}) =
  {| exec.Args := args ++ (if b then extra else []); exec.Dir := dir; exec.Env := env |}.
Proof. destruct b; [done|]. by rewrite app_nil_r. Qed.

Lemma if_Env (b : bool) (args : list string) (dir : string) (env extra : list string) :
  (if b then {| exec.Args := args; exec.Dir := dir; exec.Env := env ++ extra |}
   else {| exec.Args := args; exec.Dir := dir; exec.Env := env |}) =
  {| exec.Args := args; exec.Dir := dir; exec.Env := env ++ (if b then extra else []) |}.
Proof. destruct b; [done|]. by rewrite app_nil_r. Qed.

Lemma if_Dir (args : list string) (dir : string) (env : list string) :
  (if bool_decide (dir ≠ "") then {| exec.Args := args; exec.Dir := dir; exec.Env := env |}
   else {| exec.Args := args; exec.Dir := ""; exec.Env := env |}) =
  {| exec.Args := args; exec.Dir := dir; exec.Env := env |}.
Proof. case_bool_decide as H; [done|]. by rewrite H. Qed.

Lemma if_Env_twice (b : bool) (args : list string) (dir : string)
    (env first second : list string) :
  (if b then {| exec.Args := args; exec.Dir := dir; exec.Env := (env ++ first) ++ second |}
   else {| exec.Args := args; exec.Dir := dir; exec.Env := env |}) =
  {| exec.Args := args; exec.Dir := dir;
     exec.Env := env ++ (if b then first ++ second else []) |}.
Proof. destruct b; [by rewrite <- app_assoc|]. by rewrite app_nil_r. Qed.

Lemma if_nonempty (l : list string) : (if bool_decide (0 < length l) then l else []) = l.
Proof. case_bool_decide as H; [done|]. destruct l; [done|]. cbn in H. lia. Qed.

(** One assignment of a launcher: the command built so far goes into the
    rest of the function. *)
Ltac launcher_step :=
  match goal with
  | |- (let x := ?a in @?f x) = ?R =>
      let a' := eval cbv beta iota zeta delta
                  [exec.Args exec.Dir exec.Env exec.set_Args exec.set_Dir exec.set_Env
                   exec.Command] in a in
      change (f a' = R); cbv beta
  end;
  rewrite ?Sprintf_entry, ?if_Args, ?if_Env_twice, ?if_Env, ?if_Dir, ?if_nonempty.

Section Launchers.
Variable k : Constants.
Variable c : LauncherConstants.

Lemma getDestroyCmd_unfold oktetoPath o w :
  commands.getDestroyCmd k c oktetoPath o w =
    {| exec.Args :=
         oktetoPath :: "destroy" ::
         commands.flag_with "--name" (commands.DestroyOptions.Name o) ++
         commands.flag_with "-f" (commands.DestroyOptions.ManifestPath o) ++
         commands.flag_with "--namespace" (commands.DestroyOptions.Namespace o);
       exec.Dir := commands.DestroyOptions.Workdir o;
       exec.Env :=
         os_Environ w ++
         commands.entry_with (OktetoURLEnvVar c) (os_Getenv (OktetoURLEnvVar c) w) ++
         commands.entry_with (OktetoHomeEnvVar c) (commands.DestroyOptions.OktetoHome o) ++
         commands.entry_with (OktetoTokenEnvVar k) (commands.DestroyOptions.Token o) |}.
Proof.
  unfold commands.flag_with, commands.entry_with.
  cbv beta delta [commands.getDestroyCmd].
  repeat launcher_step.
  rewrite <- !app_assoc. reflexivity.
Qed.

Lemma getDeployCmd_unfold oktetoPath o w :
  commands.getDeployCmd k c oktetoPath o w =
    {| exec.Args :=
         oktetoPath :: "deploy" ::
         commands.DeployOptions.ServicesToDeploy o ++
         commands.flag_with "-f" (commands.DeployOptions.ManifestPath o) ++
         (if commands.DeployOptions.Build o then ["--build"] else []) ++
         commands.flag_with "--log-level" (commands.DeployOptions.LogLevel o) ++
         commands.flag_with "--namespace" (commands.DeployOptions.Namespace o) ++
         commands.flag_with "--log-output" (commands.DeployOptions.LogOutput o) ++
         commands.flag_with "--name" (commands.DeployOptions.Name o) ++
         commands.flag_with "--var" (commands.DeployOptions.Variables o);
       exec.Dir := commands.DeployOptions.Workdir o;
       exec.Env :=
         os_Environ w ++
         commands.entry_with (OktetoURLEnvVar c) (os_Getenv (OktetoURLEnvVar c) w) ++
         commands.entry_with (OktetoHomeEnvVar c) (commands.DeployOptions.OktetoHome o) ++
         (if bool_decide (commands.DeployOptions.OktetoHome o ≠ "")
          then [KubeConfigEnvVar c +:+ "=" +:+
                filepath_Join [commands.DeployOptions.OktetoHome o; ".kube"; "config"]]
          else []) ++
         commands.entry_with (OktetoTokenEnvVar k) (commands.DeployOptions.Token o) |}.
Proof.
  unfold commands.flag_with, commands.entry_with.
  cbv beta delta [commands.getDeployCmd].
  repeat launcher_step.
  rewrite <- !app_assoc.
  destruct (bool_decide (commands.DeployOptions.OktetoHome o ≠ "")); reflexivity.
Qed.

(** X12. The launchers pass every option value as an argument of its own,
    directly after its flag and whatever the value contains, and leave
    out the flag of an empty value: the destroy command has name,
    manifest path and namespace in this order; the deploy command has the
    services first, directly after the subcommand, then manifest path,
    build flag, log level, namespace, log output, name and variables.
    The directory of the command is the working directory of the
    options, and the remote variant of the destroy command has the remote
    flag as its last argument. *)
Theorem launcher_arguments (oktetoPath : string) (destroyOptions : commands.DestroyOptions.t)
    (deployOptions : commands.DeployOptions.t) (w : World) :
  let destroyCmd := commands.getDestroyCmd k c oktetoPath destroyOptions w in
  let deployCmd := commands.getDeployCmd k c oktetoPath deployOptions w in
  exec.Args destroyCmd =
    oktetoPath :: "destroy" ::
    commands.flag_with "--name" (commands.DestroyOptions.Name destroyOptions) ++
    commands.flag_with "-f" (commands.DestroyOptions.ManifestPath destroyOptions) ++
    commands.flag_with "--namespace" (commands.DestroyOptions.Namespace destroyOptions) ∧
  exec.Dir destroyCmd = commands.DestroyOptions.Workdir destroyOptions ∧
  exec.Args (commands.getDestroyRemoteCmd k c oktetoPath destroyOptions w) =
    exec.Args destroyCmd ++ ["--remote"] ∧
  exec.Args deployCmd =
    oktetoPath :: "deploy" ::
    commands.DeployOptions.ServicesToDeploy deployOptions ++
    commands.flag_with "-f" (commands.DeployOptions.ManifestPath deployOptions) ++
    (if commands.DeployOptions.Build deployOptions then ["--build"] else []) ++
    commands.flag_with "--log-level" (commands.DeployOptions.LogLevel deployOptions) ++
    commands.flag_with "--namespace" (commands.DeployOptions.Namespace deployOptions) ++
    commands.flag_with "--log-output" (commands.DeployOptions.LogOutput deployOptions) ++
    commands.flag_with "--name" (commands.DeployOptions.Name deployOptions) ++
    commands.flag_with "--var" (commands.DeployOptions.Variables deployOptions) ∧
  exec.Dir deployCmd = commands.DeployOptions.Workdir deployOptions.
Proof.
  intros destroyCmd deployCmd. subst destroyCmd deployCmd.
  unfold commands.getDestroyRemoteCmd.
  rewrite getDestroyCmd_unfold, getDeployCmd_unfold. done.
Qed.

(** X13. The process that the destroy command starts inherits the whole
    environment of the launcher, and the entries that the launcher
    appends come last, so that they win: the token variable has the token
    of the options when that is not empty, the home variable the home of
    the options when that is not empty, and every other variable has
    the value it has in the environment of the launcher. *)
Theorem getDestroyCmd_environment (oktetoPath : string) (o : commands.DestroyOptions.t)
    (w : World) (key : string) :
  equals_free (OktetoURLEnvVar c) = true →
  equals_free (OktetoHomeEnvVar c) = true →
  equals_free (OktetoTokenEnvVar k) = true →
  map_Forall (λ name _, equals_free name = true) (w_env w) →
  let cmd := commands.getDestroyCmd k c oktetoPath o w in
  os_Environ w `prefix_of` exec.Env cmd ∧
  exec.lookup_Env (exec.Env cmd) key =
    if bool_decide (key = OktetoTokenEnvVar k ∧ commands.DestroyOptions.Token o ≠ "")
    then Some (commands.DestroyOptions.Token o)
    else if bool_decide (key = OktetoHomeEnvVar c ∧ commands.DestroyOptions.OktetoHome o ≠ "")
    then Some (commands.DestroyOptions.OktetoHome o)
    else if bool_decide (key = OktetoURLEnvVar c ∧ os_Getenv (OktetoURLEnvVar c) w ≠ "")
    then Some (os_Getenv (OktetoURLEnvVar c) w)
    else w_env w !! key.
Proof.
  intros Hurl Hhome Htoken Hnames cmd. subst cmd.
  rewrite getDestroyCmd_unfold. cbn [exec.Env].
  split; [by eexists|].
  rewrite !app_assoc.
  by rewrite (lookup_Env_entry _ _ _ _ Htoken), (lookup_Env_entry _ _ _ _ Hhome),
    (lookup_Env_entry _ _ _ _ Hurl), (lookup_Env_Environ _ _ Hnames).
Qed.

(** X14. The process that the deploy command starts inherits the whole
    environment of the launcher, with the entries of the launcher
    winning: the token variable has the token of the options when that
    is not empty; when the home of the options is not empty, the
    kubeconfig variable is the path of the file config in the directory
    .kube of that home and the home variable is that home; every other
    variable has the value it has in the environment of the launcher. *)
Theorem getDeployCmd_environment (oktetoPath : string) (o : commands.DeployOptions.t)
    (w : World) (key : string) :
  equals_free (OktetoURLEnvVar c) = true →
  equals_free (OktetoHomeEnvVar c) = true →
  equals_free (KubeConfigEnvVar c) = true →
  equals_free (OktetoTokenEnvVar k) = true →
  map_Forall (λ name _, equals_free name = true) (w_env w) →
  let cmd := commands.getDeployCmd k c oktetoPath o w in
  let home := commands.DeployOptions.OktetoHome o in
  os_Environ w `prefix_of` exec.Env cmd ∧
  exec.lookup_Env (exec.Env cmd) key =
    if bool_decide (key = OktetoTokenEnvVar k ∧ commands.DeployOptions.Token o ≠ "")
    then Some (commands.DeployOptions.Token o)
    else if bool_decide (key = KubeConfigEnvVar c ∧ home ≠ "")
    then Some (filepath_Join [home; ".kube"; "config"])
    else if bool_decide (key = OktetoHomeEnvVar c ∧ home ≠ "")
    then Some home
    else if bool_decide (key = OktetoURLEnvVar c ∧ os_Getenv (OktetoURLEnvVar c) w ≠ "")
    then Some (os_Getenv (OktetoURLEnvVar c) w)
    else w_env w !! key.
Proof.
  intros Hurl Hhome Hkube Htoken Hnames cmd home. subst cmd home.
  rewrite getDeployCmd_unfold. cbn [exec.Env].
  split; [by eexists|].
  rewrite !app_assoc.
  rewrite (lookup_Env_entry _ _ _ _ Htoken), (lookup_Env_if _ _ _ _ _ Hkube),
    (lookup_Env_entry _ _ _ _ Hhome), (lookup_Env_entry _ _ _ _ Hurl),
    (lookup_Env_Environ _ _ Hnames).
  destruct (bool_decide (key = OktetoTokenEnvVar k ∧ _)); [done|].
  destruct (decide (commands.DeployOptions.OktetoHome o = "")) as [Hempty|Hset].
  - rewrite !(bool_decide_eq_false_2 (key = KubeConfigEnvVar c ∧ _)); [done| |].
    + by intros [_ ?].
    + intros [_ ?%bool_decide_eq_true]. done.
  - destruct (decide (key = KubeConfigEnvVar c)) as [->|Hkey].
    + by rewrite !bool_decide_eq_true_2 by (by rewrite ?bool_decide_eq_true).
    + rewrite !(bool_decide_eq_false_2 (key = KubeConfigEnvVar c ∧ _)); [done| |];
        by intros [? _].
Qed.
End Launchers.

(** ** More of the sample run *)

(** X4, witness: the builder of the sample run fails in the stage
    installer; the user error that [destroy] returns comes from the
    third case. *)
Lemma destroy_error_origin_witness :
  let rd := sample_rd (builder_returning (Some installer_failure)) in
  let e := UserError (fmt_Errorf "error during development environment deployment: %w"
                        (errors_New "exit status 1")) "" in
  (destroy sample_decls sample_constants rd example_options (start sample_world)).1 = Err e ∧
  ((staging sample_decls sample_constants rd example_options (start sample_world)).1 = Err e ∨
   ∃ sc rd' cwd dockerfile st5,
     staging sample_decls sample_constants rd example_options (start sample_world)
       = (Ok (sc, rd', cwd, dockerfile), st5) ∧
     ((wd_Change (workingDirectoryCtrl rd') cwd (st_world st5)).1 = Some e ∨
      ∃ w6 err w7 E hint,
        wd_Change (workingDirectoryCtrl rd') cwd (st_world st5) = (None, w6) ∧
        Build (builder rd') (build_request rd' sc cwd dockerfile) w6 = (Some err, w7) ∧
        e = UserError E hint)).
Proof.
  cbn zeta.
  assert ((destroy sample_decls sample_constants
             (sample_rd (builder_returning (Some installer_failure))) example_options
             (start sample_world)).1 =
          Err (UserError (fmt_Errorf "error during development environment deployment: %w"
                            (errors_New "exit status 1")) "")) as Hrun
    by (vm_compute; reflexivity).
  split; [exact Hrun|].
  exact (destroy_error_origin sample_decls sample_constants _ _ _ _ Hrun).
Defined.

(** X5, witness: the render of the sample world returns the path of the
    file deploy in the temporary directory, and the file holds what was
    written. *)
Lemma createDockerfile_writes_manifest_witness :
  let run := createDockerfile sample_decls sample_constants
               (sample_rd (builder_returning None)) "/tmp/okteto-1" example_options
               "okteto/installer:1.0.0" (start sample_world) in
  run.1 = Ok "/tmp/okteto-1/deploy" ∧
  ∃ text, last_written (st_trace run.2) = Some text ∧
          w_files (st_world run.2) !! "/tmp/okteto-1/deploy" = Some text.
Proof.
  cbn zeta.
  destruct (createDockerfile sample_decls sample_constants
              (sample_rd (builder_returning None)) "/tmp/okteto-1" example_options
              "okteto/installer:1.0.0" (start sample_world)) as [r st'] eqn:Hrun.
  assert (r = Ok "/tmp/okteto-1/deploy") as ->.
  { apply (f_equal fst) in Hrun. cbn [fst] in Hrun. rewrite <- Hrun.
    vm_compute. reflexivity. }
  split; [reflexivity|].
  exact (proj2 (proj2 (createDockerfile_writes_manifest sample_decls sample_constants
                         (sample_rd (builder_returning None)) _ _ _ _ _ _ eq_refl Hrun))).
Defined.

(** X6, witness: when the write of the manifest fails, the file that the
    render created stays in the temporary directory. *)
Lemma failed_render_leaves_manifest_file_witness :
  let run := createDockerfile sample_decls sample_constants
               (sample_rd (builder_returning None)) "/tmp/okteto-1" example_options
               "okteto/installer:1.0.0" (start write_failure_world) in
  run.1 = Err (errors_New "no space left on device") ∧
  is_Some (w_files (st_world run.2) !! "/tmp/okteto-1/deploy").
Proof.
  cbn zeta.
  destruct (createDockerfile sample_decls sample_constants
              (sample_rd (builder_returning None)) "/tmp/okteto-1" example_options
              "okteto/installer:1.0.0" (start write_failure_world)) as [r st'] eqn:Hrun.
  assert (r = Err (errors_New "no space left on device")) as ->.
  { apply (f_equal fst) in Hrun. cbn [fst] in Hrun. rewrite <- Hrun.
    vm_compute. reflexivity. }
  split; [reflexivity|].
  exact (failed_render_leaves_manifest_file sample_decls sample_constants
           (sample_rd (builder_returning None)) "/tmp/okteto-1" example_options
           "okteto/installer:1.0.0" (start write_failure_world) "/home/dev/app"
           write_failure_world 7%N [Byte.x00; Byte.x07] _ _
           eq_refl eq_refl eq_refl eq_refl Hrun).
Defined.

(** X7, witness: the sample command has no destroy image of its own, and
    the manifest of the sample run takes the pipeline runner image of the
    metadata. *)
Lemma manifest_stage_images_witness :
  ∃ data,
    last_written (st_trace sample_staged) = Some (Execute dockerfileTemplate data) ∧
    "FROM okteto/pipeline-runner:1.0.0 as deploy" ∈ manifest_lines data ∧
    "FROM okteto/installer:1.0.0 as installer" ∈ manifest_lines data.
Proof.
  destruct (manifest_stage_images sample_decls sample_constants _ _ _ _ _ _ _ _
              (sample_staging (builder_returning None)))
    as (data & Hlast & _ & Hdeploy & Hinstaller & _).
  exists data. split; [exact Hlast|]. split; [exact Hdeploy|exact Hinstaller].
Defined.

(** X8, witness: the sample run captures the directory of the project,
    where an ignore-file lies, but looks the ignore-file up in the
    temporary directory, into which the controller has moved the process:
    the ignore-file of the project is not consulted. *)
Lemma ignore_file_is_looked_up_after_the_move_witness :
  w_files sample_world !! ignore_source "/home/dev/app" = Some ("node_modules" +:+ LF) ∧
  ev_Stat (ignore_source "/tmp/okteto-1") ∈ events_since (start sample_world) sample_staged ∧
  ev_Stat (ignore_source "/home/dev/app") ∉ events_since (start sample_world) sample_staged.
Proof.
  destruct (ignore_file_is_looked_up_after_the_move sample_decls sample_constants
              _ _ _ _ _ _ _ _ (sample_staging (builder_returning None)))
    as (w1 & w2 & tmpDir & w3 & cwd' & w4 & _ & _ & _ & _ & Hstat).
  assert (ev_Stat (ignore_source "/tmp/okteto-1")
            ∈ events_since (start sample_world) sample_staged) as Hin.
  { vm_compute. do 6 apply list_elem_of_further. apply list_elem_of_here. }
  split; [reflexivity|]. split; [exact Hin|].
  intros Hproject. apply Hstat in Hin. apply Hstat in Hproject.
  rewrite <- Hin in Hproject. discriminate Hproject.
Defined.

(** X15, witness: the options of the scenario. *)
Lemma plain_flags_are_read_back_witness :
  sh_words (joined_flags example_options) =
    Some ["--name"; "myenv"; "--namespace"; "ns1"; "--volumes"].
Proof.
  exact (plain_flags_are_read_back example_options eq_refl eq_refl eq_refl).
Defined.

(** X10, witness: a manifest path that ends in the volumes flag. *)
Lemma flag_string_is_ambiguous_witness :
  joined_flags {| Name := "myenv"; Namespace := "ns1";
                  ManifestPathFlag := "okteto.yml --volumes";
                  DestroyVolumes := false; ForceDestroy := false |} =
  joined_flags {| Name := "myenv"; Namespace := "ns1"; ManifestPathFlag := "okteto.yml";
                  DestroyVolumes := true; ForceDestroy := false |}.
Proof.
  refine (proj1 (proj2 (flag_string_is_ambiguous sample_constants
                          (sample_rd (builder_returning None)) "" 0%N sample_world
                          "myenv" "ns1" "okteto.yml" false _))).
  discriminate.
Defined.

Lemma launcher_world_names :
  map_Forall (λ name _, equals_free name = true) (w_env launcher_world).
Proof.
  unfold launcher_world. cbn [w_env set_env].
  repeat apply map_Forall_insert_2; try reflexivity.
  apply map_Forall_empty.
Qed.

(** X13, witness: the token of the options wins over the token that the
    launcher has in its own environment. *)
Lemma getDestroyCmd_environment_witness :
  w_env launcher_world !! "OKTETO_TOKEN" = Some "inherited" ∧
  exec.lookup_Env
    (exec.Env (commands.getDestroyCmd sample_constants sample_launcher_constants "okteto"
                 sample_DestroyOptions launcher_world))
    "OKTETO_TOKEN" = Some "secret".
Proof.
  split; [reflexivity|].
  exact (proj2 (getDestroyCmd_environment sample_constants sample_launcher_constants
                  "okteto" sample_DestroyOptions launcher_world "OKTETO_TOKEN"
                  eq_refl eq_refl eq_refl launcher_world_names)).
Defined.

(** X14, witness: the kubeconfig of the deploy command is derived from
    the home of the options, and the token, which the options leave
    empty, is the one of the launcher. *)
Lemma getDeployCmd_environment_witness :
  let env := exec.Env (commands.getDeployCmd sample_constants sample_launcher_constants
                         "okteto" sample_DeployOptions launcher_world) in
  exec.lookup_Env env "KUBECONFIG" = Some "/tmp/home/.kube/config" ∧
  exec.lookup_Env env "OKTETO_TOKEN" = Some "inherited".
Proof.
  split.
  - exact (proj2 (getDeployCmd_environment sample_constants sample_launcher_constants
                    "okteto" sample_DeployOptions launcher_world "KUBECONFIG"
                    eq_refl eq_refl eq_refl eq_refl launcher_world_names)).
  - exact (proj2 (getDeployCmd_environment sample_constants sample_launcher_constants
                    "okteto" sample_DeployOptions launcher_world "OKTETO_TOKEN"
                    eq_refl eq_refl eq_refl eq_refl launcher_world_names)).
Defined.
